(** * Component-Web: the reconnecting socket client, its heartbeat wrapper,
      the websocket store, the console view and the dashboard listener.

    Shallow embedding of
    - [frontend/src/utils/websocket.ts]  (classes [WebSocketClient] and
      [AutoReconnectWebSocket]),
    - the pinia store [useWebSocketStore] (stores/websocket),
    - the console view: [sendCommand], the command history and the keys,
    - the dashboard view: its websocket listener and [formatUptime].

    The browser is the environment: it owns the sockets, the timers and the
    clock, and it delivers the transport events.  A client is a record of the
    private fields of the class; every method is a function on the record
    [World], which also carries the environment and a ghost [trace] of the
    visible effects, in program order. *)

From Stdlib Require Import List ZArith Bool String Ascii Lia PeanoNat DecimalString.
Import ListNotations.

Local Open Scope string_scope.
Local Open Scope Z_scope.

(* ================================================================== *)
(** ** Types of [@/types] *)

Record WSConnectionStatus : Type := mkStatus {
  connected : bool;
  reconnecting : bool;
  error : option string
}.

(** [data: any]: the console channel carries [{level, source, message}]. *)
Inductive Data : Type :=
| ConsoleData (level source message : string)
| OtherData (raw : string).

Record WSMessage : Type := mkMessage {
  type : string;
  timestamp : string;
  data : Data
}.

(** [ConsoleMessage] has the shape of [WSMessage]. *)
Definition ConsoleMessage : Type := WSMessage.

(** Outbound frames, the argument of [send]. *)
Inductive Frame : Type :=
| CommandFrame (command timestamp : string)
| PingFrame (timestamp : string)
| RawFrame (json : string).

(* ================================================================== *)
(** ** The environment *)

Inductive ReadyState : Type := CONNECTING | OPEN | CLOSING | CLOSED.

Definition ReadyState_eqb (a b : ReadyState) : bool :=
  match a, b with
  | CONNECTING, CONNECTING | OPEN, OPEN | CLOSING, CLOSING | CLOSED, CLOSED => true
  | _, _ => false
  end.

(** One [WebSocket] object.  [settled] tells whether the promise of the
    [connect()] call that created the socket was resolved or rejected;
    [thenStartPing] whether the continuation of
    [AutoReconnectWebSocket.connect] ([await super.connect(); this.startPing()])
    waits on that promise; [closeFired] whether the close event was
    dispatched. *)
Record Socket : Type := mkSocket {
  readyState : ReadyState;
  settled : bool;
  thenStartPing : bool;
  closeFired : bool
}.

Inductive Level : Type := LLog | LWarn | LError.

Inductive exn : Type := Exn (what : string).

(** Visible effects, recorded in program order. *)
Inductive Effect : Type :=
| ENewWebSocket (s : nat) (url : string)
| EWsClose (s : nat) (code : Z) (reason : string)
| EWsSend (s : nat) (f : Frame)
| ESetTimeout (id : Z) (delay : Z)
| ESetInterval (id : Z) (period : Z)
| EClearInterval (id : Z)
| EConsole (l : Level) (text : string)
| EStatus (st : WSConnectionStatus)
| ECall (handler : nat)
| EResolve (s : nat)
| EReject (s : option nat).

(** JS truthiness of [number | null]. *)
Definition truthy (x : option Z) : bool :=
  match x with
  | Some n => negb (n =? 0)
  | None => false
  end.

Fixpoint remove_id (id : Z) (l : list (Z * Z)) : list (Z * Z) :=
  match l with
  | [] => []
  | (i, d) :: l' => if i =? id then l' else (i, d) :: remove_id id l'
  end.

Definition has_id (id : Z) (l : list (Z * Z)) : bool :=
  existsb (fun p => fst p =? id) l.

Fixpoint update_nth {A : Type} (n : nat) (f : A -> A) (l : list A) : list A :=
  match l, n with
  | [], _ => []
  | a :: l', O => f a :: l'
  | a :: l', S n' => a :: update_nth n' f l'
  end.

Section Client.

Context {W : Type}.

(** A registered listener.  [hid] is the identity of the function object
    ([indexOf] compares by identity); [hrun] is its body acting on the state
    [W] of the subscriber: it returns the new state and the exception it
    raised, if any.  Such a listener does not reach back into the client;
    listeners that subscribe or unsubscribe while a dispatch runs are
    [LiveHandler]s, further down, and [plain] embeds these ones there. *)
Record Handler (A : Type) : Type := mkHandler {
  hid : nat;
  hrun : A -> W -> W * option exn
}.
Arguments hid {A} _.
Arguments hrun {A} _ _ _.

Definition MessageHandler : Type := Handler WSMessage.
Definition ConnectionHandler : Type := Handler WSConnectionStatus.

Record World : Type := mkWorld {
  (* class WebSocketClient *)
  ws : option nat;
  url : string;
  reconnectAttempts : Z;
  messageHandlers : list MessageHandler;
  connectionHandlers : list ConnectionHandler;
  connectionStatus : WSConnectionStatus;
  (* class AutoReconnectWebSocket *)
  heartbeat : bool;
  pingInterval : option Z;
  (* browser *)
  sockets : list Socket;
  timeouts : list (Z * Z);
  intervals : list (Z * Z);
  nextTimerId : Z;
  (* subscribers and ghost trace *)
  subs : W;
  trace : list Effect
}.

Definition maxReconnectAttempts : Z := 5.
Definition reconnectDelay : Z := 1000.
Definition pingIntervalMs : Z := 30000.

Definition set_ws v (w : World) : World :=
  mkWorld v (url w) (reconnectAttempts w) (messageHandlers w) (connectionHandlers w)
    (connectionStatus w) (heartbeat w) (pingInterval w) (sockets w) (timeouts w)
    (intervals w) (nextTimerId w) (subs w) (trace w).
Definition set_reconnectAttempts v (w : World) : World :=
  mkWorld (ws w) (url w) v (messageHandlers w) (connectionHandlers w)
    (connectionStatus w) (heartbeat w) (pingInterval w) (sockets w) (timeouts w)
    (intervals w) (nextTimerId w) (subs w) (trace w).
Definition set_messageHandlers v (w : World) : World :=
  mkWorld (ws w) (url w) (reconnectAttempts w) v (connectionHandlers w)
    (connectionStatus w) (heartbeat w) (pingInterval w) (sockets w) (timeouts w)
    (intervals w) (nextTimerId w) (subs w) (trace w).
Definition set_connectionHandlers v (w : World) : World :=
  mkWorld (ws w) (url w) (reconnectAttempts w) (messageHandlers w) v
    (connectionStatus w) (heartbeat w) (pingInterval w) (sockets w) (timeouts w)
    (intervals w) (nextTimerId w) (subs w) (trace w).
Definition set_connectionStatus v (w : World) : World :=
  mkWorld (ws w) (url w) (reconnectAttempts w) (messageHandlers w) (connectionHandlers w)
    v (heartbeat w) (pingInterval w) (sockets w) (timeouts w)
    (intervals w) (nextTimerId w) (subs w) (trace w).
Definition set_pingInterval v (w : World) : World :=
  mkWorld (ws w) (url w) (reconnectAttempts w) (messageHandlers w) (connectionHandlers w)
    (connectionStatus w) (heartbeat w) v (sockets w) (timeouts w)
    (intervals w) (nextTimerId w) (subs w) (trace w).
Definition set_sockets v (w : World) : World :=
  mkWorld (ws w) (url w) (reconnectAttempts w) (messageHandlers w) (connectionHandlers w)
    (connectionStatus w) (heartbeat w) (pingInterval w) v (timeouts w)
    (intervals w) (nextTimerId w) (subs w) (trace w).
Definition set_timeouts v (w : World) : World :=
  mkWorld (ws w) (url w) (reconnectAttempts w) (messageHandlers w) (connectionHandlers w)
    (connectionStatus w) (heartbeat w) (pingInterval w) (sockets w) v
    (intervals w) (nextTimerId w) (subs w) (trace w).
Definition set_intervals v (w : World) : World :=
  mkWorld (ws w) (url w) (reconnectAttempts w) (messageHandlers w) (connectionHandlers w)
    (connectionStatus w) (heartbeat w) (pingInterval w) (sockets w) (timeouts w)
    v (nextTimerId w) (subs w) (trace w).
Definition set_nextTimerId v (w : World) : World :=
  mkWorld (ws w) (url w) (reconnectAttempts w) (messageHandlers w) (connectionHandlers w)
    (connectionStatus w) (heartbeat w) (pingInterval w) (sockets w) (timeouts w)
    (intervals w) v (subs w) (trace w).
Definition set_subs v (w : World) : World :=
  mkWorld (ws w) (url w) (reconnectAttempts w) (messageHandlers w) (connectionHandlers w)
    (connectionStatus w) (heartbeat w) (pingInterval w) (sockets w) (timeouts w)
    (intervals w) (nextTimerId w) v (trace w).
Definition set_trace v (w : World) : World :=
  mkWorld (ws w) (url w) (reconnectAttempts w) (messageHandlers w) (connectionHandlers w)
    (connectionStatus w) (heartbeat w) (pingInterval w) (sockets w) (timeouts w)
    (intervals w) (nextTimerId w) (subs w) v.

(** Append one effect to the trace. *)
Definition emit (e : Effect) (w : World) : World := set_trace (trace w ++ [e]) w.

Definition console (l : Level) (text : string) (w : World) : World :=
  emit (EConsole l text) w.

(* ------------------------------------------------------------------ *)
(** *** Exceptions, [forEach], [try]/[catch] *)

Inductive completion : Type :=
| Normal (w : World)
| Throw (e : exn) (w : World).

Definition world_of (c : completion) : World :=
  match c with
  | Normal w => w
  | Throw _ w => w
  end.

(** [Array.prototype.forEach]: the callback runs on each element in index
    order; an exception of the callback ends the iteration and propagates. *)
Fixpoint forEach {A : Type} (f : A -> World -> completion) (l : list A) (w : World)
  : completion :=
  match l with
  | [] => Normal w
  | a :: l' =>
      match f a w with
      | Normal w' => forEach f l' w'
      | Throw e w' => Throw e w'
      end
  end.

Definition try_catch (body : World -> completion) (handler : exn -> World -> completion)
  (w : World) : completion :=
  match body w with
  | Normal w' => Normal w'
  | Throw e w' => handler e w'
  end.

(** The call [handler(x)]. *)
Definition call {A : Type} (h : Handler A) (x : A) (w : World) : completion :=
  let w := emit (ECall (hid h)) w in
  let (s', r) := hrun h x (subs w) in
  match r with
  | None => Normal (set_subs s' w)
  | Some e => Throw e (set_subs s' w)
  end.

(** [handleMessage] (websocket.ts, 156-165). *)
Definition handleMessage_c (message : WSMessage) (w : World) : completion :=
  let w := console LLog "WebSocket message received:" w in
  forEach (fun handler =>
             try_catch (call handler message)
               (fun _ w => Normal (console LError "Error in message handler:" w)))
    (messageHandlers w) w.

(** [updateConnectionStatus] (websocket.ts, 167-176). *)
Definition updateConnectionStatus_c (status : WSConnectionStatus) (w : World) : completion :=
  let w := emit (EStatus status) (set_connectionStatus status w) in
  forEach (fun handler =>
             try_catch (call handler (connectionStatus w))
               (fun _ w => Normal (console LError "Error in connection handler:" w)))
    (connectionHandlers w) w.

(** Neither of the two dispatch loops throws (lemmas [handleMessage_returns] and
    [updateConnectionStatus_returns]); the methods below use the worlds they
    return. *)
Definition handleMessage (message : WSMessage) (w : World) : World :=
  world_of (handleMessage_c message w).

Definition updateConnectionStatus (status : WSConnectionStatus) (w : World) : World :=
  world_of (updateConnectionStatus_c status w).

(* ------------------------------------------------------------------ *)
(** *** Browser primitives *)

(** The object literal [{connected, reconnecting, error?}]. *)
Definition status (c r : bool) (e : option string) : WSConnectionStatus :=
  mkStatus c r e.

Definition socket_state (s : nat) (w : World) : option Socket := nth_error (sockets w) s.

Definition update_socket (s : nat) (f : Socket -> Socket) (w : World) : World :=
  set_sockets (update_nth s f (sockets w)) w.

Definition set_readyState (r : ReadyState) (k : Socket) : Socket :=
  mkSocket r (settled k) (thenStartPing k) (closeFired k).
Definition set_settled (k : Socket) : Socket :=
  mkSocket (readyState k) true (thenStartPing k) (closeFired k).
Definition set_thenStartPing (k : Socket) : Socket :=
  mkSocket (readyState k) (settled k) true (closeFired k).
Definition set_closeFired (k : Socket) : Socket :=
  mkSocket (readyState k) (settled k) (thenStartPing k) true.

(** [new WebSocket(url)]: a fresh socket in state CONNECTING. *)
Definition new_WebSocket (w : World) : nat * World :=
  let s := List.length (sockets w) in
  (s, emit (ENewWebSocket s (url w))
        (set_sockets (sockets w ++ [mkSocket CONNECTING false false false]) w)).

(** [socket.close(code, reason)]: starts the closing handshake of a socket
    that is connecting or open, does nothing on one that is closing or
    closed. *)
Definition ws_close (s : nat) (code : Z) (reason : string) (w : World) : World :=
  let w := emit (EWsClose s code reason) w in
  update_socket s (fun k => match readyState k with
                            | CONNECTING | OPEN => set_readyState CLOSING k
                            | _ => k
                            end) w.

Definition is_open (s : nat) (w : World) : bool :=
  match socket_state s w with
  | Some k => ReadyState_eqb (readyState k) OPEN
  | None => false
  end.

(** [setTimeout(cb, delay)] and [setInterval(cb, period)] draw their ids,
    which are positive, from one counter. *)
Definition setTimeout (delay : Z) (w : World) : World :=
  let id := nextTimerId w in
  emit (ESetTimeout id delay)
    (set_nextTimerId (id + 1) (set_timeouts (timeouts w ++ [(id, delay)]) w)).

Definition setInterval (period : Z) (w : World) : Z * World :=
  let id := nextTimerId w in
  (id, emit (ESetInterval id period)
         (set_nextTimerId (id + 1) (set_intervals (intervals w ++ [(id, period)]) w))).

Definition clearInterval (id : Z) (w : World) : World :=
  emit (EClearInterval id) (set_intervals (remove_id id (intervals w)) w).

(* ------------------------------------------------------------------ *)
(** *** class WebSocketClient *)

(** [send] (110-116). *)
Definition send (message : Frame) (w : World) : World :=
  match ws w with
  | Some s =>
      if is_open s w then emit (EWsSend s message) w
      else console LWarn "WebSocket is not connected, cannot send message" w
  | None => console LWarn "WebSocket is not connected, cannot send message" w
  end.

(** [sendCommand] (118-124) and [ping] (126-131); [now] is
    [new Date().toISOString()]. *)
Definition sendCommand (command now : string) (w : World) : World :=
  send (CommandFrame command now) w.

Definition ping (now : string) (w : World) : World :=
  send (PingFrame now) w.

Definition isConnected (w : World) : bool := connected (connectionStatus w).

Definition getConnectionStatus (w : World) : WSConnectionStatus := connectionStatus w.

(** [onMessage]/[onConnectionChange]: [push]. *)
Definition onMessage (handler : MessageHandler) (w : World) : World :=
  set_messageHandlers (messageHandlers w ++ [handler]) w.

Definition onConnectionChange (handler : ConnectionHandler) (w : World) : World :=
  set_connectionHandlers (connectionHandlers w ++ [handler]) w.

(** [indexOf] then [splice(index, 1)]: the first occurrence goes. *)
Fixpoint remove_first {A : Type} (h : Handler A) (l : list (Handler A)) : list (Handler A) :=
  match l with
  | [] => []
  | x :: l' => if Nat.eqb (hid x) (hid h) then l' else x :: remove_first h l'
  end.

Definition offMessage (handler : MessageHandler) (w : World) : World :=
  set_messageHandlers (remove_first handler (messageHandlers w)) w.

Definition offConnectionChange (handler : ConnectionHandler) (w : World) : World :=
  set_connectionHandlers (remove_first handler (connectionHandlers w)) w.

(** The promise of the [connect()] call that made socket [s]. *)
Definition is_settled (s : nat) (w : World) : bool :=
  match socket_state s w with
  | Some k => settled k
  | None => true
  end.

Definition awaits_startPing (s : nat) (w : World) : bool :=
  match socket_state s w with
  | Some k => thenStartPing k
  | None => false
  end.

(** [stopPing] (222-227) and [startPing] (213-220). *)
Definition stopPing (w : World) : World :=
  if truthy (pingInterval w) then
    match pingInterval w with
    | Some id => set_pingInterval None (clearInterval id w)
    | None => w
    end
  else w.

Definition startPing (w : World) : World :=
  let w := stopPing w in
  let (id, w) := setInterval pingIntervalMs w in
  set_pingInterval (Some id) w.

(** The callback given to [setInterval]. *)
Definition pingTick (now : string) (w : World) : World :=
  if isConnected w then ping now w else w.

(** [resolve()] inside [onopen]: settles the promise once; the awaiting
    continuation of the subclass then runs [startPing]. *)
Definition resolve (s : nat) (w : World) : World :=
  if is_settled s w then w
  else
    let w := emit (EResolve s) (update_socket s set_settled w) in
    if awaits_startPing s w then startPing w else w.

Definition reject (s : nat) (w : World) : World :=
  if is_settled s w then w
  else emit (EReject (Some s)) (update_socket s set_settled w).

(** [attemptReconnect] (77-100).  The timer callback is
    [this.connect().catch(...)]. *)
Definition attemptReconnect (w : World) : World :=
  if reconnectAttempts w >=? maxReconnectAttempts then
    let w := console LError "Max reconnection attempts reached" w in
    updateConnectionStatus (status false false (Some "Max reconnection attempts reached")) w
  else
    let w := set_reconnectAttempts (reconnectAttempts w + 1) w in
    let delay := reconnectDelay * 2 ^ (reconnectAttempts w - 1) in
    let w := console LLog "Attempting to reconnect" w in
    let w := updateConnectionStatus (status false true None) w in
    setTimeout delay w.

(** The four callbacks installed by [connect] (30-64).  They close over
    [this], not over the socket they are installed on. *)
Definition onopen (s : nat) (w : World) : World :=
  let w := console LLog "WebSocket connected:" w in
  let w := set_reconnectAttempts 0 w in
  let w := updateConnectionStatus (status true false None) w in
  resolve s w.

Definition onmessage (payload : option WSMessage) (w : World) : World :=
  match payload with
  | Some message => handleMessage message w
  | None => console LError "Failed to parse WebSocket message:" w
  end.

Definition onclose (code : Z) (reason : string) (w : World) : World :=
  let w := console LLog "WebSocket closed:" w in
  let w := updateConnectionStatus (status false false None) w in
  if negb (code =? 1000) && (reconnectAttempts w <? maxReconnectAttempts)
  then attemptReconnect w
  else w.

Definition onerror (s : nat) (w : World) : World :=
  let w := console LError "WebSocket error:" w in
  let w := updateConnectionStatus (status false false (Some "Connection error")) w in
  reject s w.

(** [WebSocketClient.connect] (23-75); [ctor_throws] says whether
    [new WebSocket] raises.  The result names the socket made, if any. *)
Definition WebSocketClient_connect (ctor_throws : bool) (w : World) : option nat * World :=
  let w := updateConnectionStatus (status false true None) w in
  if ctor_throws then
    let w := updateConnectionStatus
               (status false false (Some "Failed to create WebSocket connection")) w in
    (None, emit (EReject None) w)
  else
    let (s, w) := new_WebSocket w in
    (Some s, set_ws (Some s) w).

(** [WebSocketClient.disconnect] (102-108). *)
Definition WebSocketClient_disconnect (w : World) : World :=
  let w := match ws w with
           | Some s => set_ws None (ws_close s 1000 "Manual disconnect" w)
           | None => w
           end in
  updateConnectionStatus (status false false None) w.

(* ------------------------------------------------------------------ *)
(** *** class AutoReconnectWebSocket *)

(** [connect] (203-206): [await super.connect()] then [startPing()]. *)
Definition AutoReconnectWebSocket_connect (ctor_throws : bool) (w : World) : World :=
  match WebSocketClient_connect ctor_throws w with
  | (Some s, w) => update_socket s set_thenStartPing w
  | (None, w) => w
  end.

(** [disconnect] (208-211). *)
Definition AutoReconnectWebSocket_disconnect (w : World) : World :=
  WebSocketClient_disconnect (stopPing w).

(** Method dispatch on the class of the instance. *)
Definition connect (ctor_throws : bool) (w : World) : World :=
  if heartbeat w then AutoReconnectWebSocket_connect ctor_throws w
  else snd (WebSocketClient_connect ctor_throws w).

Definition disconnect (w : World) : World :=
  if heartbeat w then AutoReconnectWebSocket_disconnect w
  else WebSocketClient_disconnect w.

(* ------------------------------------------------------------------ *)
(** *** Events *)

Inductive Event : Type :=
(* calls of the owner *)
| CallConnect (ctor_throws : bool)
| CallDisconnect
| CallSend (message : Frame)
| CallSendCommand (command now : string)
| CallPing (now : string)
| CallOnMessage (h : MessageHandler)
| CallOffMessage (h : MessageHandler)
| CallOnConnectionChange (h : ConnectionHandler)
| CallOffConnectionChange (h : ConnectionHandler)
(* transport events of socket [s] *)
| EvOpen (s : nat)
| EvMessage (s : nat) (payload : option WSMessage)
| EvError (s : nat)
| EvClose (s : nat) (code : Z) (reason : string)
(* timers *)
| EvTimeout (id : Z) (ctor_throws : bool)
| EvTick (id : Z) (now : string).

(** One event.  A call runs the method.  A transport event first moves the
    socket in the browser ([open]: OPEN; [error], which the browser sends
    right before [close]: CLOSED; [close]: CLOSED, and dispatched) and then
    runs the callback that [connect] installed.  A timer that is no longer
    pending or active does not fire. *)
Definition step (e : Event) (w : World) : World :=
  match e with
  | CallConnect t => connect t w
  | CallDisconnect => disconnect w
  | CallSend m => send m w
  | CallSendCommand c now => sendCommand c now w
  | CallPing now => ping now w
  | CallOnMessage h => onMessage h w
  | CallOffMessage h => offMessage h w
  | CallOnConnectionChange h => onConnectionChange h w
  | CallOffConnectionChange h => offConnectionChange h w
  | EvOpen s => onopen s (update_socket s (set_readyState OPEN) w)
  | EvMessage s payload => onmessage payload w
  | EvError s => onerror s (update_socket s (set_readyState CLOSED) w)
  | EvClose s code reason =>
      onclose code reason
        (update_socket s (fun k => set_closeFired (set_readyState CLOSED k)) w)
  | EvTimeout id t =>
      if has_id id (timeouts w)
      then connect t (set_timeouts (remove_id id (timeouts w)) w)
      else w
  | EvTick id now =>
      if has_id id (intervals w) then pingTick now w else w
  end.

(** What a browser can deliver: [open] to a connecting socket, messages to
    an open or closing one, [error] before the socket is closed, one [close]
    per socket; only pending timers fire. *)
Definition enabled (e : Event) (w : World) : bool :=
  match e with
  | EvOpen s =>
      match socket_state s w with
      | Some k => ReadyState_eqb (readyState k) CONNECTING
      | None => false
      end
  | EvMessage s _ =>
      match socket_state s w with
      | Some k => ReadyState_eqb (readyState k) OPEN || ReadyState_eqb (readyState k) CLOSING
      | None => false
      end
  | EvError s =>
      match socket_state s w with
      | Some k => negb (ReadyState_eqb (readyState k) CLOSED)
      | None => false
      end
  | EvClose s _ _ =>
      match socket_state s w with
      | Some k => negb (closeFired k)
      | None => false
      end
  | EvTimeout id _ => has_id id (timeouts w)
  | EvTick id _ => has_id id (intervals w)
  | _ => true
  end.

Definition run (es : list Event) (w : World) : World :=
  fold_left (fun w e => step e w) es w.

Fixpoint feasible (es : list Event) (w : World) : bool :=
  match es with
  | [] => true
  | e :: es' => enabled e w && feasible es' (step e w)
  end.

(** [new WebSocketClient(url)] / [new AutoReconnectWebSocket(url)]. *)
Definition new_client (auto : bool) (u : string) (s0 : W) : World :=
  mkWorld None u 0 [] [] (status false false None) auto None [] [] [] 1 s0 [].

End Client.

Arguments Handler : clear implicits.
Arguments World : clear implicits.
Arguments completion : clear implicits.
Arguments Event : clear implicits.
Arguments mkHandler {W A} _ _.
Arguments hid {W A} _.
Arguments hrun {W A} _ _ _.

(* ================================================================== *)
(** ** Listeners that subscribe and unsubscribe during a dispatch *)

(** What a listener can call on the registry it is called from:
    [onMessage(h)] or [offMessage(h)] on the message registry,
    [onConnectionChange(h)] or [offConnectionChange(h)] on the other. *)
Inductive RegistryCall (H : Type) : Type :=
| Subscribe (h : H)
| Unsubscribe (h : H).
Arguments Subscribe {H} _.
Arguments Unsubscribe {H} _.

Section Live.

(** [W] is all that a listener can change apart from the registry; [A] is
    what the listeners are given. *)
Context {W A : Type}.

(** A listener as the loops of [handleMessage] and [updateConnectionStatus]
    meet it: its body returns the new state, the calls it made on the
    registry, in order, and the exception it raised, if any. *)
#[local] Unset Elimination Schemes.
Inductive LiveHandler : Type :=
| mkLive (lid : nat) (lrun : A -> W -> W * list (RegistryCall LiveHandler) * option exn).
#[local] Set Elimination Schemes.

Definition lid (h : LiveHandler) : nat := match h with mkLive i _ => i end.

Definition lrun (h : LiveHandler)
  : A -> W -> W * list (RegistryCall LiveHandler) * option exn :=
  match h with mkLive _ f => f end.

(** One registry of a client, with the state of the subscribers and the
    trace. *)
Record Registry : Type := mkRegistry {
  listeners : list LiveHandler;
  lsubs : W;
  ltrace : list Effect
}.

Definition lemit (e : Effect) (r : Registry) : Registry :=
  mkRegistry (listeners r) (lsubs r) (ltrace r ++ [e]).

(** [indexOf] then [splice(index, 1)], as [remove_first]. *)
Fixpoint remove_first_live (h : LiveHandler) (l : list LiveHandler) : list LiveHandler :=
  match l with
  | [] => []
  | x :: l' => if Nat.eqb (lid x) (lid h) then l' else x :: remove_first_live h l'
  end.

(** [onMessage]/[onConnectionChange] (134-136, 145-147) and
    [offMessage]/[offConnectionChange] (138-143, 149-154) on the array. *)
Definition registry_call (l : list LiveHandler) (c : RegistryCall LiveHandler)
  : list LiveHandler :=
  match c with
  | Subscribe h => l ++ [h]
  | Unsubscribe h => remove_first_live h l
  end.

(** The call [handler(x)]: the array has changed when the call returns or
    raises. *)
Definition live_call (h : LiveHandler) (x : A) (r : Registry) : Registry * option exn :=
  let r := lemit (ECall (lid h)) r in
  let '(s', calls, e) := lrun h x (lsubs r) in
  (mkRegistry (fold_left registry_call calls (listeners r)) s' (ltrace r), e).

(** [try { handler(x) } catch (error) { console.error(label, error) }]. *)
Definition live_guarded (label : string) (h : LiveHandler) (x : A) (r : Registry)
  : Registry * option exn :=
  match live_call h x r with
  | (r', None) => (r', None)
  | (r', Some _) => (lemit (EConsole LError label) r', None)
  end.

(** [Array.prototype.forEach] on the array itself: the length is read once,
    before the first call; index [k] is visited only if the array still has
    it, and the callback gets the element that is at [k] by then; an
    exception of the callback ends the iteration and propagates. *)
Fixpoint forEach_from (n k : nat) (f : LiveHandler -> Registry -> Registry * option exn)
  (r : Registry) : Registry * option exn :=
  match n with
  | O => (r, None)
  | S n' =>
      match nth_error (listeners r) k with
      | Some h =>
          match f h r with
          | (r', None) => forEach_from n' (S k) f r'
          | (r', Some e) => (r', Some e)
          end
      | None => forEach_from n' (S k) f r
      end
  end.

Definition forEach_live (f : LiveHandler -> Registry -> Registry * option exn)
  (r : Registry) : Registry * option exn :=
  forEach_from (List.length (listeners r)) 0 f r.

(** The loop of [handleMessage] (158-164) and of [updateConnectionStatus]
    (169-175). *)
Definition live_dispatch (label : string) (x : A) (r : Registry) : Registry * option exn :=
  forEach_live (fun handler => live_guarded label handler x) r.

End Live.

Arguments LiveHandler : clear implicits.
Arguments Registry : clear implicits.

(** [handleMessage] (156-165) and [updateConnectionStatus] (167-176) with
    such listeners. *)
Definition handleMessage_live {W : Type} (message : WSMessage) (r : Registry W WSMessage)
  : Registry W WSMessage * option exn :=
  live_dispatch "Error in message handler:" message
    (lemit (EConsole LLog "WebSocket message received:") r).

Definition updateConnectionStatus_live {W : Type} (status : WSConnectionStatus)
  (r : Registry W WSConnectionStatus) : Registry W WSConnectionStatus * option exn :=
  live_dispatch "Error in connection handler:" status (lemit (EStatus status) r).

(** A listener of the client model above is one that makes no call on the
    registry. *)
Definition plain {W A : Type} (h : Handler W A) : LiveHandler W A :=
  mkLive (hid h) (fun x s => (fst (hrun h x s), [], snd (hrun h x s))).

Definition message_registry {W : Type} (w : World W) : Registry W WSMessage :=
  mkRegistry (map plain (messageHandlers w)) (subs w) (trace w).

Definition connection_registry {W : Type} (w : World W) : Registry W WSConnectionStatus :=
  mkRegistry (map plain (connectionHandlers w)) (subs w) (trace w).

(* ================================================================== *)
(** ** The store [useWebSocketStore] *)

(** [createWebSocketUrl] (websocket.ts, 192-196); [https] and [host] are
    [window.location.protocol === 'https:'] and [window.location.host]. *)
Definition createWebSocketUrl (https : bool) (host endpoint : string) : string :=
  (if https then "wss:" else "ws:") ++ "//" ++ host ++ "/api/v1" ++ endpoint.

(** The refs of the store that the listeners write. *)
Record StoreData : Type := mkStoreData {
  consoleStatus : WSConnectionStatus;
  statusConnectionStatus : WSConnectionStatus;
  consoleMessages : list ConsoleMessage
}.

Definition maxConsoleMessages : nat := 1000.

(** The store: its two clients and its refs.  A client world kept here has
    the refs as its [subs] component while one of its methods runs
    ([with_console]); between calls the refs live in [refs]. *)
Record Store : Type := mkStore {
  consoleWs : option (World StoreData);
  statusWs : option (World StoreData);
  refs : StoreData
}.

Definition isConsoleConnected (st : Store) : bool := connected (consoleStatus (refs st)).
Definition isStatusConnected (st : Store) : bool :=
  connected (statusConnectionStatus (refs st)).
Definition isAnyConnected (st : Store) : bool :=
  isConsoleConnected st || isStatusConnected st.

(** [splice(0, n)]. *)
Definition splice0 {A : Type} (n : nat) (l : list A) : list A := skipn n l.

(** [addConsoleMessage] (122-129). *)
Definition addConsoleMessage (message : ConsoleMessage) (d : StoreData) : StoreData :=
  let pushed := (consoleMessages d ++ [message])%list in
  let kept :=
    if (maxConsoleMessages <? List.length pushed)%nat
    then splice0 (List.length pushed - maxConsoleMessages) pushed
    else pushed in
  mkStoreData (consoleStatus d) (statusConnectionStatus d) kept.

Definition clearConsoleMessages (d : StoreData) : StoreData :=
  mkStoreData (consoleStatus d) (statusConnectionStatus d) [].

(** [handleConsoleMessage] (80-103) and [handleStatusMessage] (105-120);
    their console output is not part of the refs. *)
Definition handleConsoleMessage (message : WSMessage) (d : StoreData) : StoreData :=
  if String.eqb (type message) "console_log" then
    addConsoleMessage (mkMessage (type message) (timestamp message) (data message)) d
  else d.

Definition handleStatusMessage (message : WSMessage) (d : StoreData) : StoreData := d.

(** The four listeners the store registers. *)
Definition consoleStatusListener : Handler StoreData WSConnectionStatus :=
  mkHandler 1%nat
    (fun st d => (mkStoreData st (statusConnectionStatus d) (consoleMessages d), None)).

Definition consoleMessageListener : Handler StoreData WSMessage :=
  mkHandler 2%nat (fun m d => (handleConsoleMessage m d, None)).

Definition statusStatusListener : Handler StoreData WSConnectionStatus :=
  mkHandler 3%nat
    (fun st d => (mkStoreData (consoleStatus d) st (consoleMessages d), None)).

Definition statusMessageListener : Handler StoreData WSMessage :=
  mkHandler 4%nat (fun m d => (handleStatusMessage m d, None)).

(** Run a method or an event of the console client. *)
Definition with_console (f : World StoreData -> World StoreData) (st : Store) : Store :=
  match consoleWs st with
  | Some c =>
      let c' := f (set_subs (refs st) c) in
      mkStore (Some c') (statusWs st) (subs c')
  | None => st
  end.

Definition with_status (f : World StoreData -> World StoreData) (st : Store) : Store :=
  match statusWs st with
  | Some c =>
      let c' := f (set_subs (refs st) c) in
      mkStore (consoleWs st) (Some c') (subs c')
  | None => st
  end.

(** [initConsoleWebSocket] (30-53) and [initStatusWebSocket] (55-78). *)
Definition initConsoleWebSocket (https : bool) (host : string) (ctor_throws : bool)
  (st : Store) : Store :=
  match consoleWs st with
  | Some _ => st
  | None =>
      let c := new_client true (createWebSocketUrl https host "/console/ws") (refs st) in
      let c := onConnectionChange consoleStatusListener c in
      let c := onMessage consoleMessageListener c in
      let c := connect ctor_throws c in
      mkStore (Some c) (statusWs st) (subs c)
  end.

Definition initStatusWebSocket (https : bool) (host : string) (ctor_throws : bool)
  (st : Store) : Store :=
  match statusWs st with
  | Some _ => st
  | None =>
      let c := new_client true (createWebSocketUrl https host "/status/ws") (refs st) in
      let c := onConnectionChange statusStatusListener c in
      let c := onMessage statusMessageListener c in
      let c := connect ctor_throws c in
      mkStore (consoleWs st) (Some c) (subs c)
  end.

(** [sendConsoleCommand] (131-144).  The client's [sendCommand] raises
    nothing ([send] tests the socket before writing), so the [try] block
    completes and the function returns [true]. *)
Definition sendConsoleCommand (command now : string) (st : Store) : bool * Store :=
  match consoleWs st with
  | None => (false, st)
  | Some _ =>
      if negb (isConsoleConnected st) then (false, st)
      else (true, with_console (sendCommand command now) st)
  end.

(** [disconnectAll] (155-169). *)
Definition disconnectAll (st : Store) : Store :=
  let st := match consoleWs st with
            | Some _ =>
                let st := with_console disconnect st in
                mkStore None (statusWs st) (refs st)
            | None => st
            end in
  let st := match statusWs st with
            | Some _ =>
                let st := with_status disconnect st in
                mkStore (consoleWs st) None (refs st)
            | None => st
            end in
  mkStore (consoleWs st) (statusWs st)
    (mkStoreData (status false false None) (status false false None)
       (consoleMessages (refs st))).

(** The store as [defineStore] builds it, before [connectAll]. *)
Definition empty_store : Store :=
  mkStore None None
    (mkStoreData (status false false None) (status false false None) []).

(** [connectAll] (150-153), which [defineStore] runs once at creation (188). *)
Definition connectAll (https : bool) (host : string) (throws_console throws_status : bool)
  (st : Store) : Store :=
  initStatusWebSocket https host throws_status
    (initConsoleWebSocket https host throws_console st).

(** [reconnectConsole] (171-177) and [reconnectStatus] (179-185). *)
Definition reconnectConsole (https : bool) (host : string) (ctor_throws : bool)
  (st : Store) : Store :=
  let st := match consoleWs st with
            | Some _ =>
                let st := with_console disconnect st in
                mkStore None (statusWs st) (refs st)
            | None => st
            end in
  initConsoleWebSocket https host ctor_throws st.

Definition reconnectStatus (https : bool) (host : string) (ctor_throws : bool)
  (st : Store) : Store :=
  let st := match statusWs st with
            | Some _ =>
                let st := with_status disconnect st in
                mkStore (consoleWs st) None (refs st)
            | None => st
            end in
  initStatusWebSocket https host ctor_throws st.

(** What happens to a store while its two clients live: the browser
    delivers an event to one of them, or a component calls one of the
    actions that keep both clients.  The three actions that drop or replace
    a client ([disconnectAll], [reconnectConsole], [reconnectStatus]) are
    not events of a run: the client they drop stays alive in the browser,
    and a [Store] does not keep it. *)
Inductive StoreEvent : Type :=
| ConsoleEvent (e : Event StoreData)
| StatusEvent (e : Event StoreData)
| SendConsoleCommand (command now : string)
| AddConsoleMessage (message : ConsoleMessage)
| ClearConsoleMessages
| InitConsoleWebSocket (https : bool) (host : string) (ctor_throws : bool)
| InitStatusWebSocket (https : bool) (host : string) (ctor_throws : bool)
| ConnectAll (https : bool) (host : string) (throws_console throws_status : bool).

Definition store_step (e : StoreEvent) (st : Store) : Store :=
  match e with
  | ConsoleEvent ev => with_console (step ev) st
  | StatusEvent ev => with_status (step ev) st
  | SendConsoleCommand command now => snd (sendConsoleCommand command now st)
  | AddConsoleMessage m =>
      mkStore (consoleWs st) (statusWs st) (addConsoleMessage m (refs st))
  | ClearConsoleMessages =>
      mkStore (consoleWs st) (statusWs st) (clearConsoleMessages (refs st))
  | InitConsoleWebSocket https host t => initConsoleWebSocket https host t st
  | InitStatusWebSocket https host t => initStatusWebSocket https host t st
  | ConnectAll https host t1 t2 => connectAll https host t1 t2 st
  end.

Definition store_run (es : list StoreEvent) (st : Store) : Store :=
  fold_left (fun st e => store_step e st) es st.

(* ================================================================== *)
(** ** The console view *)

Module ConsoleView.

(** A string is kept as the bytes of its UTF-8 encoding.  What
    [String.prototype.trim] strips are the code points of WhiteSpace and
    LineTerminator: U+0009 to U+000D and U+0020 (one byte each), U+00A0
    (two bytes), and U+1680, U+2000 to U+200A, U+2028, U+2029, U+202F,
    U+205F, U+3000 and U+FEFF (three bytes each). *)
Definition byte_is (n : nat) (c : ascii) : bool := Nat.eqb (nat_of_ascii c) n.

Definition is_space (c : ascii) : bool :=
  match nat_of_ascii c with
  | 9%nat | 10%nat | 11%nat | 12%nat | 13%nat | 32%nat => true
  | _ => false
  end.

Definition is_space2 (a b : ascii) : bool := byte_is 194 a && byte_is 160 b.

Definition is_space3 (a b c : ascii) : bool :=
  (byte_is 225 a && byte_is 154 b && byte_is 128 c)
  || (byte_is 226 a && byte_is 128 b
      && (((128 <=? nat_of_ascii c)%nat && (nat_of_ascii c <=? 138)%nat)
          || byte_is 168 c || byte_is 169 c || byte_is 175 c))
  || (byte_is 226 a && byte_is 129 b && byte_is 159 c)
  || (byte_is 227 a && byte_is 128 b && byte_is 128 c)
  || (byte_is 239 a && byte_is 187 b && byte_is 191 c).

(** White space at the front goes, one code point after the other. *)
Fixpoint trimStart (s : string) : string :=
  match s with
  | EmptyString => EmptyString
  | String a s1 =>
      if is_space a then trimStart s1
      else
        match s1 with
        | EmptyString => s
        | String b s2 =>
            if is_space2 a b then trimStart s2
            else
              match s2 with
              | EmptyString => s
              | String c s3 => if is_space3 a b c then trimStart s3 else s
              end
        end
  end.

Fixpoint reverse (s acc : string) : string :=
  match s with
  | EmptyString => acc
  | String c s' => reverse s' (String c acc)
  end.

(** The same on the reversed bytes: the last byte of a code point comes
    first. *)
Fixpoint trimStart_reversed (s : string) : string :=
  match s with
  | EmptyString => EmptyString
  | String c s1 =>
      if is_space c then trimStart_reversed s1
      else
        match s1 with
        | EmptyString => s
        | String b s2 =>
            if is_space2 b c then trimStart_reversed s2
            else
              match s2 with
              | EmptyString => s
              | String a s3 => if is_space3 a b c then trimStart_reversed s3 else s
              end
        end
  end.

(** [String.prototype.trim]. *)
Definition trim (s : string) : string :=
  reverse (trimStart_reversed (reverse (trimStart s) EmptyString)) EmptyString.

Inductive Toast : Type :=
| ToastNotConnected   (* ElMessage.error: socket not connected, cannot send *)
| ToastSendFailed.    (* ElMessage.error: sending the command failed *)

Record View : Type := mkView {
  currentCommand : string;
  commandHistory : list string;
  historyIndex : Z;
  toasts : list Toast
}.

Definition maxHistorySize : nat := 50.

(** [commandHistory.value[commandHistory.value.length - 1] !== command]. *)
Definition last_differs (h : list string) (command : string) : bool :=
  match rev h with
  | [] => true
  | c :: _ => negb (String.eqb c command)
  end.

(** [push] then, above the cap, [shift]. *)
Definition remember (command : string) (h : list string) : list string :=
  if last_differs h command then
    let h := (h ++ [command])%list in
    if (maxHistorySize <? List.length h)%nat then tl h else h
  else h.

(** The local echo built by [sendCommand] (217-225). *)
Definition echo (command now : string) : ConsoleMessage :=
  mkMessage "console_log" now (ConsoleData "COMMAND" "Client" ("> " ++ command)).

(** [sendCommand] (191-229); [now] and [now'] are the two clock readings. *)
Definition sendCommand (now now' : string) (v : View) (st : Store) : View * Store :=
  let command := trim (currentCommand v) in
  if String.eqb command "" then (v, st)
  else if negb (connected (consoleStatus (refs st))) then
    (mkView (currentCommand v) (commandHistory v) (historyIndex v)
       (toasts v ++ [ToastNotConnected]), st)
  else
    let hist := remember command (commandHistory v) in
    let (success, st) := sendConsoleCommand command now st in
    if success then
      (mkView "" hist (-1) (toasts v),
       mkStore (consoleWs st) (statusWs st) (addConsoleMessage (echo command now') (refs st)))
    else
      (mkView (currentCommand v) hist (-1) (toasts v ++ [ToastSendFailed]), st).

(** [Array.prototype.slice(-n)]: from index [max (length - n) 0] on. *)
Definition slice_last {A : Type} (n : nat) (l : list A) : list A :=
  skipn (List.length l - n) l.

(** [displayMessages] (136-144). *)
Definition displayMessages (st : Store) : list ConsoleMessage :=
  let maxMessages := 500%nat in
  let messages := consoleMessages (refs st) in
  if (List.length messages <=? maxMessages)%nat then messages
  else slice_last maxMessages messages.

(** [navigateHistory] (257-270).  In its first branch the index
    [length - 1 - newIndex] lies inside the history. *)
Definition navigateHistory (direction : Z) (v : View) : View :=
  let len := Z.of_nat (List.length (commandHistory v)) in
  if len =? 0 then v
  else
    let newIndex := historyIndex v + direction in
    if (0 <=? newIndex) && (newIndex <? len) then
      let commandIndex := len - 1 - newIndex in
      mkView (nth (Z.to_nat commandIndex) (commandHistory v) "")
        (commandHistory v) newIndex (toasts v)
    else if newIndex <? 0 then
      mkView "" (commandHistory v) (-1) (toasts v)
    else v.

Inductive Key : Type :=
| Enter (shiftKey : bool)
| ArrowUp
| ArrowDown
| Tab
| OtherKey.

(** [handleKeyDown] (231-255). *)
Definition handleKeyDown (now now' : string) (key : Key) (v : View) (st : Store)
  : View * Store :=
  match key with
  | Enter shift => if negb shift then sendCommand now now' v st else (v, st)
  | ArrowUp => (navigateHistory 1 v, st)
  | ArrowDown => (navigateHistory (-1) v, st)
  | Tab => (v, st)
  | OtherKey => (v, st)
  end.

End ConsoleView.

(* ================================================================== *)
(** ** The dashboard view *)

Module Dashboard.

(** A JS number that is written out with [${...}]: an integer. *)
Definition show (n : Z) : string := NilZero.string_of_int (Z.to_int n).

(** [Number.isSafeInteger]: the integers that a double holds exactly,
    together with their neighbours. *)
Definition MAX_SAFE_INTEGER : Z := 2 ^ 53 - 1.

Definition isSafeInteger (n : Z) : bool := Z.abs n <=? MAX_SAFE_INTEGER.

(** [formatUptime] (236-250), on a whole number of seconds that is a safe
    integer.  There [%] is the remainder that takes the sign of the
    dividend, [Math.floor] of the rounded quotient is the floor of the exact
    one (the quotient by 86400 stays at least 1/86400 below the next
    integer, more than half the spacing of the doubles below 2^37), and
    [${...}] writes an integer below 10^21 in decimal digits.  Beyond the
    safe integers the doubles of the code round, and this definition does
    not follow them. *)
Definition formatUptime (seconds : Z) : string :=
  if seconds =? 0 then "0分钟"
  else
    let days := seconds / 86400 in
    let hours := Z.rem seconds 86400 / 3600 in
    let minutes := Z.rem seconds 3600 / 60 in
    let parts :=
      ((if 0 <? days then [(show days ++ "天")%string] else [])
         ++ (if 0 <? hours then [(show hours ++ "小时")%string] else [])
         ++ (if 0 <? minutes then [(show minutes ++ "分钟")%string] else []))%list in
    let joined := String.concat " " parts in
    if String.eqb joined "" then "刚刚启动" else joined.

(** One point of a chart series: [[now, value]]. *)
Definition Point (V : Type) : Type := (string * V)%type.

(** [if (data.length > 50) data = data.slice(-50)] (453-456, 466-468). *)
Definition keepLast50 {A : Type} (data : list A) : list A :=
  if (50 <? List.length data)%nat then ConsoleView.slice_last 50 data else data.

Section Handler.

(** Payloads are opaque: [Num] are the numbers of a performance sample,
    [ServerStatus] and [Player] what a summary carries. *)
Context {Num ServerStatus Player : Type}.

Record PerformanceData : Type := mkPerformance {
  tps : Num;
  cpu_usage : Num;
  memory_usage : Num;
  memory_total : Num;
  memory_used : Num
}.

(** An inbound dashboard frame, by its [type] tag. *)
Inductive Message : Type :=
| dashboard_summary (server_status : ServerStatus) (online_players : list Player)
| performance_update (d : PerformanceData)
| server_control_result (action : string) (success : bool) (message : string)
| other_type (tag : string).

Inductive Toast : Type :=
| ToastSuccess (action message : string)
| ToastError (action message : string).

(** The refs of the view and the data of the two chart instances ([None]
    before [initCharts]); the performance chart has the three series that
    [updatePerformanceChart] gives it. *)
Record View : Type := mkView {
  serverStatus : ServerStatus;
  onlinePlayers : list Player;
  performance : PerformanceData;
  performanceChartInstance :
    option (list (Point Num) * list (Point Num) * list (Point Num));
  playersChartInstance : option (list (Point nat));
  toasts : list Toast
}.

(** The listener that [setupWebSocket] registers (438-491); [now] and
    [now'] are its two readings of the clock. *)
Definition onDashboardMessage (now now' : string) (message : Message) (v : View) : View :=
  match message with
  | dashboard_summary server_status online_players =>
      mkView server_status online_players (performance v)
        (performanceChartInstance v) (playersChartInstance v) (toasts v)
  | performance_update d =>
      let perf :=
        match performanceChartInstance v with
        | Some (s0, s1, s2) =>
            Some (keepLast50 (s0 ++ [(now, tps d)])%list,
                  keepLast50 (s1 ++ [(now, cpu_usage d)])%list,
                  keepLast50 (s2 ++ [(now, memory_usage d)])%list)
        | None => None
        end in
      let players :=
        match playersChartInstance v with
        | Some s =>
            Some (keepLast50 (s ++ [(now', List.length (onlinePlayers v))])%list)
        | None => None
        end in
      mkView (serverStatus v) (onlinePlayers v) d perf players (toasts v)
  | server_control_result action success message =>
      mkView (serverStatus v) (onlinePlayers v) (performance v)
        (performanceChartInstance v) (playersChartInstance v)
        (toasts v ++ [if success then ToastSuccess action message
                      else ToastError action message])%list
  | other_type _ => v
  end.

(** A run of frames, each with its two clock readings. *)
Definition onDashboardMessages (ms : list (string * string * Message)) (v : View) : View :=
  fold_left (fun v m => onDashboardMessage (fst (fst m)) (snd (fst m)) (snd m) v) ms v.

End Handler.

End Dashboard.

Arguments Dashboard.PerformanceData : clear implicits.
Arguments Dashboard.Message : clear implicits.
Arguments Dashboard.View : clear implicits.

(* ================================================================== *)
(** ** Observations on worlds and traces *)

Section Observations.

Context {W : Type}.

(** What the listeners [hs] do to the subscriber state when each is run
    once, in list order, on the state its predecessor left. *)
Definition notify {A : Type} (x : A) (hs : list (Handler W A)) (s : W) : W :=
  fold_left (fun s h => fst (hrun h x s)) hs s.

(** Which of them raise, in that same run. *)
Fixpoint raised {A : Type} (x : A) (hs : list (Handler W A)) (s : W) : list bool :=
  match hs with
  | [] => []
  | h :: hs' =>
      (match snd (hrun h x s) with Some _ => true | None => false end)
        :: raised x hs' (fst (hrun h x s))
  end.

(** The effects of one dispatch: a call per listener and, after a call that
    raised, the [console.error] line. *)
Fixpoint dispatch_trace (label : string) (ids : list nat) (rs : list bool) : list Effect :=
  match ids, rs with
  | i :: ids', r :: rs' =>
      (ECall i :: (if r then [EConsole LError label] else []))
        ++ dispatch_trace label ids' rs'
  | _, _ => []
  end.

Definition calls_of (t : list Effect) : list nat :=
  flat_map (fun e => match e with ECall i => [i] | _ => [] end) t.

(** The effects added between [w] and a later world [w']. *)
Definition since (w w' : World W) : list Effect :=
  skipn (List.length (trace w)) (trace w').

Definition statuses_of (t : list Effect) : list WSConnectionStatus :=
  flat_map (fun e => match e with EStatus st => [st] | _ => [] end) t.

Definition scheduled_of (t : list Effect) : list (Z * Z) :=
  flat_map (fun e => match e with ESetTimeout id d => [(id, d)] | _ => [] end) t.

Definition intervals_started (t : list Effect) : list (Z * Z) :=
  flat_map (fun e => match e with ESetInterval id p => [(id, p)] | _ => [] end) t.

Definition sockets_made (t : list Effect) : list nat :=
  flat_map (fun e => match e with ENewWebSocket s _ => [s] | _ => [] end) t.

Definition pings_of (t : list Effect) : list (nat * string) :=
  flat_map (fun e => match e with EWsSend s (PingFrame now) => [(s, now)] | _ => [] end) t.

Definition closes_of (t : list Effect) : list (nat * Z * string) :=
  flat_map (fun e => match e with EWsClose s c r => [(s, c, r)] | _ => [] end) t.

(** [attemptReconnect] was entered: each of its two branches starts with a
    console line of its own. *)
Definition reconnect_logic_ran (t : list Effect) : bool :=
  existsb (fun e => match e with
                    | EConsole LLog text => String.eqb text "Attempting to reconnect"
                    | EConsole LError text =>
                        String.eqb text "Max reconnection attempts reached"
                    | _ => false
                    end) t.

Definition error_lines (label : string) (t : list Effect) : nat :=
  List.length
    (filter (fun e => match e with
                      | EConsole LError text => String.eqb text label
                      | _ => false
                      end) t).

Definition count_true (l : list bool) : nat := List.length (filter (fun b => b) l).

(** Calls of the owner, as opposed to events of the browser. *)
Definition is_call (e : Event W) : bool :=
  match e with
  | EvOpen _ | EvMessage _ _ | EvError _ | EvClose _ _ _ | EvTimeout _ _ | EvTick _ _ => false
  | _ => true
  end.

(** Every event but a socket opening. *)
Definition not_open (e : Event W) : bool :=
  match e with
  | EvOpen _ => false
  | _ => true
  end.

(** [connected] and [reconnecting] are not both set. *)
Definition status_ok (st : WSConnectionStatus) : bool :=
  negb (connected st && reconnecting st).

(** A socket is live while it is connecting or open. *)
Definition is_live (k : Socket) : bool :=
  match readyState k with
  | CONNECTING | OPEN => true
  | _ => false
  end.

Definition live (w : World W) : nat := List.length (filter is_live (sockets w)).

(** A connection attempt is in flight: the current socket is connecting. *)
Definition in_flight (w : World W) : bool :=
  match ws w with
  | Some s =>
      match socket_state s w with
      | Some k => ReadyState_eqb (readyState k) CONNECTING
      | None => false
      end
  | None => false
  end.

End Observations.

Section LiveObservations.

Context {W A : Type}.

Definition is_subscribe (c : RegistryCall (LiveHandler W A)) : bool :=
  match c with
  | Subscribe _ => true
  | Unsubscribe _ => false
  end.

(** A listener that never unsubscribes anything while it runs. *)
Definition never_unsubscribes (h : LiveHandler W A) : Prop :=
  forall x s, forallb is_subscribe (snd (fst (lrun h x s))) = true.

(** What the listeners [hs] leave when each is run once, in list order:
    the state, who raised, and the listeners they subscribed. *)
Definition live_notify (x : A) (hs : list (LiveHandler W A)) (s : W) : W :=
  fold_left (fun s h => fst (fst (lrun h x s))) hs s.

Fixpoint live_raised (x : A) (hs : list (LiveHandler W A)) (s : W) : list bool :=
  match hs with
  | [] => []
  | h :: hs' =>
      (match snd (lrun h x s) with Some _ => true | None => false end)
        :: live_raised x hs' (fst (fst (lrun h x s)))
  end.

Definition subscribed_by (calls : list (RegistryCall (LiveHandler W A)))
  : list (LiveHandler W A) :=
  flat_map (fun c => match c with Subscribe h => [h] | Unsubscribe _ => [] end) calls.

Fixpoint live_subscribed (x : A) (hs : list (LiveHandler W A)) (s : W)
  : list (LiveHandler W A) :=
  match hs with
  | [] => []
  | h :: hs' =>
      (subscribed_by (snd (fst (lrun h x s)))
         ++ live_subscribed x hs' (fst (fst (lrun h x s))))%list
  end.

(** The effects added between two registries. *)
Definition lsince (r r' : Registry W A) : list Effect :=
  skipn (List.length (ltrace r)) (ltrace r').

End LiveObservations.

(** Appending a sequence of console messages, in arrival order. *)
Definition appendAll (msgs : list ConsoleMessage) (d : StoreData) : StoreData :=
  fold_left (fun d m => addConsoleMessage m d) msgs d.

(** The last [n] elements of a list, in order. *)
Definition lastn {A : Type} (n : nat) (l : list A) : list A :=
  skipn (List.length l - n) l.

(** The test of [sendConsoleCommand]: a console client exists and the
    status ref says connected. *)
Definition console_connected (st : Store) : bool :=
  match consoleWs st with
  | Some _ => isConsoleConnected st
  | None => false
  end.

(** Every frame written to a socket. *)
Definition sends_of (t : list Effect) : list (nat * Frame) :=
  flat_map (fun e => match e with EWsSend s f => [(s, f)] | _ => [] end) t.

(** Every event but the two that run [connect]: the owner's call and a
    retry timer firing. *)
Definition no_connect {W : Type} (e : Event W) : bool :=
  match e with
  | CallConnect _ | EvTimeout _ _ => false
  | _ => true
  end.

(** On the clients, browser events only: a store keeps its clients to
    itself, so nothing else calls their methods. *)
Definition browser_only (e : StoreEvent) : bool :=
  match e with
  | ConsoleEvent ev | StatusEvent ev => negb (is_call ev)
  | _ => true
  end.

(** A history without two equal neighbours. *)
Fixpoint no_adjacent_dup (h : list string) : bool :=
  match h with
  | a :: ((b :: _) as t) => negb (String.eqb a b) && no_adjacent_dup t
  | _ => true
  end.

(** A string from its bytes. *)
Definition utf8 (bytes : list nat) : string :=
  fold_right (fun b s => String (ascii_of_nat b) s) EmptyString bytes.

(** The encodings of the 25 white-space code points of ECMAScript. *)
Definition white_space : list string :=
  map utf8
    [[9]; [10]; [11]; [12]; [13]; [32]; [194; 160]; [225; 154; 128];
     [226; 128; 128]; [226; 128; 129]; [226; 128; 130]; [226; 128; 131];
     [226; 128; 132]; [226; 128; 133]; [226; 128; 134]; [226; 128; 135];
     [226; 128; 136]; [226; 128; 137]; [226; 128; 138]; [226; 128; 168];
     [226; 128; 169]; [226; 128; 175]; [226; 129; 159]; [227; 128; 128];
     [239; 187; 191]]%nat.

(** A line of white space only. *)
Definition blank (s : string) : Prop :=
  exists cs, Forall (fun c => In c white_space) cs /\ s = fold_right String.append "" cs.

(** U+00A0 and U+3000. *)
Definition no_break_space : string := utf8 [194; 160]%nat.
Definition ideographic_space : string := utf8 [227; 128; 128]%nat.

(** The text for [d] days, [h] hours and [m] minutes: the parts that are
    positive, each with its unit, separated by spaces. *)
Definition uptime_text (d h m : Z) : string :=
  String.concat " "
    ((if 0 <? d then [(Dashboard.show d ++ "天")%string] else [])
       ++ (if 0 <? h then [(Dashboard.show h ++ "小时")%string] else [])
       ++ (if 0 <? m then [(Dashboard.show m ++ "分钟")%string] else []))%list.

(** The points that a run of dashboard frames adds to a series of the
    performance chart: one per [performance_update], read off with [f]. *)
Definition samples {Num ServerStatus Player : Type}
  (f : @Dashboard.PerformanceData Num -> Num)
  (ms : list (string * string * @Dashboard.Message Num ServerStatus Player))
  : list (Dashboard.Point Num) :=
  flat_map (fun m => match snd m with
                     | Dashboard.performance_update d => [(fst (fst m), f d)]
                     | _ => []
                     end) ms.

(* ================================================================== *)
(** ** Example worlds and runs *)

Definition example_url : string := "ws://localhost:3000/api/v1/console/ws".

(** A connection listener that records every status it is given. *)
Definition recorder : Handler (list WSConnectionStatus) WSConnectionStatus :=
  mkHandler 7%nat (fun st log => ((log ++ [st])%list, None)).

(** A plain client with the recorder, connected and open. *)
Definition connected_world : World (list WSConnectionStatus) :=
  run [CallOnConnectionChange recorder; CallConnect false; EvOpen 0]
    (new_client false example_url []).

(** A plain client whose first connection attempt is still pending. *)
Definition pending_world : World unit :=
  run [CallConnect false] (new_client false example_url tt).

(** The retry fired by timer [timer] makes socket [s], which fails: the
    browser reports [error], then [close] with code 1006. *)
Definition retry_fails (s : nat) (timer : Z) : list (Event unit) :=
  [EvTimeout timer false; EvError s; EvClose s 1006 ""].

(** A connection that opens, drops, and whose five retries all fail. *)
Definition exhaust_run : list (Event unit) :=
  ([CallConnect false; EvOpen 0; EvClose 0 1006 ""]
     ++ retry_fails 1 1 ++ retry_fails 2 2 ++ retry_fails 3 3
     ++ retry_fails 4 4 ++ retry_fails 5 5)%list.

Definition exhausted_world : World unit :=
  run exhaust_run (new_client false example_url tt).

(** Console line number [i]. *)
Definition numbered (i : nat) : ConsoleMessage :=
  mkMessage "console_log" "2025-01-01T00:00:00.000Z"
    (ConsoleData "INFO" "Server" (NilEmpty.string_of_uint (Nat.to_uint i))).

(** 1001 console lines, numbered 0 to 1000. *)
Definition burst : list ConsoleMessage := map numbered (seq 0 1001).

(** The store right after [initConsoleWebSocket], and once the console
    socket has opened. *)
Definition console_pending_store : Store :=
  initConsoleWebSocket false "localhost:3000" false empty_store.

Definition console_open_store : Store :=
  with_console (step (EvOpen 0)) console_pending_store.

(** The console view with [text] typed into the input line. *)
Definition typing (text : string) : ConsoleView.View :=
  ConsoleView.mkView text [] (-1) [].

(** A heartbeat client that opens, pings, drops abnormally and is then
    disconnected by hand while the first retry is pending... *)
Definition until_disconnect : list (Event unit) :=
  [CallConnect false; EvOpen 0; EvTick 1 "t0"; EvClose 0 1006 ""; CallDisconnect].

(** ...and what the browser delivers afterwards: the retry timer fires, the
    new socket opens, the new interval ticks. *)
Definition after_disconnect : list (Event unit) :=
  [EvTimeout 2 false; EvOpen 1; EvTick 3 "t1"].

Definition disconnected_world : World unit :=
  run until_disconnect (new_client true example_url tt).

(** A heartbeat client that is disconnected by hand while its first socket
    is still connecting... *)
Definition hasty_disconnect : list (Event unit) :=
  [CallConnect false; CallDisconnect].

(** ...and what the browser delivers for a socket closed before the
    connection is established: [error], then [close] with code 1006; later
    the retry timer fires and the new socket opens. *)
Definition closed_before_established : list (Event unit) :=
  [EvError 0; EvClose 0 1006 ""; EvTimeout 1 false; EvOpen 1].

(** Three message listeners, registered in the order 1, 2, 3; the first
    is a one-shot listener: it unsubscribes itself when it is called. *)
Definition quiet_listener (i : nat) : LiveHandler unit WSMessage :=
  mkLive i (fun _ s => (s, [], None)).

Definition one_shot_listener : LiveHandler unit WSMessage :=
  mkLive 1 (fun _ s => (s, [Unsubscribe (quiet_listener 1)], None)).

Definition one_shot_registry : Registry unit WSMessage :=
  mkRegistry [one_shot_listener; quiet_listener 2; quiet_listener 3] tt [].

(** Two listeners of which the first raises and subscribes a third. *)
Definition raising_subscriber : LiveHandler unit WSMessage :=
  mkLive 1 (fun _ s => (s, [Subscribe (quiet_listener 3)], Some (Exn "boom"))).

Definition growing_registry : Registry unit WSMessage :=
  mkRegistry [raising_subscriber; quiet_listener 2] tt [].

(** A dashboard whose charts were just initialised, and 51 performance
    frames with tps 0 to 50. *)
Definition fresh_dashboard : Dashboard.View Z unit unit :=
  Dashboard.mkView tt [] (Dashboard.mkPerformance 0 0 0 4096 0)
    (Some ([], [], [])) (Some []) [].

Definition performance_burst : list (string * string * Dashboard.Message Z unit unit) :=
  map (fun i => ("t", "t", Dashboard.performance_update
                             (Dashboard.mkPerformance (Z.of_nat i) 10 20 4096 800)))
    (seq 0 51).

(** A store whose two sockets have opened, and a console line from the
    server. *)
Definition both_open : list StoreEvent :=
  [ConsoleEvent (EvOpen 0); StatusEvent (EvOpen 0)].

Definition live_store : Store :=
  store_run both_open (connectAll false "localhost:3000" false false empty_store).

Definition hello : WSMessage :=
  mkMessage "console_log" "2025-01-01T00:00:00.000Z" (ConsoleData "INFO" "Server" "Hello").

(* ================================================================== *)
(** * Properties *)

(** ** Dispatch to the registered listeners *)

Section DispatchProofs.

Context {W : Type}.

Lemma set_trace_subs_id (w : World W) : set_trace (trace w) (set_subs (subs w) w) = w.
Proof. destruct w; reflexivity. Qed.

Lemma guarded_forEach {A : Type} (label : string) (x : A) (hs : list (Handler W A)) :
  forall w : World W,
    forEach (fun handler =>
               try_catch (call handler x)
                 (fun _ w => Normal (console LError label w))) hs w
    = Normal (set_trace (trace w ++ dispatch_trace label (map hid hs) (raised x hs (subs w)))
                (set_subs (notify x hs (subs w)) w)).
Proof.
  induction hs as [|h hs IH]; intro w.
  - cbn. rewrite app_nil_r, set_trace_subs_id. reflexivity.
  - cbn [forEach map raised dispatch_trace notify fold_left].
    unfold try_catch, call.
    cbn [subs emit set_trace].
    destruct (hrun h x (subs w)) as [s' [e|]] eqn:Hh; cbn [fst snd].
    + rewrite IH. f_equal. destruct w; cbn. unfold notify.
      rewrite <- !app_assoc. reflexivity.
    + rewrite IH. f_equal. destruct w; cbn. unfold notify.
      rewrite <- !app_assoc. reflexivity.
Qed.

Lemma calls_of_app (a b : list Effect) : calls_of (a ++ b) = (calls_of a ++ calls_of b)%list.
Proof. unfold calls_of. apply flat_map_app. Qed.

Lemma calls_of_dispatch_trace (label : string) (ids : list nat) :
  forall rs, List.length rs = List.length ids ->
             calls_of (dispatch_trace label ids rs) = ids.
Proof.
  induction ids as [|i ids IH]; intros [|r rs] Hlen; cbn in *; try reflexivity; try discriminate.
  injection Hlen as Hlen.
  destruct r; cbn; rewrite ?calls_of_app; f_equal; apply IH; exact Hlen.
Qed.

Lemma calls_of_dispatch_trace_flat (label : string) (ids : list nat) :
  forall rs, List.length rs = List.length ids ->
             flat_map (fun e => match e with ECall i => [i] | _ => [] end)
               (dispatch_trace label ids rs) = ids.
Proof. exact (calls_of_dispatch_trace label ids). Qed.

Lemma raised_length {A : Type} (x : A) (hs : list (Handler W A)) :
  forall s, List.length (raised x hs s) = List.length (map hid hs).
Proof.
  induction hs as [|h hs IH]; intro s; cbn; [reflexivity|]. f_equal. apply IH.
Qed.

(** The dispatch loops as functions: what [handleMessage] and
    [updateConnectionStatus] leave behind. *)
Lemma handleMessage_c_eq (m : WSMessage) (w : World W) :
  handleMessage_c m w =
  Normal (set_trace
            (trace w ++ EConsole LLog "WebSocket message received:"
               :: dispatch_trace "Error in message handler:"
                    (map hid (messageHandlers w)) (raised m (messageHandlers w) (subs w)))
            (set_subs (notify m (messageHandlers w) (subs w)) w)).
Proof.
  unfold handleMessage_c. cbn [console emit messageHandlers set_trace].
  rewrite guarded_forEach. f_equal. destruct w; cbn.
  rewrite <- app_assoc. reflexivity.
Qed.

Lemma updateConnectionStatus_c_eq (st : WSConnectionStatus) (w : World W) :
  updateConnectionStatus_c st w =
  Normal (set_trace
            (trace w ++ EStatus st
               :: dispatch_trace "Error in connection handler:"
                    (map hid (connectionHandlers w))
                    (raised st (connectionHandlers w) (subs w)))
            (set_subs (notify st (connectionHandlers w) (subs w))
               (set_connectionStatus st w))).
Proof.
  unfold updateConnectionStatus_c.
  cbn [emit connectionHandlers connectionStatus set_trace set_connectionStatus].
  rewrite guarded_forEach. f_equal. destruct w; cbn.
  rewrite <- app_assoc. reflexivity.
Qed.

Lemma updateConnectionStatus_eq (st : WSConnectionStatus) (w : World W) :
  updateConnectionStatus st w =
  set_trace
    (trace w ++ EStatus st
       :: dispatch_trace "Error in connection handler:"
            (map hid (connectionHandlers w))
            (raised st (connectionHandlers w) (subs w)))
    (set_subs (notify st (connectionHandlers w) (subs w))
       (set_connectionStatus st w)).
Proof. unfold updateConnectionStatus. rewrite updateConnectionStatus_c_eq. reflexivity. Qed.

Lemma handleMessage_eq (m : WSMessage) (w : World W) :
  handleMessage m w =
  set_trace
    (trace w ++ EConsole LLog "WebSocket message received:"
       :: dispatch_trace "Error in message handler:"
            (map hid (messageHandlers w)) (raised m (messageHandlers w) (subs w)))
    (set_subs (notify m (messageHandlers w) (subs w)) w).
Proof. unfold handleMessage. rewrite handleMessage_c_eq. reflexivity. Qed.

End DispatchProofs.

(** ** Traces *)

Section TraceProofs.

Context {W : Type}.

Lemma skipn_length_app {A : Type} (a b : list A) : skipn (List.length a) (a ++ b) = b.
Proof. induction a as [|x a IH]; cbn; [reflexivity | exact IH]. Qed.

Lemma since_extend (w w' : World W) (t : list Effect) :
  trace w' = (trace w ++ t)%list -> since w w' = t.
Proof. intro H. unfold since. rewrite H. apply skipn_length_app. Qed.

Lemma error_lines_dispatch_trace (label : string) (ids : list nat) :
  forall rs, List.length rs = List.length ids ->
             error_lines label (dispatch_trace label ids rs) = count_true rs.
Proof.
  unfold error_lines, count_true.
  induction ids as [|i ids IH]; intros [|r rs] Hlen; cbn in *; try reflexivity; try discriminate.
  injection Hlen as Hlen.
  destruct r; cbn; [rewrite String.eqb_refl; cbn; f_equal|]; apply IH; exact Hlen.
Qed.

End TraceProofs.

(** The dispatch of the client model, whose listeners leave the registries
    alone: message listeners and connection listeners are called
    synchronously, each exactly once and in registration order ([onMessage]
    and [onConnectionChange] append at the end of the registry); the
    subscriber state is the one obtained by running all of them in that
    order; every listener that raises costs one [console.error] line and
    nothing else: the dispatch itself completes normally, so nothing reaches
    its caller. *)
Lemma dispatch_in_order_isolated :
  forall (W : Type) (w : World W),
    (forall m : WSMessage,
        exists w',
          handleMessage_c m w = Normal w'
          /\ calls_of (since w w') = map hid (messageHandlers w)
          /\ subs w' = notify m (messageHandlers w) (subs w)
          /\ error_lines "Error in message handler:" (since w w')
             = count_true (raised m (messageHandlers w) (subs w)))
    /\ (forall st : WSConnectionStatus,
           exists w',
             updateConnectionStatus_c st w = Normal w'
             /\ connectionStatus w' = st
             /\ calls_of (since w w') = map hid (connectionHandlers w)
             /\ subs w' = notify st (connectionHandlers w) (subs w)
             /\ error_lines "Error in connection handler:" (since w w')
                = count_true (raised st (connectionHandlers w) (subs w)))
    /\ (forall h, messageHandlers (onMessage h w) = (messageHandlers w ++ [h])%list)
    /\ (forall h, connectionHandlers (onConnectionChange h w)
                  = (connectionHandlers w ++ [h])%list).
Proof.
  intros W w. split; [|split; [|split]].
  - intro m. eexists. split; [apply handleMessage_c_eq|].
    split; [|split].
    + erewrite since_extend by (destruct w; reflexivity).
      cbn. apply calls_of_dispatch_trace, raised_length.
    + destruct w; reflexivity.
    + erewrite since_extend by (destruct w; reflexivity).
      change (error_lines ?l (?e :: ?t)) with (error_lines l t).
      apply error_lines_dispatch_trace, raised_length.
  - intro st. eexists. split; [apply updateConnectionStatus_c_eq|].
    split; [destruct w; reflexivity|]. split; [|split].
    + erewrite since_extend by (destruct w; reflexivity).
      cbn. apply calls_of_dispatch_trace, raised_length.
    + destruct w; reflexivity.
    + erewrite since_extend by (destruct w; reflexivity).
      change (error_lines ?l (?e :: ?t)) with (error_lines l t).
      apply error_lines_dispatch_trace, raised_length.
  - intro h. destruct w; reflexivity.
  - intro h. destruct w; reflexivity.
Qed.

(** ** The reconnecting client *)

Section FlatMapTrace.

Context {B : Type} (f : Effect -> list B).
Hypothesis f_call : forall i, f (ECall i) = [].
Hypothesis f_console : forall l t, f (EConsole l t) = [].

Lemma flat_map_dispatch_trace (label : string) (ids : list nat) :
  forall rs, flat_map f (dispatch_trace label ids rs) = [].
Proof.
  induction ids as [|i ids IH]; intros [|r rs]; cbn; try reflexivity.
  rewrite f_call. destruct r; cbn; rewrite ?f_console; apply IH.
Qed.

End FlatMapTrace.

Lemma statuses_of_app (a b : list Effect) :
  statuses_of (a ++ b) = (statuses_of a ++ statuses_of b)%list.
Proof. apply flat_map_app. Qed.

(** Evaluate a trace filter on an explicit trace. *)
Ltac filter_trace :=
  unfold statuses_of, scheduled_of, intervals_started, sockets_made, pings_of, calls_of,
    closes_of;
  repeat first
    [ rewrite flat_map_app
    | rewrite flat_map_dispatch_trace by (intros; reflexivity)
    | progress cbn [flat_map app] ].

(** Reduce field reads of explicitly built worlds. *)
Ltac record_simpl :=
  cbv beta iota delta
    [ws url reconnectAttempts messageHandlers connectionHandlers connectionStatus
     heartbeat pingInterval sockets timeouts intervals nextTimerId subs trace
     set_ws set_reconnectAttempts set_messageHandlers set_connectionHandlers
     set_connectionStatus set_pingInterval set_sockets set_timeouts set_intervals
     set_nextTimerId set_subs set_trace emit] in *.

(** ** Dispatch to listeners that change the registry *)

Section LiveProofs.

Context {W A : Type}.

Lemma fold_subscribe (calls : list (RegistryCall (LiveHandler W A))) :
  forall l,
    forallb is_subscribe calls = true ->
    fold_left registry_call calls l = (l ++ subscribed_by calls)%list.
Proof.
  induction calls as [|c calls IH]; intros l H; cbn in *.
  - rewrite app_nil_r. reflexivity.
  - apply andb_prop in H. destruct H as [Hc Hs].
    destruct c as [h|h]; [|discriminate Hc].
    rewrite (IH _ Hs). cbn [registry_call]. rewrite <- app_assoc. reflexivity.
Qed.

Lemma nth_error_middle (done rest : list (LiveHandler W A)) (h : LiveHandler W A) :
  nth_error (done ++ h :: rest) (List.length done) = Some h.
Proof. induction done as [|a done IH]; cbn; [reflexivity | exact IH]. Qed.

Lemma live_guarded_eq (label : string) (h : LiveHandler W A) (x : A) (r : Registry W A) :
  live_guarded label h x r
  = (mkRegistry
       (fold_left registry_call (snd (fst (lrun h x (lsubs r)))) (listeners r))
       (fst (fst (lrun h x (lsubs r))))
       (ltrace r
          ++ ECall (lid h)
          :: (if match snd (lrun h x (lsubs r)) with Some _ => true | None => false end
              then [EConsole LError label] else [])), None).
Proof.
  unfold live_guarded, live_call. cbn [lemit lsubs listeners ltrace].
  destruct (lrun h x (lsubs r)) as [[s' calls] [e|]];
    unfold lemit; cbn [fst snd listeners lsubs ltrace];
    [rewrite <- app_assoc|]; reflexivity.
Qed.

(** The loop from index [length done] on, over listeners that only
    subscribe: [hs] are those still to be called, [added] those subscribed
    so far. *)
Lemma forEach_from_subscribers (label : string) (x : A) (hs : list (LiveHandler W A)) :
  forall (done added : list (LiveHandler W A)) (s : W) (t : list Effect),
    (forall h, In h hs -> never_unsubscribes h) ->
    forEach_from (List.length hs) (List.length done)
      (fun handler => live_guarded label handler x)
      (mkRegistry (done ++ hs ++ added) s t)
    = (mkRegistry (done ++ hs ++ added ++ live_subscribed x hs s)
         (live_notify x hs s)
         (t ++ dispatch_trace label (map lid hs) (live_raised x hs s)), None).
Proof.
  induction hs as [|h hs IH]; intros done added s t Hq.
  - cbn. rewrite !app_nil_r. reflexivity.
  - cbn [List.length forEach_from listeners app].
    rewrite nth_error_middle.
    assert (Hh : forallb is_subscribe (snd (fst (lrun h x s))) = true)
      by (apply Hq; left; reflexivity).
    assert (Hrest : forall h', In h' hs -> never_unsubscribes h')
      by (intros h' Hin; apply Hq; right; exact Hin).
    rewrite live_guarded_eq. cbn [lsubs listeners ltrace].
    cbn [map live_raised live_notify fold_left live_subscribed dispatch_trace].
    rewrite (fold_subscribe _ _ Hh).
    replace ((done ++ h :: hs ++ added) ++ subscribed_by (snd (fst (lrun h x s))))%list
      with ((done ++ [h]) ++ hs ++ (added ++ subscribed_by (snd (fst (lrun h x s)))))%list
      by (rewrite <- !app_assoc; cbn [app]; rewrite <- !app_assoc; reflexivity).
    replace (S (List.length done)) with (List.length (done ++ [h]))
      by (rewrite length_app; cbn; lia).
    rewrite (IH _ _ _ _ Hrest). unfold live_notify.
    rewrite <- !app_assoc. reflexivity.
Qed.

Lemma live_dispatch_subscribers (label : string) (x : A) (r : Registry W A) :
  (forall h, In h (listeners r) -> never_unsubscribes h) ->
  live_dispatch label x r
  = (mkRegistry (listeners r ++ live_subscribed x (listeners r) (lsubs r))
       (live_notify x (listeners r) (lsubs r))
       (ltrace r
          ++ dispatch_trace label (map lid (listeners r))
               (live_raised x (listeners r) (lsubs r))), None).
Proof.
  intro Hq. unfold live_dispatch, forEach_live. destruct r as [hs s t]. cbn [listeners lsubs ltrace].
  pose proof (forEach_from_subscribers label x hs [] [] s t Hq) as H.
  cbn [List.length app] in H. rewrite app_nil_r in H. exact H.
Qed.

(** Whatever the listeners do, the loop completes normally. *)
Lemma forEach_from_returns (label : string) (x : A) (n : nat) :
  forall (k : nat) (r : Registry W A),
    snd (forEach_from n k (fun handler => live_guarded label handler x) r) = None.
Proof.
  induction n as [|n IH]; intros k r; [reflexivity|].
  cbn [forEach_from]. destruct (nth_error (listeners r) k) as [h|]; [|apply IH].
  rewrite live_guarded_eq. apply IH.
Qed.

Lemma live_raised_length (x : A) (hs : list (LiveHandler W A)) :
  forall s, List.length (live_raised x hs s) = List.length (map lid hs).
Proof.
  induction hs as [|h hs IH]; intro s; cbn; [reflexivity|]. f_equal. apply IH.
Qed.

Lemma lsince_extend (r r' : Registry W A) (t : list Effect) :
  ltrace r' = (ltrace r ++ t)%list -> lsince r r' = t.
Proof. intro H. unfold lsince. rewrite H. apply skipn_length_app. Qed.

(** Listeners of the client model. *)
Lemma plain_quiet (h : Handler W A) : never_unsubscribes (plain h).
Proof. intros x s. reflexivity. Qed.

Lemma plain_notify (x : A) (hs : list (Handler W A)) :
  forall s, live_notify x (map plain hs) s = notify x hs s.
Proof.
  induction hs as [|h hs IH]; intro s; [reflexivity|].
  unfold live_notify, notify in *. cbn. apply IH.
Qed.

Lemma plain_raised (x : A) (hs : list (Handler W A)) :
  forall s, live_raised x (map plain hs) s = raised x hs s.
Proof.
  induction hs as [|h hs IH]; intro s; [reflexivity|].
  cbn. f_equal. apply IH.
Qed.

Lemma plain_subscribed (x : A) (hs : list (Handler W A)) :
  forall s, live_subscribed x (map plain hs) s = [].
Proof.
  induction hs as [|h hs IH]; intro s; [reflexivity|]. cbn. apply IH.
Qed.

Lemma plain_ids (hs : list (Handler W A)) : map lid (map plain hs) = map hid hs.
Proof. rewrite map_map. reflexivity. Qed.

Lemma live_dispatch_plain (label : string) (x : A) (hs : list (Handler W A)) (s : W)
  (t : list Effect) :
  live_dispatch label x (mkRegistry (map plain hs) s t)
  = (mkRegistry (map plain hs) (notify x hs s)
       (t ++ dispatch_trace label (map hid hs) (raised x hs s)), None).
Proof.
  rewrite live_dispatch_subscribers.
  - cbn [listeners lsubs ltrace].
    rewrite plain_subscribed, plain_notify, plain_raised, plain_ids, app_nil_r.
    reflexivity.
  - intros h Hin. cbn [listeners] in Hin. apply in_map_iff in Hin.
    destruct Hin as [h0 [<- _]]. apply plain_quiet.
Qed.

End LiveProofs.




Section ReconnectProofs.

Context {W : Type}.

Lemma attemptReconnect_below (w : World W) :
  reconnectAttempts w < maxReconnectAttempts ->
  attemptReconnect w =
  setTimeout (reconnectDelay * 2 ^ (reconnectAttempts w + 1 - 1))
    (updateConnectionStatus (status false true None)
       (console LLog "Attempting to reconnect"
          (set_reconnectAttempts (reconnectAttempts w + 1) w))).
Proof.
  intro H. unfold attemptReconnect.
  destruct (Z.geb_spec (reconnectAttempts w) maxReconnectAttempts) as [Hge|_]; [lia|].
  reflexivity.
Qed.

Lemma attemptReconnect_trace (w : World W) :
  reconnectAttempts w < maxReconnectAttempts ->
  trace (attemptReconnect w) =
  (trace w ++
   EConsole LLog "Attempting to reconnect"
   :: EStatus (status false true None)
   :: dispatch_trace "Error in connection handler:" (map hid (connectionHandlers w))
        (raised (status false true None) (connectionHandlers w) (subs w))
   ++ [ESetTimeout (nextTimerId w) (reconnectDelay * 2 ^ (reconnectAttempts w + 1 - 1))])%list.
Proof.
  intro H. rewrite attemptReconnect_below by exact H.
  unfold setTimeout, console, emit. rewrite updateConnectionStatus_eq.
  destruct w; cbn -[Z.pow Z.add Z.mul Z.sub]. rewrite <- !app_assoc. reflexivity.
Qed.

Lemma onclose_abnormal (code : Z) (reason : string) (w : World W) :
  code <> 1000 ->
  reconnectAttempts w < maxReconnectAttempts ->
  onclose code reason w =
  attemptReconnect
    (updateConnectionStatus (status false false None) (console LLog "WebSocket closed:" w)).
Proof.
  intros Hc Ha. unfold onclose.
  replace (reconnectAttempts
             (updateConnectionStatus (status false false None)
                (console LLog "WebSocket closed:" w))) with (reconnectAttempts w)
    by (rewrite updateConnectionStatus_eq; destruct w; reflexivity).
  destruct (Z.eqb_spec code 1000) as [|_]; [contradiction|].
  destruct (Z.ltb_spec (reconnectAttempts w) maxReconnectAttempts) as [_|]; [|lia].
  reflexivity.
Qed.

Lemma onclose_abnormal_trace (code : Z) (reason : string) (w : World W) :
  code <> 1000 ->
  reconnectAttempts w < maxReconnectAttempts ->
  trace (onclose code reason w) =
  (trace w ++
   EConsole LLog "WebSocket closed:"
   :: EStatus (status false false None)
   :: dispatch_trace "Error in connection handler:" (map hid (connectionHandlers w))
        (raised (status false false None) (connectionHandlers w) (subs w))
   ++ EConsole LLog "Attempting to reconnect"
   :: EStatus (status false true None)
   :: dispatch_trace "Error in connection handler:" (map hid (connectionHandlers w))
        (raised (status false true None) (connectionHandlers w)
           (notify (status false false None) (connectionHandlers w) (subs w)))
   ++ [ESetTimeout (nextTimerId w) (reconnectDelay * 2 ^ (reconnectAttempts w + 1 - 1))])%list.
Proof.
  intros Hc Ha. rewrite onclose_abnormal by assumption.
  rewrite attemptReconnect_trace
    by (rewrite updateConnectionStatus_eq; destruct w; exact Ha).
  rewrite updateConnectionStatus_eq. unfold console, emit.
  destruct w; cbn -[Z.pow Z.mul Z.add Z.sub]. rewrite <- !app_assoc. reflexivity.
Qed.

Lemma onclose_abnormal_eq (code : Z) (reason : string) (w : World W) :
  code <> 1000 ->
  reconnectAttempts w < maxReconnectAttempts ->
  onclose code reason w =
  mkWorld (ws w) (url w) (reconnectAttempts w + 1) (messageHandlers w)
    (connectionHandlers w) (status false true None) (heartbeat w) (pingInterval w)
    (sockets w)
    (timeouts w ++ [(nextTimerId w, reconnectDelay * 2 ^ (reconnectAttempts w + 1 - 1))])
    (intervals w) (nextTimerId w + 1)
    (notify (status false true None) (connectionHandlers w)
       (notify (status false false None) (connectionHandlers w) (subs w)))
    (trace (onclose code reason w)).
Proof.
  intros Hc Ha. rewrite onclose_abnormal by assumption.
  rewrite attemptReconnect_below
    by (rewrite updateConnectionStatus_eq; destruct w; exact Ha).
  unfold setTimeout, console, emit. rewrite !updateConnectionStatus_eq.
  destruct w; reflexivity.
Qed.

Lemma close_event_trace (s : nat) (code : Z) (reason : string) (w : World W) :
  code <> 1000 ->
  reconnectAttempts w < maxReconnectAttempts ->
  since w (step (EvClose s code reason) w) =
  (EConsole LLog "WebSocket closed:"
   :: EStatus (status false false None)
   :: dispatch_trace "Error in connection handler:" (map hid (connectionHandlers w))
        (raised (status false false None) (connectionHandlers w) (subs w))
   ++ EConsole LLog "Attempting to reconnect"
   :: EStatus (status false true None)
   :: dispatch_trace "Error in connection handler:" (map hid (connectionHandlers w))
        (raised (status false true None) (connectionHandlers w)
           (notify (status false false None) (connectionHandlers w) (subs w)))
   ++ [ESetTimeout (nextTimerId w) (reconnectDelay * 2 ^ (reconnectAttempts w + 1 - 1))])%list.
Proof.
  intros Hc Ha. apply since_extend. unfold step.
  rewrite onclose_abnormal_trace; [|exact Hc|destruct w; exact Ha].
  destruct w; reflexivity.
Qed.

End ReconnectProofs.

(** C3.  When the attempt counter stands at [k - 1] with [1 <= k <= 5],
    [attemptReconnect] first raises it to [k] and then schedules the one
    retry timer with delay [reconnectDelay * 2 ^ (counter - 1)], where the
    counter is the raised one; that is [1000 * 2 ^ (k - 1)] milliseconds,
    so 1000 for attempt 1, 4000 for attempt 3 and 16000 for attempt 5.  The
    same timer is what an abnormal close schedules. *)
Theorem backoff_delay_of_attempt :
  forall (W : Type) (w : World W) (k : Z),
    1 <= k <= maxReconnectAttempts ->
    reconnectAttempts w = k - 1 ->
    let w' := attemptReconnect w in
    reconnectAttempts w' = k
    /\ timeouts w'
       = (timeouts w ++ [(nextTimerId w, reconnectDelay * 2 ^ (reconnectAttempts w' - 1))])%list
    /\ scheduled_of (since w w') = [(nextTimerId w, 1000 * 2 ^ (k - 1))]
    /\ (forall s code reason,
           code <> 1000 ->
           scheduled_of (since w (step (EvClose s code reason) w))
           = [(nextTimerId w, 1000 * 2 ^ (k - 1))])
    /\ maxReconnectAttempts = 5
    /\ (1000 * 2 ^ (1 - 1) = 1000 /\ 1000 * 2 ^ (3 - 1) = 4000 /\ 1000 * 2 ^ (5 - 1) = 16000).
Proof.
  intros W w k Hk Ha. cbv zeta.
  assert (Hlt : reconnectAttempts w < maxReconnectAttempts) by lia.
  assert (Hk' : reconnectAttempts (attemptReconnect w) = k).
  { rewrite attemptReconnect_below by exact Hlt.
    unfold setTimeout, console, emit. rewrite updateConnectionStatus_eq.
    destruct w; cbn in *. lia. }
  split; [exact Hk'|]. split; [|split; [|split; [|split]]].
  - rewrite Hk'. rewrite attemptReconnect_below by exact Hlt.
    unfold setTimeout, console, emit. rewrite updateConnectionStatus_eq.
    clear Hk'. destruct w; cbn -[Z.pow Z.mul] in *. subst.
    replace (k - 1 + 1 - 1) with (k - 1) by lia. reflexivity.
  - erewrite since_extend by (apply attemptReconnect_trace; exact Hlt).
    filter_trace. rewrite Ha. replace (k - 1 + 1 - 1) with (k - 1) by lia.
    reflexivity.
  - intros s code reason Hc. rewrite close_event_trace by assumption.
    filter_trace. rewrite Ha. replace (k - 1 + 1 - 1) with (k - 1) by lia.
    reflexivity.
  - reflexivity.
  - repeat split; reflexivity.
Qed.

Lemma backoff_delay_of_attempt_witness :
  let w := set_reconnectAttempts 2 (new_client false "ws://localhost/api/v1/console/ws" tt) in
  reconnectAttempts (attemptReconnect w) = 3
  /\ scheduled_of (since w (attemptReconnect w)) = [(1, 4000)].
Proof.
  intro w.
  pose proof (backoff_delay_of_attempt unit w 3
                ltac:(unfold maxReconnectAttempts; lia) eq_refl) as H.
  split; [exact (proj1 H) | exact (proj1 (proj2 (proj2 H)))].
Defined.

(** C10.  An abnormal close that leads to a retry (close code other than
    1000, attempt counter below the maximum) notifies the connection
    listeners twice within the close event: first with
    [{connected:false, reconnecting:false}], then with
    [{connected:false, reconnecting:true}], every listener being called
    once for each; only then is the retry timer set, so the retry's own
    notification comes later still. *)
Theorem abnormal_close_passes_through_disconnected :
  forall (W : Type) (w : World W) (s : nat) (code : Z) (reason : string),
    code <> 1000 ->
    reconnectAttempts w < maxReconnectAttempts ->
    let w' := step (EvClose s code reason) w in
    statuses_of (since w w') = [status false false None; status false true None]
    /\ calls_of (since w w')
       = (map hid (connectionHandlers w) ++ map hid (connectionHandlers w))%list
    /\ subs w' = notify (status false true None) (connectionHandlers w)
                   (notify (status false false None) (connectionHandlers w) (subs w))
    /\ connectionStatus w' = status false true None
    /\ (exists t d, since w w' = (t ++ [ESetTimeout (nextTimerId w) d])%list
                    /\ statuses_of t = statuses_of (since w w')).
Proof.
  intros W w s code reason Hc Ha. cbv zeta.
  rewrite close_event_trace by assumption.
  split; [|split; [|split; [|split]]].
  - filter_trace. reflexivity.
  - filter_trace. rewrite !calls_of_dispatch_trace_flat by apply raised_length.
    rewrite app_nil_r. reflexivity.
  - unfold step. rewrite onclose_abnormal_eq; [|exact Hc|destruct w; exact Ha].
    destruct w; reflexivity.
  - unfold step. rewrite onclose_abnormal_eq; [|exact Hc|destruct w; exact Ha].
    reflexivity.
  - eexists (_ :: _ :: _ ++ _ :: _ :: _)%list, _. split.
    + cbn [app]. rewrite <- app_assoc. cbn [app]. reflexivity.
    + filter_trace. reflexivity.
Qed.

Lemma abnormal_close_passes_through_disconnected_witness :
  let w := connected_world in
  statuses_of (since w (step (EvClose 0 1006 "") w))
  = [status false false None; status false true None]
  /\ subs (step (EvClose 0 1006 "") w)
     = [status false true None; status true false None;
        status false false None; status false true None].
Proof.
  intro w.
  pose proof (abnormal_close_passes_through_disconnected _ w 0%nat 1006 ""
                ltac:(lia) ltac:(vm_compute; reflexivity)) as H.
  split; [exact (proj1 H) | exact (proj1 (proj2 (proj2 H)))].
Defined.

(** ** Invariants of the client *)

Section Invariant.

Context {W : Type}.

(** The class of the instance; it never changes. *)
Variable hb : bool.

(** Statuses: the current one and all that were handed out. *)
Definition StatusInv (w : World W) : Prop :=
  status_ok (connectionStatus w) = true
  /\ Forall (fun st => status_ok st = true) (statuses_of (trace w)).

(** Timers: ids are positive and below the counter; the only interval that
    can be active is the one [pingInterval] names. *)
Definition PingInv (w : World W) : Prop :=
  0 < nextTimerId w
  /\ match pingInterval w with
     | Some id => 0 < id < nextTimerId w /\ intervals w = [(id, pingIntervalMs)]
     | None => intervals w = []
     end.

Definition Inv (w : World W) : Prop :=
  StatusInv w /\ PingInv w /\ heartbeat w = hb.

Lemma Inv_frame (w w' : World W) :
  connectionStatus w' = connectionStatus w ->
  trace w' = trace w ->
  pingInterval w' = pingInterval w ->
  intervals w' = intervals w ->
  nextTimerId w' = nextTimerId w ->
  heartbeat w' = heartbeat w ->
  Inv w -> Inv w'.
Proof.
  unfold Inv, StatusInv, PingInv. intros -> -> -> -> -> ->. exact (fun H => H).
Qed.

Lemma Inv_emit (e : Effect) (w : World W) :
  statuses_of [e] = [] -> Inv w -> Inv (emit e w).
Proof.
  unfold Inv, StatusInv, PingInv. intros He [[H1 H2] [H3 H4]].
  split; [split|split];
    [destruct w; exact H1| |destruct w; exact H3|destruct w; exact H4].
  replace (trace (emit e w)) with (trace w ++ [e])%list by (destruct w; reflexivity).
  rewrite statuses_of_app, He, app_nil_r. exact H2.
Qed.

Lemma Inv_update (st : WSConnectionStatus) (w : World W) :
  status_ok st = true -> Inv w -> Inv (updateConnectionStatus st w).
Proof.
  unfold Inv, StatusInv, PingInv. intros Hst [[_ H2] [H3 H4]].
  rewrite updateConnectionStatus_eq.
  split; [split|split];
    [destruct w; exact Hst| |destruct w; exact H3|destruct w; exact H4].
  destruct w; cbn [trace set_trace set_subs set_connectionStatus connectionHandlers subs].
  rewrite statuses_of_app. apply Forall_app. split; [exact H2|].
  filter_trace. constructor; [exact Hst | constructor].
Qed.

Lemma Inv_handleMessage (m : WSMessage) (w : World W) :
  Inv w -> Inv (handleMessage m w).
Proof.
  unfold Inv, StatusInv, PingInv. intros [[H1 H2] [H3 H4]]. rewrite handleMessage_eq.
  split; [split|split];
    [destruct w; exact H1| |destruct w; exact H3|destruct w; exact H4].
  destruct w; cbn [trace set_trace set_subs messageHandlers subs].
  rewrite statuses_of_app. apply Forall_app. split; [exact H2|].
  filter_trace. constructor.
Qed.

Lemma Inv_setTimeout (delay : Z) (w : World W) : Inv w -> Inv (setTimeout delay w).
Proof.
  intro H. unfold setTimeout. apply Inv_emit; [reflexivity|].
  destruct H as [Hs [[Hn Hp] Hh]]. split; [exact Hs|]. split; [|destruct w; exact Hh].
  unfold PingInv in *. destruct w; cbn in *. split; [lia|].
  destruct pingInterval0 as [id|]; [|exact Hp]. split; [lia|apply Hp].
Qed.

Lemma stopPing_post (w : World W) :
  Inv w -> Inv (stopPing w) /\ pingInterval (stopPing w) = None /\ intervals (stopPing w) = [].
Proof.
  intros [Hs [[Hn Hp] Hh]]. unfold stopPing.
  destruct (pingInterval w) as [id|] eqn:Hpi; cbn [truthy].
  - destruct Hp as [Hid Hint].
    destruct (Z.eqb_spec id 0) as [->|_]; [lia|]. cbn [negb].
    unfold clearInterval, emit. destruct Hs as [H1 H2].
    destruct w; cbn in *. subst. cbn. rewrite Z.eqb_refl. record_simpl.
    repeat split; record_simpl; try assumption.
    rewrite statuses_of_app. cbn. rewrite app_nil_r. assumption.
  - split; [|split]; [|exact Hpi|exact Hp].
    split; [exact Hs|]. split; [|exact Hh]. split; [exact Hn|]. rewrite Hpi. exact Hp.
Qed.

Lemma Inv_stopPing (w : World W) : Inv w -> Inv (stopPing w).
Proof. intro H. apply stopPing_post, H. Qed.

Lemma stopPing_nextTimerId (w : World W) : nextTimerId (stopPing w) = nextTimerId w.
Proof.
  unfold stopPing. destruct (truthy (pingInterval w)); [|reflexivity].
  destruct (pingInterval w); destruct w; reflexivity.
Qed.

Lemma startPing_post (w : World W) :
  Inv w ->
  Inv (startPing w)
  /\ pingInterval (startPing w) = Some (nextTimerId w)
  /\ intervals (startPing w) = [(nextTimerId w, pingIntervalMs)].
Proof.
  intro H. destruct (stopPing_post w H) as [[[H1 H2] [[Hn _] Hh]] [Hp Hi]].
  pose proof (stopPing_nextTimerId w) as Hnext.
  unfold startPing, setInterval. cbv zeta beta.
  set (v := stopPing w) in *. clearbody v.
  destruct v; cbn in *. subst. repeat split; record_simpl; try assumption; try lia.
  rewrite statuses_of_app. cbn. rewrite app_nil_r. exact H2.
Qed.

Lemma Inv_startPing (w : World W) : Inv w -> Inv (startPing w).
Proof. intro H. apply startPing_post, H. Qed.

(** Lemmas for the methods, tried in this order. *)
Ltac inv_known := fail.

Ltac inv_solve :=
  repeat
    match goal with
    | |- Inv (if ?c then _ else _) => destruct c
    | |- Inv (match (if ?c then _ else _) with _ => _ end) => destruct c; cbv beta iota
    | |- Inv (match ?x with _ => _ end) => destruct x
    | |- Inv (snd (if ?c then _ else _)) => destruct c
    | |- Inv (snd (_, _)) => cbn [snd]
    | |- Inv (updateConnectionStatus _ _) => apply Inv_update; [reflexivity|]
    | |- Inv (handleMessage _ _) => apply Inv_handleMessage
    | |- Inv (emit _ _) => apply Inv_emit; [reflexivity|]
    | |- Inv (setTimeout _ _) => apply Inv_setTimeout
    | |- Inv (stopPing _) => apply Inv_stopPing
    | |- Inv (startPing _) => apply Inv_startPing
    | |- Inv _ => assumption
    | |- Inv _ => inv_known
    | |- Inv (?f ?a ?b ?w) =>
        apply (Inv_frame w);
        [reflexivity|reflexivity|reflexivity|reflexivity|reflexivity|reflexivity|]
    | |- Inv (?f ?a ?w) =>
        apply (Inv_frame w);
        [reflexivity|reflexivity|reflexivity|reflexivity|reflexivity|reflexivity|]
    end.

Lemma Inv_send (m : Frame) (w : World W) : Inv w -> Inv (send m w).
Proof. intro H. unfold send, console. inv_solve. Qed.

Ltac inv_known ::= first [apply Inv_send].

Lemma Inv_pingTick (now : string) (w : World W) : Inv w -> Inv (pingTick now w).
Proof. intro H. unfold pingTick, ping. inv_solve. Qed.

Lemma Inv_resolve (s : nat) (w : World W) : Inv w -> Inv (resolve s w).
Proof. intro H. unfold resolve. cbv zeta. inv_solve. Qed.

Lemma Inv_reject (s : nat) (w : World W) : Inv w -> Inv (reject s w).
Proof. intro H. unfold reject. inv_solve. Qed.

Lemma Inv_attemptReconnect (w : World W) : Inv w -> Inv (attemptReconnect w).
Proof. intro H. unfold attemptReconnect, console. cbv zeta. inv_solve. Qed.

Ltac inv_known ::=
  first [apply Inv_send | apply Inv_pingTick | apply Inv_resolve | apply Inv_reject
        | apply Inv_attemptReconnect].

Lemma Inv_onopen (s : nat) (w : World W) : Inv w -> Inv (onopen s w).
Proof. intro H. unfold onopen, console. cbv zeta. inv_solve. Qed.

Lemma Inv_onmessage (payload : option WSMessage) (w : World W) :
  Inv w -> Inv (onmessage payload w).
Proof. intro H. unfold onmessage, console. inv_solve. Qed.

Lemma Inv_onclose (code : Z) (reason : string) (w : World W) :
  Inv w -> Inv (onclose code reason w).
Proof. intro H. unfold onclose, console. cbv zeta. inv_solve. Qed.

Lemma Inv_onerror (s : nat) (w : World W) : Inv w -> Inv (onerror s w).
Proof. intro H. unfold onerror, console. cbv zeta. inv_solve. Qed.

Lemma Inv_WebSocketClient_connect (t : bool) (w : World W) :
  Inv w -> Inv (snd (WebSocketClient_connect t w)).
Proof.
  intro H. unfold WebSocketClient_connect, new_WebSocket. cbv zeta beta. inv_solve.
Qed.

Lemma Inv_WebSocketClient_disconnect (w : World W) :
  Inv w -> Inv (WebSocketClient_disconnect w).
Proof.
  intro H. unfold WebSocketClient_disconnect, ws_close. cbv zeta.
  apply Inv_update; [reflexivity|]. inv_solve.
Qed.

Lemma Inv_connect (t : bool) (w : World W) : Inv w -> Inv (connect t w).
Proof.
  intro H. unfold connect, AutoReconnectWebSocket_connect.
  pose proof (Inv_WebSocketClient_connect t w H) as Hc.
  destruct (WebSocketClient_connect t w) as [[s|] w']; cbn [snd] in Hc; inv_solve.
Qed.

Lemma Inv_disconnect (w : World W) : Inv w -> Inv (disconnect w).
Proof.
  intro H. unfold disconnect, AutoReconnectWebSocket_disconnect.
  destruct (heartbeat w); apply Inv_WebSocketClient_disconnect; inv_solve.
Qed.

Ltac inv_known ::=
  first [apply Inv_send | apply Inv_pingTick | apply Inv_onopen | apply Inv_onmessage
        | apply Inv_onclose | apply Inv_onerror | apply Inv_connect | apply Inv_disconnect].

Lemma Inv_before_startPing (s : nat) (w : World W) :
  Inv w ->
  Inv (emit (EResolve s)
         (update_socket s set_settled
            (updateConnectionStatus (status true false None)
               (set_reconnectAttempts 0
                  (console LLog "WebSocket connected:"
                     (update_socket s (set_readyState OPEN) w)))))).
Proof. intro H. unfold console. inv_solve. Qed.

Lemma Inv_step (e : Event W) (w : World W) : Inv w -> Inv (step e w).
Proof.
  intro H. destruct e; unfold step, sendCommand, ping, onMessage, offMessage,
    onConnectionChange, offConnectionChange; inv_solve.
Qed.

Lemma Inv_run (es : list (Event W)) : forall w, Inv w -> Inv (run es w).
Proof.
  induction es as [|e es IH]; intros w H; [exact H|].
  cbn. apply IH, Inv_step, H.
Qed.

Lemma Inv_new (u : string) (s0 : W) : Inv (new_client hb u s0).
Proof.
  split; [split; [reflexivity | constructor] | split; [split|]; reflexivity].
Qed.

End Invariant.

(** C7.  In every state a client reaches from its construction, by any
    sequence of calls, transport events and timer events, [connected] and
    [reconnecting] are not both set; the same holds of every status that
    [updateConnectionStatus] has installed and handed to the listeners on
    the way. *)
Theorem connected_and_reconnecting_exclusive :
  forall (W : Type) (auto : bool) (u : string) (s0 : W) (es : list (Event W)),
    let w := run es (new_client auto u s0) in
    (connected (connectionStatus w) && reconnecting (connectionStatus w) = false)
    /\ Forall (fun st => connected st && reconnecting st = false) (statuses_of (trace w)).
Proof.
  intros W auto u s0 es. cbv zeta.
  destruct (Inv_run auto es _ (Inv_new auto u s0)) as [[H1 H2] _].
  unfold status_ok in *. split.
  - apply negb_true_iff. exact H1.
  - eapply Forall_impl; [|exact H2]. cbv beta. intros st Hst.
    apply negb_true_iff. exact Hst.
Qed.

(** ** [connect] *)

Section ConnectProofs.

Context {W : Type}.

Lemma update_nth_length_app {A : Type} (f : A -> A) (x : A) (l : list A) :
  update_nth (List.length l) f (l ++ [x]) = (l ++ [f x])%list.
Proof. induction l as [|a l IH]; cbn; [reflexivity | rewrite IH; reflexivity]. Qed.

Lemma connect_eq (w : World W) :
  connect false w =
  mkWorld (Some (List.length (sockets w))) (url w) (reconnectAttempts w)
    (messageHandlers w) (connectionHandlers w) (status false true None)
    (heartbeat w) (pingInterval w)
    (sockets w ++ [mkSocket CONNECTING false (heartbeat w) false])
    (timeouts w) (intervals w) (nextTimerId w)
    (notify (status false true None) (connectionHandlers w) (subs w))
    (trace w ++
     EStatus (status false true None)
     :: dispatch_trace "Error in connection handler:" (map hid (connectionHandlers w))
          (raised (status false true None) (connectionHandlers w) (subs w))
     ++ [ENewWebSocket (List.length (sockets w)) (url w)]).
Proof.
  unfold connect, AutoReconnectWebSocket_connect, WebSocketClient_connect, new_WebSocket.
  rewrite updateConnectionStatus_eq. unfold update_socket.
  destruct w as [a b c d e f hb g sk i j k l m]; destruct hb; record_simpl.
  - rewrite update_nth_length_app. rewrite <- !app_assoc. reflexivity.
  - cbn [snd]. record_simpl. rewrite <- !app_assoc. reflexivity.
Qed.

Lemma live_app (a b : list Socket) :
  List.length (filter is_live (a ++ b))
  = (List.length (filter is_live a) + List.length (filter is_live b))%nat.
Proof. rewrite filter_app, length_app. reflexivity. Qed.

End ConnectProofs.

(** C2, the claim as stated fails: with a connection attempt in flight, a
    second [connect()] makes a second socket, and when both open the client
    has two live transport connections. *)
Lemma connect_in_flight_makes_second_socket :
  in_flight pending_world = true
  /\ List.length (sockets pending_world) = 1%nat
  /\ List.length (sockets (step (CallConnect false) pending_world)) = 2%nat
  /\ feasible [CallConnect false; EvOpen 0; EvOpen 1] pending_world = true
  /\ live (run [CallConnect false; EvOpen 0; EvOpen 1] pending_world) = 2%nat.
Proof. vm_compute. repeat split. Qed.

(** C2, amended.  [connect()] has no guard: every call whose constructor
    does not raise, in whatever state, creates exactly one new socket in
    state CONNECTING, makes it the client's current socket ([ws]) and leaves
    every earlier socket as it was, so the number of live sockets grows by
    one; no socket is closed.  The client refers to one socket at a time.
    Idempotent is the store's [initConsoleWebSocket]: with a console client
    in place it changes nothing. *)
Theorem connect_always_makes_one_socket :
  forall (W : Type) (w : World W),
    let w' := step (CallConnect false) w in
    sockets w' = (sockets w ++ [mkSocket CONNECTING false (heartbeat w) false])%list
    /\ ws w' = Some (List.length (sockets w))
    /\ sockets_made (since w w') = [List.length (sockets w)]
    /\ closes_of (since w w') = []
    /\ live w' = S (live w)
    /\ (forall https host t c sw d,
           initConsoleWebSocket https host t (mkStore (Some c) sw d)
           = mkStore (Some c) sw d).
Proof.
  intros W w. cbv zeta. unfold step. rewrite connect_eq.
  split; [reflexivity|]. split; [reflexivity|].
  split; [|split; [|split]].
  - erewrite since_extend by reflexivity. filter_trace. reflexivity.
  - erewrite since_extend by reflexivity. filter_trace. reflexivity.
  - unfold live. cbn [sockets]. rewrite live_app. cbn. lia.
  - reflexivity.
Qed.

(** ** Exhausted retries *)

Section CloseProofs.

Context {W : Type}.

Lemma onclose_normal_eq (code : Z) (reason : string) (w : World W) :
  negb (code =? 1000) && (reconnectAttempts w <? maxReconnectAttempts) = false ->
  onclose code reason w =
  updateConnectionStatus (status false false None) (console LLog "WebSocket closed:" w).
Proof.
  intro H. unfold onclose.
  replace (reconnectAttempts
             (updateConnectionStatus (status false false None)
                (console LLog "WebSocket closed:" w))) with (reconnectAttempts w)
    by (rewrite updateConnectionStatus_eq; destruct w; reflexivity).
  rewrite H. reflexivity.
Qed.

Lemma onclose_error_none (code : Z) (reason : string) (w : World W) :
  error (connectionStatus (onclose code reason w)) = None.
Proof.
  destruct (negb (code =? 1000) && (reconnectAttempts w <? maxReconnectAttempts)) eqn:G.
  - apply andb_prop in G. destruct G as [Hc Ha].
    rewrite onclose_abnormal_eq; [reflexivity| |lia].
    intro E. rewrite E in Hc. discriminate.
  - rewrite onclose_normal_eq by exact G. rewrite updateConnectionStatus_eq.
    destruct w; reflexivity.
Qed.

End CloseProofs.

(** C1, the code at the failing run: the connection opens, drops, and each
    of the five retries (delays 1000, 2000, 4000, 8000 and 16000 ms) ends in
    [error] and an abnormal [close].  Afterwards nothing is scheduled, no
    browser event is pending, six sockets were made in all and the counter
    stands at 5; but the status is [{connected:false, reconnecting:false}]
    with no [error], and "Max reconnection attempts reached" was never
    reported: [onclose] tests the counter itself before it calls
    [attemptReconnect], so that branch is never taken, and no close event
    ever leaves an [error] in the status.  The counter returns to 0 when a
    later explicit [connect()] opens, not when it is called. *)
Theorem exhausted_retries_leave_no_error :
  feasible exhaust_run (new_client false example_url tt) = true
  /\ scheduled_of (trace exhausted_world)
     = [(1, 1000); (2, 2000); (3, 4000); (4, 8000); (5, 16000)]
  /\ sockets_made (trace exhausted_world) = [0; 1; 2; 3; 4; 5]%nat
  /\ connectionStatus exhausted_world = status false false None
  /\ reconnectAttempts exhausted_world = maxReconnectAttempts
  /\ timeouts exhausted_world = []
  /\ error_lines "Max reconnection attempts reached" (trace exhausted_world) = 0%nat
  /\ (forall e : Event unit, enabled e exhausted_world = is_call e)
  /\ (forall (W : Type) (w : World W) s code reason,
         error (connectionStatus (step (EvClose s code reason) w)) = None)
  /\ reconnectAttempts (step (CallConnect false) exhausted_world) = 5
  /\ reconnectAttempts (run [CallConnect false; EvOpen 6] exhausted_world) = 0.
Proof.
  split; [vm_compute; reflexivity|].
  split; [vm_compute; reflexivity|].
  split; [vm_compute; reflexivity|].
  split; [vm_compute; reflexivity|].
  split; [vm_compute; reflexivity|].
  split; [vm_compute; reflexivity|].
  split; [vm_compute; reflexivity|].
  split; [|split; [|split; vm_compute; reflexivity]].
  - intro e. destruct e; try reflexivity;
      try (do 7 (try destruct s as [|s]); reflexivity).
  - intros W w s code reason. unfold step. apply onclose_error_none.
Qed.

(** ** Manual disconnect *)

Section DisconnectProofs.

Context {W : Type}.

Lemma WebSocketClient_disconnect_eq (w : World W) :
  WebSocketClient_disconnect w =
  updateConnectionStatus (status false false None)
    (match ws w with
     | Some s => set_ws None (ws_close s 1000 "Manual disconnect" w)
     | None => w
     end).
Proof. reflexivity. Qed.

(** The part of [disconnect] that precedes the status update. *)
Definition before_status (w : World W) : list Effect :=
  ((if heartbeat w && truthy (pingInterval w)
    then match pingInterval w with Some id => [EClearInterval id] | None => [] end
    else [])
   ++ match ws w with
      | Some s => [EWsClose s 1000 "Manual disconnect"]
      | None => []
      end)%list.

Lemma disconnect_trace (w : World W) :
  exists rs,
    trace (disconnect w) =
    (trace w ++ before_status w
       ++ EStatus (status false false None)
       :: dispatch_trace "Error in connection handler:"
            (map hid (connectionHandlers w)) rs)%list.
Proof.
  unfold disconnect, AutoReconnectWebSocket_disconnect, before_status.
  rewrite !WebSocketClient_disconnect_eq, !updateConnectionStatus_eq.
  unfold stopPing, clearInterval, ws_close, update_socket.
  destruct w as [a b c d e f hb g sk i j k l m].
  destruct hb; cbn [heartbeat andb pingInterval]; [destruct (truthy g) eqn:Ht|].
  - destruct g as [id|]; [|discriminate Ht]. destruct a; record_simpl;
      eexists; rewrite <- !app_assoc; reflexivity.
  - destruct a; record_simpl; eexists; rewrite <- ?app_assoc; reflexivity.
  - destruct a; record_simpl; eexists; rewrite <- ?app_assoc; reflexivity.
Qed.

Lemma disconnect_fields (w : World W) :
  connectionStatus (disconnect w) = status false false None
  /\ ws (disconnect w) = None
  /\ timeouts (disconnect w) = timeouts w
  /\ reconnectAttempts (disconnect w) = reconnectAttempts w.
Proof.
  unfold disconnect, AutoReconnectWebSocket_disconnect.
  rewrite !WebSocketClient_disconnect_eq, !updateConnectionStatus_eq.
  unfold stopPing, clearInterval, ws_close, update_socket.
  destruct w as [a b c d e f hb g sk i j k l m].
  record_simpl.
  destruct hb; [destruct (truthy g); [destruct g|]|];
    destruct a; record_simpl; repeat split.
Qed.

Lemma close_event_normal_trace (s : nat) (code : Z) (reason : string) (w : World W) :
  negb (code =? 1000) && (reconnectAttempts w <? maxReconnectAttempts) = false ->
  since w (step (EvClose s code reason) w) =
  EConsole LLog "WebSocket closed:"
  :: EStatus (status false false None)
  :: dispatch_trace "Error in connection handler:" (map hid (connectionHandlers w))
       (raised (status false false None) (connectionHandlers w) (subs w)).
Proof.
  intro G. apply since_extend. unfold step.
  rewrite onclose_normal_eq by (destruct w; exact G).
  rewrite updateConnectionStatus_eq. unfold console, update_socket.
  destruct w; record_simpl. rewrite <- app_assoc. reflexivity.
Qed.

Lemma close_event_normal_fields (s : nat) (code : Z) (reason : string) (w : World W) :
  negb (code =? 1000) && (reconnectAttempts w <? maxReconnectAttempts) = false ->
  timeouts (step (EvClose s code reason) w) = timeouts w
  /\ reconnectAttempts (step (EvClose s code reason) w) = reconnectAttempts w
  /\ connectionStatus (step (EvClose s code reason) w) = status false false None.
Proof.
  intro G. unfold step.
  rewrite onclose_normal_eq by (destruct w; exact G).
  rewrite updateConnectionStatus_eq. unfold console, update_socket.
  destruct w; record_simpl. repeat split.
Qed.

Lemma reconnect_logic_ran_dispatch_trace (label : string) (ids : list nat) :
  forall rs,
    String.eqb label "Max reconnection attempts reached" = false ->
    reconnect_logic_ran (dispatch_trace label ids rs) = false.
Proof.
  unfold reconnect_logic_ran.
  induction ids as [|i ids IH]; intros [|r rs] Hl; cbn; try reflexivity.
  destruct r; cbn; rewrite ?Hl; cbn; apply IH; exact Hl.
Qed.

End DisconnectProofs.

(** The call and the close events.  In every state, whatever closes came
    before, [disconnect()] closes the current socket, if there is one, with code
    1000 and reason "Manual disconnect", leaves the status
    [{connected:false, reconnecting:false}], forgets the socket and sets no
    timer (the pending ones and the attempt counter stay as they are).  A
    close event with code 1000 does not enter the reconnection logic.  A
    close event with any other code enters it while the attempt counter is
    below the maximum of 5: the counter goes up by one, a retry is scheduled
    and the status becomes [{connected:false, reconnecting:true}]. *)
Lemma manual_disconnect_schedules_nothing :
  forall (W : Type) (w : World W) (s : nat) (code : Z) (reason : string),
    (let w' := step CallDisconnect w in
     closes_of (since w w')
     = match ws w with
       | Some h => [(h, 1000, "Manual disconnect")]
       | None => []
       end
     /\ connectionStatus w' = status false false None
     /\ ws w' = None
     /\ scheduled_of (since w w') = []
     /\ reconnect_logic_ran (since w w') = false
     /\ timeouts w' = timeouts w
     /\ reconnectAttempts w' = reconnectAttempts w)
    /\ (let w' := step (EvClose s 1000 reason) w in
        reconnect_logic_ran (since w w') = false
        /\ scheduled_of (since w w') = []
        /\ timeouts w' = timeouts w
        /\ reconnectAttempts w' = reconnectAttempts w
        /\ connectionStatus w' = status false false None)
    /\ (code <> 1000 ->
        reconnectAttempts w < maxReconnectAttempts ->
        let w' := step (EvClose s code reason) w in
        reconnect_logic_ran (since w w') = true
        /\ scheduled_of (since w w')
           = [(nextTimerId w, reconnectDelay * 2 ^ reconnectAttempts w)]
        /\ reconnectAttempts w' = reconnectAttempts w + 1
        /\ connectionStatus w' = status false true None).
Proof.
  intros W w s code reason. split; [|split].
  - cbv zeta. unfold step.
    destruct (disconnect_trace w) as [rs Ht].
    destruct (disconnect_fields w) as [H1 [H2 [H3 H4]]].
    rewrite (since_extend _ _ _ Ht).
    split; [|split; [exact H1|split; [exact H2|split; [|split; [|split; assumption]]]]].
    + unfold before_status. filter_trace.
      destruct (heartbeat w && truthy (pingInterval w));
        [destruct (pingInterval w)|]; destruct (ws w); reflexivity.
    + unfold before_status. filter_trace.
      destruct (heartbeat w && truthy (pingInterval w));
        [destruct (pingInterval w)|]; destruct (ws w); reflexivity.
    + unfold before_status, reconnect_logic_ran. rewrite existsb_app.
      replace (existsb _ (_ ++ _)%list) with false
        by (destruct (heartbeat w && truthy (pingInterval w));
            [destruct (pingInterval w)|]; destruct (ws w); reflexivity).
      cbn [existsb orb].
      apply (reconnect_logic_ran_dispatch_trace "Error in connection handler:").
      reflexivity.
  - cbv zeta.
    assert (G : negb (1000 =? 1000) && (reconnectAttempts w <? maxReconnectAttempts) = false)
      by reflexivity.
    rewrite (close_event_normal_trace s 1000 reason w G).
    destruct (close_event_normal_fields s 1000 reason w G) as [H1 [H2 H3]].
    split; [|split; [|split; [exact H1|split; [exact H2|exact H3]]]].
    + unfold reconnect_logic_ran. cbn [existsb orb].
      apply (reconnect_logic_ran_dispatch_trace "Error in connection handler:").
      reflexivity.
    + filter_trace. reflexivity.
  - intros Hc Ha. cbv zeta. rewrite close_event_trace by assumption.
    split; [|split; [|split]].
    + unfold reconnect_logic_ran. apply existsb_exists.
      exists (EConsole LLog "Attempting to reconnect"). split; [|reflexivity].
      right. right. apply in_or_app. right. left. reflexivity.
    + filter_trace. replace (reconnectAttempts w + 1 - 1) with (reconnectAttempts w) by lia.
      reflexivity.
    + unfold step. rewrite onclose_abnormal_eq; [|exact Hc|destruct w; exact Ha].
      destruct w; reflexivity.
    + unfold step. rewrite onclose_abnormal_eq; [|exact Hc|destruct w; exact Ha].
      reflexivity.
Qed.

(** ** A manual disconnect whose close event is not a clean one *)

Section HastyProofs.

Context {W : Type}.

Lemma error_event_fields (s : nat) (w : World W) :
  reconnectAttempts (step (EvError s) w) = reconnectAttempts w
  /\ nextTimerId (step (EvError s) w) = nextTimerId w
  /\ timeouts (step (EvError s) w) = timeouts w
  /\ exists t, trace (step (EvError s) w) = (trace w ++ t)%list /\ scheduled_of t = [].
Proof.
  unfold step, onerror, reject. cbv zeta.
  destruct (is_settled s _); unfold console, update_socket;
    rewrite updateConnectionStatus_eq; destruct w; record_simpl;
    (split; [reflexivity|]); (split; [reflexivity|]); (split; [reflexivity|]);
    eexists; (split; [rewrite <- ?app_assoc; reflexivity|]); filter_trace; reflexivity.
Qed.

Lemma close_event_abnormal_fields (s : nat) (code : Z) (reason : string) (w : World W) :
  code <> 1000 ->
  reconnectAttempts w < maxReconnectAttempts ->
  connectionStatus (step (EvClose s code reason) w) = status false true None
  /\ timeouts (step (EvClose s code reason) w)
     = (timeouts w ++ [(nextTimerId w, reconnectDelay * 2 ^ (reconnectAttempts w + 1 - 1))])%list
  /\ exists t,
       trace (step (EvClose s code reason) w) = (trace w ++ t)%list
       /\ scheduled_of t
          = [(nextTimerId w, reconnectDelay * 2 ^ (reconnectAttempts w + 1 - 1))].
Proof.
  intros Hc Ha. unfold step.
  split; [|split].
  - rewrite onclose_abnormal_eq; [reflexivity|exact Hc|destruct w; exact Ha].
  - rewrite onclose_abnormal_eq; [|exact Hc|destruct w; exact Ha].
    destruct w; reflexivity.
  - eexists. split.
    + rewrite onclose_abnormal_trace; [|exact Hc|destruct w; exact Ha].
      destruct w; reflexivity.
    + filter_trace. destruct w; reflexivity.
Qed.

Lemma has_id_last (id d : Z) (l : list (Z * Z)) : has_id id (l ++ [(id, d)]) = true.
Proof.
  unfold has_id. rewrite existsb_app. cbn. rewrite Z.eqb_refl. apply orb_true_r.
Qed.

Lemma timeout_event_connects (id : Z) (w : World W) :
  has_id id (timeouts w) = true ->
  sockets_made (since w (step (EvTimeout id false) w)) = [List.length (sockets w)]
  /\ ws (step (EvTimeout id false) w) = Some (List.length (sockets w)).
Proof.
  intro H. unfold step. rewrite H, connect_eq. split.
  - erewrite since_extend by (destruct w; reflexivity).
    filter_trace. destruct w; reflexivity.
  - destruct w; reflexivity.
Qed.

End HastyProofs.

(** [disconnect()] marks a manual close only by the code 1000 it passes to
    [close]; the [onclose] callback stays installed and decides by the code
    of the close event.  When the browser ends the socket with another code,
    after an [error] event, then, while the attempt counter is below 5, the
    close event schedules a retry; when the timer fires [connect()] makes a
    new socket and takes it as the current one. *)
Lemma abnormal_close_after_disconnect (W : Type) (w : World W) (s : nat) (code : Z)
  (reason : string) :
  code <> 1000 ->
  reconnectAttempts w < maxReconnectAttempts ->
  let w1 := step CallDisconnect w in
  let w2 := run [EvError s; EvClose s code reason] w1 in
  let id := nextTimerId w1 in
  let w3 := step (EvTimeout id false) w2 in
  scheduled_of (since w1 w2) = [(id, reconnectDelay * 2 ^ reconnectAttempts w)]
  /\ connectionStatus w2 = status false true None
  /\ has_id id (timeouts w2) = true
  /\ sockets_made (since w2 w3) = [List.length (sockets w2)]
  /\ ws w3 = Some (List.length (sockets w2)).
Proof.
  intros Hc Ha. cbv zeta. cbn [run fold_left].
  destruct (manual_disconnect_schedules_nothing W w s code reason)
    as [[_ [_ [_ [_ [_ [_ D7]]]]]] _].
  set (w1 := step CallDisconnect w) in *.
  destruct (error_event_fields s w1) as [E1 [E2 [E3 [tE [E4 E5]]]]].
  set (wE := step (EvError s) w1) in *.
  assert (HaE : reconnectAttempts wE < maxReconnectAttempts) by (rewrite E1, D7; exact Ha).
  destruct (close_event_abnormal_fields s code reason wE Hc HaE)
    as [C1 [C2 [tC [C3 C4]]]].
  rewrite E1, E2, D7 in *.
  replace (reconnectAttempts w + 1 - 1) with (reconnectAttempts w) in * by lia.
  assert (Hid : has_id (nextTimerId w1) (timeouts (step (EvClose s code reason) wE)) = true)
    by (rewrite C2; apply has_id_last).
  split; [|split; [exact C1|]].
  - erewrite since_extend by (rewrite C3, E4, <- app_assoc; reflexivity).
    unfold scheduled_of in *. rewrite flat_map_app, E5, C4. reflexivity.
  - split; [exact Hid|]. apply timeout_event_connects, Hid.
Qed.




(** ** The console buffer *)

Section BufferProofs.

Context {A : Type}.

Lemma lastn_short (n : nat) (l : list A) :
  (List.length l <= n)%nat -> lastn n l = l.
Proof.
  intro H. unfold lastn. replace (List.length l - n)%nat with 0%nat by lia.
  reflexivity.
Qed.

Lemma lastn_length (n : nat) (l : list A) :
  List.length (lastn n l) = Nat.min n (List.length l).
Proof. unfold lastn. rewrite length_skipn. lia. Qed.

Lemma lastn_app_l (n : nat) (a c : list A) :
  lastn n (lastn n a ++ c) = lastn n (a ++ c).
Proof.
  destruct (Nat.le_gt_cases (List.length a) n) as [H|H].
  - rewrite (lastn_short n a H). reflexivity.
  - unfold lastn at 1 3. rewrite !length_app, lastn_length.
    replace (Nat.min n (List.length a)) with n by lia.
    unfold lastn.
    rewrite (skipn_app (List.length a + List.length c - n) a c).
    rewrite (skipn_app (n + List.length c - n)).
    rewrite skipn_skipn, length_skipn.
    replace (n + List.length c - n + (List.length a - n))%nat
      with (List.length a + List.length c - n)%nat by lia.
    f_equal. f_equal. lia.
Qed.

Lemma lastn_app_long (n : nat) (a c : list A) :
  (n <= List.length c)%nat -> lastn n (a ++ c) = lastn n c.
Proof.
  intro H. unfold lastn. rewrite length_app, skipn_app.
  rewrite skipn_all2 by lia. cbn [app]. f_equal. lia.
Qed.

Lemma lastn_snoc (n : nat) (l : list A) (x : A) :
  (0 < n)%nat -> exists pre, lastn n (l ++ [x]) = (pre ++ [x])%list.
Proof.
  intro H. unfold lastn. rewrite length_app, skipn_app. cbn [List.length].
  exists (skipn (List.length l + 1 - n) l). f_equal.
  replace (List.length l + 1 - n - List.length l)%nat with 0%nat by lia.
  reflexivity.
Qed.

End BufferProofs.

Lemma addConsoleMessage_lastn (m : ConsoleMessage) (d : StoreData) :
  consoleMessages (addConsoleMessage m d)
  = lastn maxConsoleMessages (consoleMessages d ++ [m]).
Proof.
  unfold addConsoleMessage, splice0, lastn. cbn [consoleMessages].
  destruct (Nat.ltb_spec maxConsoleMessages (List.length (consoleMessages d ++ [m])))
    as [H|H]; [reflexivity|].
  replace (List.length (consoleMessages d ++ [m]) - maxConsoleMessages)%nat
    with 0%nat by lia.
  reflexivity.
Qed.

Lemma addConsoleMessage_length (m : ConsoleMessage) (d : StoreData) :
  (List.length (consoleMessages (addConsoleMessage m d)) <= maxConsoleMessages)%nat.
Proof. rewrite addConsoleMessage_lastn, lastn_length. lia. Qed.

Lemma appendAll_lastn (msgs : list ConsoleMessage) :
  forall d,
    (List.length (consoleMessages d) <= maxConsoleMessages)%nat ->
    consoleMessages (appendAll msgs d)
    = lastn maxConsoleMessages (consoleMessages d ++ msgs).
Proof.
  induction msgs as [|m ms IH]; intros d Hd.
  - cbn. rewrite app_nil_r, lastn_short by exact Hd. reflexivity.
  - cbn [appendAll fold_left]. change (fold_left _ ms ?x) with (appendAll ms x).
    rewrite IH by apply addConsoleMessage_length.
    rewrite addConsoleMessage_lastn, lastn_app_l, <- app_assoc. reflexivity.
Qed.

Lemma appendAll_nonempty (msgs : list ConsoleMessage) (d : StoreData) :
  msgs <> [] ->
  consoleMessages (appendAll msgs d)
  = lastn maxConsoleMessages (consoleMessages d ++ msgs).
Proof.
  destruct msgs as [|m ms]; [congruence|]. intros _.
  cbn [appendAll fold_left]. change (fold_left _ ms ?x) with (appendAll ms x).
  rewrite appendAll_lastn by apply addConsoleMessage_length.
  rewrite addConsoleMessage_lastn, lastn_app_l, <- app_assoc. reflexivity.
Qed.

(** C5.  Appending more than 1000 console messages, to whatever the buffer
    held, leaves exactly the last 1000 of them, in the order they arrived.
    After [addConsoleMessage], whatever came before, and after
    [clearConsoleMessages], the buffer holds at most 1000 messages; the
    listener [handleConsoleMessage] keeps that bound. *)
Theorem console_buffer_keeps_last_1000 :
  forall (msgs : list ConsoleMessage) (d : StoreData),
    (1000 < List.length msgs)%nat ->
    consoleMessages (appendAll msgs d) = skipn (List.length msgs - 1000) msgs
    /\ List.length (consoleMessages (appendAll msgs d)) = 1000%nat
    /\ (forall m d', (List.length (consoleMessages (addConsoleMessage m d')) <= 1000)%nat)
    /\ List.length (consoleMessages (clearConsoleMessages d)) = 0%nat
    /\ (forall m d', (List.length (consoleMessages d') <= 1000)%nat ->
                     (List.length (consoleMessages (handleConsoleMessage m d')) <= 1000)%nat).
Proof.
  intros msgs d H.
  assert (Hne : msgs <> []) by (intro E; subst; cbn in H; lia).
  assert (E : consoleMessages (appendAll msgs d) = skipn (List.length msgs - 1000) msgs).
  { rewrite appendAll_nonempty by exact Hne.
    rewrite lastn_app_long by (unfold maxConsoleMessages; lia). reflexivity. }
  split; [exact E|]. split; [rewrite E, length_skipn; lia|].
  split; [intros m d'; apply addConsoleMessage_length|].
  split; [reflexivity|].
  intros m d' Hd. unfold handleConsoleMessage.
  destruct (String.eqb (type m) "console_log"); [|exact Hd].
  apply addConsoleMessage_length.
Qed.

Lemma console_buffer_keeps_last_1000_witness :
  consoleMessages (appendAll burst (refs empty_store)) = skipn 1 burst
  /\ List.length (consoleMessages (appendAll burst (refs empty_store))) = 1000%nat.
Proof.
  assert (H : (1000 < List.length burst)%nat) by (apply Nat.ltb_lt; vm_compute; reflexivity).
  pose proof (console_buffer_keeps_last_1000 burst (refs empty_store) H) as [H1 [H2 _]].
  split; [exact H1 | exact H2].
Defined.

(** ** Sending a console command *)

Lemma send_subs {W : Type} (m : Frame) (w : World W) : subs (send m w) = subs w.
Proof.
  unfold send, console. destruct (ws w) as [s|]; [destruct (is_open s w)|];
    destruct w; reflexivity.
Qed.

Lemma sendConsoleCommand_connected (command now : string) (st : Store) :
  console_connected st = true ->
  sendConsoleCommand command now st = (true, with_console (sendCommand command now) st)
  /\ refs (with_console (sendCommand command now) st) = refs st
  /\ isConsoleConnected st = true.
Proof.
  unfold console_connected, sendConsoleCommand, with_console. intro H.
  destruct (consoleWs st) as [c|]; [|discriminate]. rewrite H. cbn [negb].
  split; [reflexivity|]. split; [|reflexivity].
  cbn [refs]. unfold sendCommand. rewrite send_subs. destruct c; reflexivity.
Qed.

Lemma sendConsoleCommand_disconnected (command now : string) (st : Store) :
  console_connected st = false ->
  sendConsoleCommand command now st = (false, st).
Proof.
  unfold console_connected, sendConsoleCommand. intro H.
  destruct (consoleWs st) as [c|]; [|reflexivity]. rewrite H. reflexivity.
Qed.



(** ** What a run can add to the trace *)

Section Quiet.

Context {W : Type}.

(** [okF] tells which frames may be written; with [D] set, the client is
    moreover to stay not connected. *)
Variable okF : Frame -> bool.
Variable D : bool.
Hypothesis D_or_ping : D = true \/ forall now, okF (PingFrame now) = true.
Hypothesis okF_command : forall c now, okF (CommandFrame c now) = true.

Definition okE (e : Effect) : bool :=
  match e with
  | EWsSend _ f => okF f
  | ESetInterval _ _ => false
  | _ => true
  end.

Definition allowed (e : Event W) : bool :=
  match e with
  | EvOpen _ => false
  | CallSend m => okF m
  | CallPing now => okF (PingFrame now)
  | _ => true
  end.

Variable w0 : World W.

Definition Q (w : World W) : Prop :=
  (D = true -> isConnected w = false)
  /\ exists t, trace w = (trace w0 ++ t)%list /\ forallb okE t = true.

Lemma okE_dispatch_trace (label : string) (ids : list nat) :
  forall rs, forallb okE (dispatch_trace label ids rs) = true.
Proof.
  induction ids as [|i ids IH]; intros [|r rs]; cbn; try reflexivity.
  destruct r; cbn; apply IH.
Qed.

Lemma Q_init : (D = true -> isConnected w0 = false) -> Q w0.
Proof. intro H. split; [exact H|]. exists []. rewrite app_nil_r. split; reflexivity. Qed.

Lemma Q_frame (w w' : World W) :
  connectionStatus w' = connectionStatus w ->
  trace w' = trace w ->
  Q w -> Q w'.
Proof. unfold Q, isConnected. intros -> ->. exact (fun H => H). Qed.

Lemma Q_emit (e : Effect) (w : World W) : okE e = true -> Q w -> Q (emit e w).
Proof.
  intros He [H1 [t [Ht Hok]]]. split; [destruct w; exact H1|].
  exists (t ++ [e])%list. split.
  - destruct w; cbn in *. rewrite Ht, <- app_assoc. reflexivity.
  - rewrite forallb_app, Hok. cbn. rewrite He. reflexivity.
Qed.

Lemma Q_update (st : WSConnectionStatus) (w : World W) :
  (D = true -> connected st = false) -> Q w -> Q (updateConnectionStatus st w).
Proof.
  intros Hst [_ [t [Ht Hok]]]. rewrite updateConnectionStatus_eq.
  split; [destruct w; exact Hst|].
  exists (t ++ EStatus st
               :: dispatch_trace "Error in connection handler:"
                    (map hid (connectionHandlers w))
                    (raised st (connectionHandlers w) (subs w)))%list.
  split.
  - destruct w; cbn in *. rewrite Ht, <- app_assoc. reflexivity.
  - rewrite forallb_app, Hok. cbn. apply okE_dispatch_trace.
Qed.

Lemma Q_handleMessage (m : WSMessage) (w : World W) : Q w -> Q (handleMessage m w).
Proof.
  intros [H1 [t [Ht Hok]]]. rewrite handleMessage_eq.
  split; [destruct w; exact H1|].
  exists (t ++ EConsole LLog "WebSocket message received:"
               :: dispatch_trace "Error in message handler:"
                    (map hid (messageHandlers w))
                    (raised m (messageHandlers w) (subs w)))%list.
  split.
  - destruct w; cbn in *. rewrite Ht, <- app_assoc. reflexivity.
  - rewrite forallb_app, Hok. cbn. apply okE_dispatch_trace.
Qed.

Ltac q_known := fail.

Ltac q_solve :=
  repeat
    match goal with
    | |- Q (if ?c then _ else _) => destruct c
    | |- Q (match (if ?c then _ else _) with _ => _ end) => destruct c; cbv beta iota
    | |- Q (match ?x with _ => _ end) => destruct x
    | |- Q (snd (if ?c then _ else _)) => destruct c
    | |- Q (snd (_, _)) => cbn [snd]
    | |- Q (updateConnectionStatus _ _) => apply Q_update; [intros _; reflexivity|]
    | |- Q (handleMessage _ _) => apply Q_handleMessage
    | |- Q (emit _ _) => apply Q_emit; [first [reflexivity | assumption | apply okF_command]|]
    | |- Q _ => assumption
    | |- Q _ => q_known
    | |- Q (?f ?a ?b ?w) => apply (Q_frame w); [reflexivity|reflexivity|]
    | |- Q (?f ?a ?w) => apply (Q_frame w); [reflexivity|reflexivity|]
    end.

Lemma Q_send (m : Frame) (w : World W) : okF m = true -> Q w -> Q (send m w).
Proof. intros Hm H. unfold send, console. q_solve. Qed.

Lemma Q_pingTick (now : string) (w : World W) : Q w -> Q (pingTick now w).
Proof.
  intro H. unfold pingTick, ping.
  destruct D_or_ping as [HD|Hp].
  - destruct H as [H1 H2]. rewrite (H1 HD). split; [exact H1 | exact H2].
  - destruct (isConnected w); [|exact H]. apply Q_send; [apply Hp | exact H].
Qed.

Lemma Q_stopPing (w : World W) : Q w -> Q (stopPing w).
Proof. intro H. unfold stopPing, clearInterval. q_solve. Qed.

Lemma Q_reject (s : nat) (w : World W) : Q w -> Q (reject s w).
Proof. intro H. unfold reject. q_solve. Qed.

Lemma Q_attemptReconnect (w : World W) : Q w -> Q (attemptReconnect w).
Proof. intro H. unfold attemptReconnect, setTimeout, console. cbv zeta. q_solve. Qed.

Ltac q_known ::=
  first [apply Q_pingTick | apply Q_stopPing | apply Q_reject | apply Q_attemptReconnect].

Lemma Q_onmessage (payload : option WSMessage) (w : World W) :
  Q w -> Q (onmessage payload w).
Proof. intro H. unfold onmessage, console. q_solve. Qed.

Lemma Q_onclose (code : Z) (reason : string) (w : World W) :
  Q w -> Q (onclose code reason w).
Proof. intro H. unfold onclose, console. cbv zeta. q_solve. Qed.

Lemma Q_onerror (s : nat) (w : World W) : Q w -> Q (onerror s w).
Proof. intro H. unfold onerror, console. cbv zeta. q_solve. Qed.

Lemma Q_WebSocketClient_connect (t : bool) (w : World W) :
  Q w -> Q (snd (WebSocketClient_connect t w)).
Proof.
  intro H. unfold WebSocketClient_connect, new_WebSocket. cbv zeta beta. q_solve.
Qed.

Lemma Q_WebSocketClient_disconnect (w : World W) :
  Q w -> Q (WebSocketClient_disconnect w).
Proof.
  intro H. unfold WebSocketClient_disconnect, ws_close. cbv zeta.
  apply Q_update; [intros _; reflexivity|]. q_solve.
Qed.

Lemma Q_connect (t : bool) (w : World W) : Q w -> Q (connect t w).
Proof.
  intro H. unfold connect, AutoReconnectWebSocket_connect.
  pose proof (Q_WebSocketClient_connect t w H) as Hc.
  destruct (WebSocketClient_connect t w) as [[s|] w']; cbn [snd] in Hc; q_solve.
Qed.

Lemma Q_disconnect (w : World W) : Q w -> Q (disconnect w).
Proof.
  intro H. unfold disconnect, AutoReconnectWebSocket_disconnect.
  destruct (heartbeat w); apply Q_WebSocketClient_disconnect; q_solve.
Qed.

Ltac q_known ::=
  first [apply Q_pingTick | apply Q_onmessage | apply Q_onclose | apply Q_onerror
        | apply Q_connect | apply Q_disconnect].

Lemma Q_step (e : Event W) (w : World W) : allowed e = true -> Q w -> Q (step e w).
Proof.
  intros Ha H.
  destruct e; try discriminate Ha; cbn [allowed] in Ha;
    unfold step, sendCommand, ping, onMessage, offMessage,
      onConnectionChange, offConnectionChange;
    try (apply Q_send; [first [exact Ha | apply okF_command] | exact H]);
    q_solve.
Qed.

Lemma Q_run (es : list (Event W)) :
  forall w, forallb allowed es = true -> Q w -> Q (run es w).
Proof.
  induction es as [|e es IH]; intros w Ha H; [exact H|].
  cbn in Ha. apply andb_prop in Ha. destruct Ha as [Ha1 Ha2].
  cbn. apply IH; [exact Ha2|]. apply Q_step; assumption.
Qed.

Lemma Q_since (w : World W) :
  Q w -> forallb okE (since w0 w) = true /\ (D = true -> isConnected w = false).
Proof.
  intros [H1 [t [Ht Hok]]]. split; [|exact H1].
  rewrite (since_extend _ _ _ Ht). exact Hok.
Qed.

End Quiet.

(** ** Runs in which no socket opens *)

Section Unopened.

Context {W : Type}.

Variable w0 : World W.

(** The current socket, if there is one, is not open, and no frame was
    written since [w0]. *)
Definition U (w : World W) : Prop :=
  (forall s, ws w = Some s -> is_open s w = false)
  /\ exists t, trace w = (trace w0 ++ t)%list /\ sends_of t = [].

Lemma U_init : (forall s, ws w0 = Some s -> is_open s w0 = false) -> U w0.
Proof.
  intro H. split; [exact H|]. exists []. rewrite app_nil_r. split; reflexivity.
Qed.

Lemma U_extend (w w' : World W) (t' : list Effect) :
  ws w' = ws w ->
  sockets w' = sockets w ->
  trace w' = (trace w ++ t')%list ->
  sends_of t' = [] ->
  U w -> U w'.
Proof.
  intros Hw Hs Ht Hf [H1 [t [Et E2]]]. split.
  - intros s Hs'. rewrite Hw in Hs'. specialize (H1 s Hs').
    unfold is_open, socket_state in *. rewrite Hs. exact H1.
  - exists (t ++ t')%list. split; [rewrite Ht, Et, app_assoc; reflexivity|].
    unfold sends_of in *. rewrite flat_map_app, E2, Hf. reflexivity.
Qed.

Lemma U_frame (w w' : World W) :
  ws w' = ws w -> sockets w' = sockets w -> trace w' = trace w -> U w -> U w'.
Proof.
  intros Hw Hs Ht. apply (U_extend w w' []); try assumption; [|reflexivity].
  rewrite app_nil_r. exact Ht.
Qed.

Lemma U_emit (e : Effect) (w : World W) : sends_of [e] = [] -> U w -> U (emit e w).
Proof.
  intro Hf. apply (U_extend w (emit e w) [e]); try assumption; destruct w; reflexivity.
Qed.

Lemma U_update (st : WSConnectionStatus) (w : World W) :
  U w -> U (updateConnectionStatus st w).
Proof.
  apply (U_extend w _
           (EStatus st
              :: dispatch_trace "Error in connection handler:"
                   (map hid (connectionHandlers w))
                   (raised st (connectionHandlers w) (subs w))));
    try (rewrite updateConnectionStatus_eq; destruct w; reflexivity).
  unfold sends_of. cbn [flat_map app]. apply flat_map_dispatch_trace; reflexivity.
Qed.

Lemma U_handleMessage (m : WSMessage) (w : World W) : U w -> U (handleMessage m w).
Proof.
  apply (U_extend w _
           (EConsole LLog "WebSocket message received:"
              :: dispatch_trace "Error in message handler:"
                   (map hid (messageHandlers w))
                   (raised m (messageHandlers w) (subs w))));
    try (rewrite handleMessage_eq; destruct w; reflexivity).
  unfold sends_of. cbn [flat_map app]. apply flat_map_dispatch_trace; reflexivity.
Qed.

Lemma U_send (m : Frame) (w : World W) : U w -> U (send m w).
Proof.
  intro H. unfold send, console.
  destruct (ws w) as [s|] eqn:Hws; [|apply U_emit; [reflexivity|exact H]].
  rewrite (proj1 H s Hws). apply U_emit; [reflexivity|exact H].
Qed.

Lemma not_open_update_nth (f : Socket -> Socket) (l : list Socket) :
  (forall k, readyState (f k) = OPEN -> readyState k = OPEN) ->
  forall s s',
    match nth_error l s' with
    | Some k => ReadyState_eqb (readyState k) OPEN
    | None => false
    end = false ->
    match nth_error (update_nth s f l) s' with
    | Some k => ReadyState_eqb (readyState k) OPEN
    | None => false
    end = false.
Proof.
  intro Hf. induction l as [|a l IH]; intros [|s] [|s'] H; cbn in *; auto.
  destruct (readyState (f a)) eqn:E; try reflexivity.
  rewrite (Hf a E) in H. discriminate H.
Qed.

Lemma U_update_socket (s : nat) (f : Socket -> Socket) (w : World W) :
  (forall k, readyState (f k) = OPEN -> readyState k = OPEN) ->
  U w -> U (update_socket s f w).
Proof.
  intros Hf [H1 [t [Et E2]]]. split.
  - intros s' Hs'. assert (Hw : ws w = Some s') by (destruct w; exact Hs').
    specialize (H1 s' Hw). unfold is_open, socket_state in *.
    replace (sockets (update_socket s f w)) with (update_nth s f (sockets w))
      by (destruct w; reflexivity).
    apply not_open_update_nth; assumption.
  - exists t. split; [destruct w; exact Et | exact E2].
Qed.

Lemma U_forget (w : World W) : U w -> U (set_ws None w).
Proof.
  intros [_ [t [Et E2]]]. split; [destruct w; discriminate|].
  exists t. split; [destruct w; exact Et | exact E2].
Qed.

(** [new WebSocket] and the assignment to [this.ws]. *)
Lemma U_new_WebSocket (w : World W) :
  U w -> U (set_ws (Some (fst (new_WebSocket w))) (snd (new_WebSocket w))).
Proof.
  intros [_ [t [Et E2]]]. split.
  - intros s Hs.
    assert (Hn : s = List.length (sockets w))
      by (unfold new_WebSocket in Hs; destruct w; cbn in *; congruence).
    subst s. unfold is_open, socket_state.
    replace (sockets (set_ws _ (snd (new_WebSocket w))))
      with (sockets w ++ [mkSocket CONNECTING false false false])%list
      by (destruct w; reflexivity).
    clear. induction (sockets w) as [|a l IH]; [reflexivity | exact IH].
  - exists (t ++ [ENewWebSocket (List.length (sockets w)) (url w)])%list.
    split; [destruct w; cbn in *; rewrite Et, app_assoc; reflexivity|].
    unfold sends_of in *. rewrite flat_map_app, E2. reflexivity.
Qed.

Ltac u_side :=
  let k := fresh "k" in
  let Hk := fresh "Hk" in
  intros k Hk; destruct k as [[] ? ? ?]; cbn in *;
  first [exact Hk | discriminate Hk | reflexivity].

Ltac u_known := fail.

Ltac u_solve :=
  repeat
    match goal with
    | |- U (if ?c then _ else _) => destruct c
    | |- U (match (if ?c then _ else _) with _ => _ end) => destruct c; cbv beta iota
    | |- U (match ?x with _ => _ end) => destruct x
    | |- U (snd (if ?c then _ else _)) => destruct c
    | |- U (snd (_, _)) => cbn [snd]
    | |- U (updateConnectionStatus _ _) => apply U_update
    | |- U (handleMessage _ _) => apply U_handleMessage
    | |- U (send _ _) => apply U_send
    | |- U (emit _ _) => apply U_emit; [reflexivity|]
    | |- U (set_ws None _) => apply U_forget
    | |- U (update_socket _ _ _) => apply U_update_socket; [u_side|]
    | |- U _ => assumption
    | |- U _ => u_known
    | |- U (?f ?a ?b ?w) => apply (U_frame w); [reflexivity|reflexivity|reflexivity|]
    | |- U (?f ?a ?w) => apply (U_frame w); [reflexivity|reflexivity|reflexivity|]
    end.

Lemma U_pingTick (now : string) (w : World W) : U w -> U (pingTick now w).
Proof. intro H. unfold pingTick, ping. u_solve. Qed.

Lemma U_startPing (w : World W) : U w -> U (startPing w).
Proof.
  intro H. unfold startPing, stopPing, setInterval, clearInterval. cbv zeta beta. u_solve.
Qed.

Lemma U_stopPing (w : World W) : U w -> U (stopPing w).
Proof. intro H. unfold stopPing, clearInterval. u_solve. Qed.

Ltac u_known ::= first [apply U_pingTick | apply U_startPing | apply U_stopPing].

Lemma U_resolve (s : nat) (w : World W) : U w -> U (resolve s w).
Proof. intro H. unfold resolve. cbv zeta. u_solve. Qed.

Lemma U_reject (s : nat) (w : World W) : U w -> U (reject s w).
Proof. intro H. unfold reject. u_solve. Qed.

Lemma U_attemptReconnect (w : World W) : U w -> U (attemptReconnect w).
Proof. intro H. unfold attemptReconnect, setTimeout, console. cbv zeta. u_solve. Qed.

Ltac u_known ::=
  first [apply U_pingTick | apply U_startPing | apply U_stopPing | apply U_resolve
        | apply U_reject | apply U_attemptReconnect].

Lemma U_onmessage (payload : option WSMessage) (w : World W) :
  U w -> U (onmessage payload w).
Proof. intro H. unfold onmessage, console. u_solve. Qed.

Lemma U_onclose (code : Z) (reason : string) (w : World W) :
  U w -> U (onclose code reason w).
Proof. intro H. unfold onclose, console. cbv zeta. u_solve. Qed.

Lemma U_onerror (s : nat) (w : World W) : U w -> U (onerror s w).
Proof. intro H. unfold onerror, console. cbv zeta. u_solve. Qed.

Lemma U_WebSocketClient_connect (t : bool) (w : World W) :
  U w -> U (snd (WebSocketClient_connect t w)).
Proof.
  intro H. unfold WebSocketClient_connect. cbv zeta.
  destruct t; [cbn [snd]; u_solve|].
  pose proof (U_new_WebSocket _ (U_update (status false true None) w H)) as Hn.
  destruct (new_WebSocket (updateConnectionStatus (status false true None) w)) as [s w'].
  exact Hn.
Qed.

Lemma U_WebSocketClient_disconnect (w : World W) :
  U w -> U (WebSocketClient_disconnect w).
Proof.
  intro H. unfold WebSocketClient_disconnect, ws_close. cbv zeta.
  apply U_update. u_solve.
Qed.

Lemma U_connect (t : bool) (w : World W) : U w -> U (connect t w).
Proof.
  intro H. unfold connect, AutoReconnectWebSocket_connect.
  pose proof (U_WebSocketClient_connect t w H) as Hc.
  destruct (WebSocketClient_connect t w) as [[s|] w']; cbn [snd] in Hc; u_solve.
Qed.

Lemma U_disconnect (w : World W) : U w -> U (disconnect w).
Proof.
  intro H. unfold disconnect, AutoReconnectWebSocket_disconnect.
  destruct (heartbeat w); apply U_WebSocketClient_disconnect; u_solve.
Qed.

Lemma U_step (e : Event W) (w : World W) : not_open e = true -> U w -> U (step e w).
Proof.
  intros Ha H.
  destruct e; try discriminate Ha;
    unfold step, sendCommand, ping, onMessage, offMessage,
      onConnectionChange, offConnectionChange.
  - apply U_connect, H.
  - apply U_disconnect, H.
  - apply U_send, H.
  - apply U_send, H.
  - apply U_send, H.
  - u_solve.
  - u_solve.
  - u_solve.
  - u_solve.
  - apply U_onmessage, H.
  - apply U_onerror. u_solve.
  - apply U_onclose. u_solve.
  - destruct (has_id id (timeouts w)); [|exact H]. apply U_connect. u_solve.
  - destruct (has_id id (intervals w)); [|exact H]. apply U_pingTick, H.
Qed.

Lemma U_run (es : list (Event W)) :
  forall w, forallb not_open es = true -> U w -> U (run es w).
Proof.
  induction es as [|e es IH]; intros w Ha H; [exact H|].
  cbn in Ha. apply andb_prop in Ha. destruct Ha as [Ha1 Ha2].
  cbn. apply IH; [exact Ha2|]. apply U_step; assumption.
Qed.

Lemma U_since (w : World W) : U w -> sends_of (since w0 w) = [].
Proof. intros [_ [t [Et E2]]]. rewrite (since_extend _ _ _ Et). exact E2. Qed.

End Unopened.

Lemma pings_of_sends (t : list Effect) : sends_of t = [] -> pings_of t = [].
Proof.
  induction t as [|e t IH]; intro H; [reflexivity|].
  unfold sends_of, pings_of in *. cbn [flat_map] in *.
  apply app_eq_nil in H. destruct H as [He Ht]. rewrite (IH Ht), app_nil_r.
  destruct e; try reflexivity. discriminate He.
Qed.

(** ** The heartbeat *)

Section HeartbeatProofs.

Context {W : Type}.

Lemma nth_error_update_nth (s : nat) (f : Socket -> Socket) (l : list Socket) :
  nth_error (update_nth s f l) s = option_map f (nth_error l s).
Proof. revert s; induction l as [|a l IH]; intros [|s]; cbn; auto. Qed.

Lemma nth_error_length_app (l : list Socket) (x : Socket) :
  nth_error (l ++ [x]) (List.length l) = Some x.
Proof. induction l as [|a l IH]; cbn; [reflexivity | exact IH]. Qed.

(** The world in which [resolve] calls [startPing]. *)
Definition opened (s : nat) (w : World W) : World W :=
  emit (EResolve s)
    (update_socket s set_settled
       (updateConnectionStatus (status true false None)
          (set_reconnectAttempts 0
             (console LLog "WebSocket connected:"
                (update_socket s (set_readyState OPEN) w))))).

Lemma onopen_fresh_eq (s : nat) (w : World W) (k : Socket) :
  socket_state s w = Some k -> settled k = false -> thenStartPing k = true ->
  step (EvOpen s) w = startPing (opened s w).
Proof.
  intros Hk Hs Hp. unfold opened, step, onopen, resolve. cbv zeta.
  unfold is_settled, awaits_startPing, socket_state, update_socket, console in *.
  rewrite !updateConnectionStatus_eq.
  destruct w as [a b c d e f hb g sk i j n l m]. record_simpl.
  rewrite !nth_error_update_nth, Hk.
  cbn [option_map set_readyState settled thenStartPing set_settled].
  rewrite Hs, Hp. reflexivity.
Qed.

Lemma opened_fields (s : nat) (w : World W) :
  connectionStatus (opened s w) = status true false None
  /\ ws (opened s w) = ws w
  /\ nextTimerId (opened s w) = nextTimerId w
  /\ sockets (opened s w)
     = update_nth s set_settled (update_nth s (set_readyState OPEN) (sockets w))
  /\ trace (opened s w)
     = (trace w ++
        EConsole LLog "WebSocket connected:"
        :: EStatus (status true false None)
        :: dispatch_trace "Error in connection handler:" (map hid (connectionHandlers w))
             (raised (status true false None) (connectionHandlers w) (subs w))
        ++ [EResolve s])%list.
Proof.
  unfold opened, update_socket, console. rewrite updateConnectionStatus_eq.
  destruct w; record_simpl. repeat split. rewrite <- !app_assoc. reflexivity.
Qed.

(** What [stopPing] adds to the trace. *)
Definition clear_part (w : World W) : list Effect :=
  match pingInterval w with
  | Some id => if truthy (Some id) then [EClearInterval id] else []
  | None => []
  end.

Lemma startPing_fields (w : World W) :
  connectionStatus (startPing w) = connectionStatus w
  /\ ws (startPing w) = ws w
  /\ sockets (startPing w) = sockets w
  /\ trace (startPing w)
     = (trace w ++ clear_part w ++ [ESetInterval (nextTimerId w) pingIntervalMs])%list.
Proof.
  unfold startPing, stopPing, setInterval, clearInterval, clear_part.
  destruct w as [a b c d e f hb g sk i j n l m]. record_simpl.
  destruct g as [id|]; [destruct (truthy (Some id))|]; record_simpl; repeat split;
    rewrite <- ?app_assoc; reflexivity.
Qed.

Lemma intervals_started_clear_part (w : World W) : intervals_started (clear_part w) = [].
Proof.
  unfold clear_part. destruct (pingInterval w) as [id|]; [|reflexivity].
  destruct (truthy (Some id)); reflexivity.
Qed.

Lemma open_fresh_facts (s : nat) (w : World W) (k : Socket) :
  Inv true w ->
  socket_state s w = Some k -> settled k = false -> thenStartPing k = true ->
  pingInterval (step (EvOpen s) w) = Some (nextTimerId w)
  /\ intervals (step (EvOpen s) w) = [(nextTimerId w, pingIntervalMs)]
  /\ connectionStatus (step (EvOpen s) w) = status true false None
  /\ ws (step (EvOpen s) w) = ws w
  /\ is_open s (step (EvOpen s) w) = true
  /\ (exists t, trace (step (EvOpen s) w) = (trace w ++ t)%list
                /\ intervals_started t = [(nextTimerId w, pingIntervalMs)]).
Proof.
  intros HI Hk Hs Hp. rewrite (onopen_fresh_eq s w k Hk Hs Hp).
  destruct (opened_fields s w) as [O1 [O2 [O3 [O4 O5]]]].
  destruct (startPing_fields (opened s w)) as [S1 [S2 [S3 S4]]].
  destruct (startPing_post true (opened s w) (Inv_before_startPing true s w HI))
    as [_ [P1 P2]].
  rewrite O3 in *.
  split; [exact P1|]. split; [exact P2|]. split; [congruence|]. split; [congruence|].
  split.
  - unfold is_open, socket_state. rewrite S3, O4, !nth_error_update_nth.
    unfold socket_state in Hk. rewrite Hk. reflexivity.
  - eexists. split; [rewrite S4, O5, <- app_assoc; reflexivity|].
    filter_trace. rewrite intervals_started_clear_part. reflexivity.
Qed.

Lemma tick_pings (id : Z) (now : string) (w : World W) :
  pings_of (since w (step (EvTick id now) w))
  = if has_id id (intervals w) && isConnected w
    then match ws w with
         | Some s => if is_open s w then [(s, now)] else []
         | None => []
         end
    else [].
Proof.
  unfold step, pingTick, ping, send, console.
  destruct (has_id id (intervals w)); cbn [andb];
    [destruct (isConnected w); [destruct (ws w) as [s|]; [destruct (is_open s w)|]|]|].
  - erewrite since_extend by (destruct w; reflexivity). reflexivity.
  - erewrite since_extend by (destruct w; reflexivity). reflexivity.
  - erewrite since_extend by (destruct w; reflexivity). reflexivity.
  - erewrite since_extend by (rewrite app_nil_r; reflexivity). reflexivity.
  - erewrite since_extend by (rewrite app_nil_r; reflexivity). reflexivity.
Qed.

Lemma WebSocketClient_disconnect_timers (w : World W) :
  intervals (WebSocketClient_disconnect w) = intervals w
  /\ pingInterval (WebSocketClient_disconnect w) = pingInterval w.
Proof.
  rewrite WebSocketClient_disconnect_eq, updateConnectionStatus_eq.
  unfold ws_close, update_socket.
  destruct w as [a b c d e f hb g sk i j n l m]. destruct a; record_simpl; split; reflexivity.
Qed.

Lemma intervals_started_okE (okF : Frame -> bool) (t : list Effect) :
  forallb (okE okF) t = true -> intervals_started t = [].
Proof.
  induction t as [|e t IH]; intro H; [reflexivity|].
  cbn in H. apply andb_prop in H. destruct H as [He Ht].
  unfold intervals_started in *. cbn [flat_map]. rewrite (IH Ht).
  destruct e; try reflexivity. discriminate He.
Qed.

(** [connect()] on a heartbeat client, then the open event of the socket
    it made. *)
Lemma connect_open_heartbeat (wp : World W) (now : string) :
  Inv true (connect false wp) ->
  heartbeat wp = true ->
  let n := List.length (sockets wp) in
  let w1 := step (EvOpen n) (connect false wp) in
  pingInterval w1 = Some (nextTimerId wp)
  /\ intervals w1 = [(nextTimerId wp, 30000)]
  /\ intervals_started (since wp w1) = [(nextTimerId wp, 30000)]
  /\ pings_of (since w1 (step (EvTick (nextTimerId wp) now) w1)) = [(n, now)]
  /\ isConnected w1 = true.
Proof.
  intros HI' Hhb. cbv zeta.
  set (w' := connect false wp) in *.
  assert (Hw' : w' = connect false wp) by reflexivity.
  rewrite connect_eq in Hw'.
  assert (Hsock : socket_state (List.length (sockets wp)) w'
                  = Some (mkSocket CONNECTING false true false)).
  { rewrite Hw'. unfold socket_state. cbn [sockets].
    rewrite nth_error_length_app, Hhb. reflexivity. }
  assert (Hnext : nextTimerId w' = nextTimerId wp) by (rewrite Hw'; reflexivity).
  assert (Hws : ws w' = Some (List.length (sockets wp))) by (rewrite Hw'; reflexivity).
  destruct (open_fresh_facts _ w' _ HI' Hsock eq_refl eq_refl)
    as [F1 [F2 [F3 [F4 [F5 [t [F6 F7]]]]]]].
  rewrite Hnext in *.
  split; [exact F1|]. split; [exact F2|]. split; [|split].
  - erewrite since_extend.
    2:{ rewrite F6. rewrite Hw' at 1. cbn [trace]. rewrite <- app_assoc. reflexivity. }
    unfold intervals_started in *. rewrite flat_map_app, F7.
    fold intervals_started. filter_trace. reflexivity.
  - rewrite tick_pings. rewrite F2. unfold has_id. cbn [existsb fst].
    rewrite Z.eqb_refl. unfold isConnected. rewrite F3, F4, Hws, F5. reflexivity.
  - unfold isConnected. rewrite F3. reflexivity.
Qed.

Lemma set_timeouts_fields (v : list (Z * Z)) (w : World W) :
  heartbeat (set_timeouts v w) = heartbeat w
  /\ sockets (set_timeouts v w) = sockets w
  /\ nextTimerId (set_timeouts v w) = nextTimerId w
  /\ trace (set_timeouts v w) = trace w.
Proof. destruct w; repeat split. Qed.

Lemma onopen_connected (s : nat) (w : World W) : isConnected (step (EvOpen s) w) = true.
Proof.
  unfold step, onopen, resolve, isConnected. cbv zeta.
  destruct (is_settled s _).
  - rewrite updateConnectionStatus_eq. destruct w; reflexivity.
  - destruct (awaits_startPing s _).
    + match goal with |- connected (connectionStatus (startPing ?x)) = _ =>
                        rewrite (proj1 (startPing_fields x)) end.
      rewrite updateConnectionStatus_eq. destruct w; reflexivity.
    + rewrite updateConnectionStatus_eq. destruct w; reflexivity.
Qed.

End HeartbeatProofs.

(** C9, the claim as stated fails: a heartbeat client opens, pings, loses
    its connection (close code 1006) and is disconnected by hand while the
    first retry is pending.  [disconnect()] cancels the ping timer but not
    the retry; with no further call the retry fires, its socket opens, a new
    ping timer starts and a ping is sent on the new socket. *)
Lemma ping_sent_after_disconnect :
  feasible (until_disconnect ++ after_disconnect) (new_client true example_url tt) = true
  /\ forallb (fun e => negb (is_call e)) after_disconnect = true
  /\ intervals disconnected_world = []
  /\ timeouts disconnected_world = [(2, 1000)]
  /\ pings_of (since disconnected_world (run after_disconnect disconnected_world))
     = [(1%nat, "t1")].
Proof. vm_compute. repeat split. Qed.

(** C9, amended.  For a heartbeat client in any state it can reach:
    - a [connect()] whose socket opens leaves exactly one interval timer,
      of period 30000 ms, started by that open event, and its tick then
      writes a ping frame to the new socket;
    - a tick writes a ping only if the timer is active and [isConnected()]
      holds (and then only to an open current socket);
    - [disconnect()] first clears the ping timer, then closes the socket,
      then updates the status; afterwards no interval is active, the client
      is not connected, and a tick of any timer, or the timer callback
      itself, does nothing;
    - after [disconnect()] no frame at all, so no ping, is written until a
      socket opens again, whatever the owner calls and whatever else the
      browser delivers;
    - [disconnect()] leaves the pending retry timers as they are, and when
      one of them fires and the socket of its [connect()] opens, the client
      is connected again with a new ping timer whose tick writes a ping to
      the new socket;
    - no event other than a socket opening starts an interval timer, and a
      socket opening leaves the client connected. *)
Theorem heartbeat_follows_connection :
  forall (W : Type) (u : string) (s0 : W) (es : list (Event W)) (now : string),
    let w := run es (new_client true u s0) in
    (let n := List.length (sockets w) in
     let w1 := run [CallConnect false; EvOpen n] w in
     pingInterval w1 = Some (nextTimerId w)
     /\ intervals w1 = [(nextTimerId w, 30000)]
     /\ intervals_started (since w w1) = [(nextTimerId w, 30000)]
     /\ pings_of (since w1 (step (EvTick (nextTimerId w) now) w1)) = [(n, now)])
    /\ (forall id,
           pings_of (since w (step (EvTick id now) w))
           = if has_id id (intervals w) && isConnected w
             then match ws w with
                  | Some s => if is_open s w then [(s, now)] else []
                  | None => []
                  end
             else [])
    /\ (let w2 := step CallDisconnect w in
        intervals w2 = []
        /\ pingInterval w2 = None
        /\ isConnected w2 = false
        /\ (exists rest,
               since w w2
               = (match pingInterval w with Some id => [EClearInterval id] | None => [] end
                  ++ match ws w with
                     | Some h => [EWsClose h 1000 "Manual disconnect"]
                     | None => []
                     end
                  ++ EStatus (status false false None) :: rest)%list)
        /\ (forall id, step (EvTick id now) w2 = w2)
        /\ pingTick now w2 = w2
        /\ (forall es',
               forallb not_open es' = true ->
               sends_of (since w2 (run es' w2)) = []
               /\ pings_of (since w2 (run es' w2)) = [])
        /\ timeouts w2 = timeouts w
        /\ (forall id,
               has_id id (timeouts w2) = true ->
               let n := List.length (sockets w2) in
               let w3 := run [EvTimeout id false; EvOpen n] w2 in
               isConnected w3 = true
               /\ pingInterval w3 = Some (nextTimerId w2)
               /\ intervals w3 = [(nextTimerId w2, 30000)]
               /\ intervals_started (since w2 w3) = [(nextTimerId w2, 30000)]
               /\ pings_of (since w3 (step (EvTick (nextTimerId w2) now) w3))
                  = [(n, now)]))
    /\ (forall e, not_open e = true -> intervals_started (since w (step e w)) = [])
    /\ (forall s, isConnected (step (EvOpen s) w) = true).
Proof.
  intros W u s0 es now. cbv zeta.
  set (w := run es (new_client true u s0)).
  assert (HI : Inv true w) by apply Inv_run, Inv_new.
  assert (Hhb : heartbeat w = true) by apply HI.
  split; [|split; [|split; [|split]]].
  - cbn [run fold_left].
    assert (HI' : Inv true (connect false w))
      by exact (Inv_step true (CallConnect false) w HI).
    destruct (connect_open_heartbeat w now HI' Hhb) as [F1 [F2 [F3 [F4 _]]]].
    repeat split; assumption.
  - intro id. apply tick_pings.
  - assert (Hd : step CallDisconnect w = WebSocketClient_disconnect (stopPing w)).
    { unfold step, disconnect. rewrite Hhb. reflexivity. }
    destruct (stopPing_post true w HI) as [_ [Hp Hi]].
    destruct (WebSocketClient_disconnect_timers (stopPing w)) as [T1 T2].
    destruct (disconnect_fields w) as [D1 [D2 [D3 _]]].
    assert (Hint : intervals (step CallDisconnect w) = []) by (rewrite Hd; congruence).
    assert (Hdisc : isConnected (step CallDisconnect w) = false)
      by (unfold step, isConnected; rewrite D1; reflexivity).
    split; [exact Hint|]. split; [rewrite Hd; congruence|]. split; [exact Hdisc|].
    split; [|split; [|split; [|split; [|split]]]].
    + destruct (disconnect_trace w) as [rs Ht].
      eexists. apply since_extend. unfold step. rewrite Ht. f_equal.
      unfold before_status. rewrite Hhb. cbn [andb]. rewrite <- app_assoc. f_equal.
      destruct HI as [_ [[_ Hpi] _]].
      destruct (pingInterval w) as [id|]; [|reflexivity].
      cbn [truthy]. destruct (Z.eqb_spec id 0); [lia|reflexivity].
    + intro id. unfold step at 1. rewrite Hint. reflexivity.
    + unfold pingTick. rewrite Hdisc. reflexivity.
    + intros es' Hes.
      assert (Hs : sends_of (since (step CallDisconnect w)
                               (run es' (step CallDisconnect w))) = []).
      { apply U_since, U_run; [exact Hes|]. apply U_init.
        intros s Hs. unfold step in Hs. rewrite D2 in Hs. discriminate Hs. }
      split; [exact Hs | apply pings_of_sends, Hs].
    + exact D3.
    + intros id Hid. cbn [run fold_left].
      set (w2 := step CallDisconnect w) in *.
      assert (HI2 : Inv true w2) by exact (Inv_step true CallDisconnect w HI).
      assert (HI3 : Inv true (step (EvTimeout id false) w2)) by apply Inv_step, HI2.
      assert (E : step (EvTimeout id false) w2
                  = connect false (set_timeouts (remove_id id (timeouts w2)) w2))
        by (unfold step at 1; rewrite Hid; reflexivity).
      rewrite E in *.
      destruct (set_timeouts_fields (remove_id id (timeouts w2)) w2)
        as [S1 [S2 [S3 S4]]].
      assert (Hhb2 : heartbeat (set_timeouts (remove_id id (timeouts w2)) w2) = true)
        by (rewrite S1; apply HI2).
      destruct (connect_open_heartbeat _ now HI3 Hhb2) as [F1 [F2 [F3 [F4 F5]]]].
      rewrite S2, S3 in *.
      split; [exact F5|]. split; [exact F1|]. split; [exact F2|]. split; [|exact F4].
      unfold since in *. rewrite S4 in F3. exact F3.
  - intros e He.
    apply (intervals_started_okE (fun _ => true)).
    apply (Q_since (fun _ => true) false w).
    apply Q_step.
    + right. reflexivity.
    + reflexivity.
    + destruct e; try reflexivity. discriminate He.
    + apply Q_init. intro Hf. discriminate Hf.
  - intro s. apply onopen_connected.
Qed.

Lemma heartbeat_follows_connection_witness :
  let w := run [CallConnect false; EvOpen 0; EvClose 0 1006 ""]
             (new_client true example_url tt) in
  let w2 := step CallDisconnect w in
  pings_of (since w2 (run [EvTick 1 "t1"; CallPing "t2"; CallSend (PingFrame "t3");
                           EvTimeout 2 false; EvTick 1 "t4"] w2)) = []
  /\ timeouts w2 = [(2, 1000)]
  /\ (let n := List.length (sockets w2) in
      let w3 := run [EvTimeout 2 false; EvOpen n] w2 in
      isConnected w3 = true
      /\ pings_of (since w3 (step (EvTick (nextTimerId w2) "t5") w3)) = [(n, "t5")])
  /\ intervals_started (since w (step (EvError 0) w)) = [].
Proof.
  intros w w2.
  pose proof (heartbeat_follows_connection unit example_url tt
                [CallConnect false; EvOpen 0%nat; EvClose 0%nat 1006 ""] "t5")
    as [_ [_ [Hd [Hn _]]]].
  cbv zeta in Hd.
  destruct Hd as [_ [_ [_ [_ [_ [_ [Hq [_ Hr]]]]]]]].
  split; [|split; [vm_compute; reflexivity|split]].
  - exact (proj2 (Hq [EvTick 1 "t1"; CallPing "t2"; CallSend (PingFrame "t3");
                        EvTimeout 2 false; EvTick 1 "t4"] eq_refl)).
  - cbv zeta.
    pose proof (Hr 2 ltac:(vm_compute; reflexivity)) as [H1 [_ [_ [_ H5]]]].
    split; [exact H1 | exact H5].
  - exact (Hn (EvError 0%nat) eq_refl).
Defined.

(* ================================================================== *)
(** * Further properties of the views *)

(** ** The displayed console lines *)

Lemma lastn_lastn {A : Type} (n m : nat) (l : list A) :
  (n <= m)%nat -> lastn n (lastn m l) = lastn n l.
Proof.
  intro H. unfold lastn. rewrite length_skipn, skipn_skipn. f_equal. lia.
Qed.

Lemma displayMessages_lastn (st : Store) :
  ConsoleView.displayMessages st = lastn 500 (consoleMessages (refs st)).
Proof.
  unfold ConsoleView.displayMessages, ConsoleView.slice_last. cbv zeta.
  destruct (Nat.leb_spec (List.length (consoleMessages (refs st))) 500) as [H|H];
    [|reflexivity].
  rewrite lastn_short by exact H. reflexivity.
Qed.

(** X1.  The two caps compose: whatever is appended to a console buffer
    that respects its cap of 1000, the view displays the last 500 of all
    the messages the buffer has had, in arrival order, and at most 500. *)
Theorem display_shows_last_500_received :
  forall (msgs : list ConsoleMessage) (st : Store),
    (List.length (consoleMessages (refs st)) <= 1000)%nat ->
    let st' := mkStore (consoleWs st) (statusWs st) (appendAll msgs (refs st)) in
    ConsoleView.displayMessages st'
    = lastn 500 (consoleMessages (refs st) ++ msgs)
    /\ List.length (ConsoleView.displayMessages st')
       = Nat.min 500 (List.length (consoleMessages (refs st)) + List.length msgs)
    /\ (exists older, consoleMessages (refs st') = (older ++ ConsoleView.displayMessages st')%list).
Proof.
  intros msgs st H. cbv zeta.
  rewrite displayMessages_lastn. cbn [refs].
  rewrite appendAll_lastn by exact H.
  rewrite lastn_lastn by (unfold maxConsoleMessages; lia).
  split; [reflexivity|]. split.
  - rewrite lastn_length, length_app. reflexivity.
  - rewrite <- (lastn_lastn 500 maxConsoleMessages) by (unfold maxConsoleMessages; lia).
    set (b := lastn maxConsoleMessages (consoleMessages (refs st) ++ msgs)).
    exists (firstn (List.length b - 500) b). unfold lastn. symmetry. apply firstn_skipn.
Qed.

Lemma display_shows_last_500_received_witness :
  ConsoleView.displayMessages
    (mkStore None None (appendAll burst (refs empty_store)))
  = skipn 501 burst.
Proof.
  pose proof (display_shows_last_500_received burst empty_store
                ltac:(cbn; lia)) as [H _].
  exact H.
Defined.

(** ** The command history *)

Lemma hd_rev_last (h : list string) (d : string) : hd d (rev h) = last h d.
Proof.
  induction h as [|a h IH]; [reflexivity|].
  cbn [rev]. destruct h as [|b t]; [reflexivity|].
  change (last (a :: b :: t) d) with (last (b :: t) d).
  rewrite <- IH. cbn [rev]. destruct (rev t); reflexivity.
Qed.

Lemma last_differs_last (h : list string) (c : string) :
  ConsoleView.last_differs h c
  = match h with
    | [] => true
    | _ => negb (String.eqb (last h "") c)
    end.
Proof.
  unfold ConsoleView.last_differs. rewrite <- hd_rev_last.
  destruct h as [|a t]; [reflexivity|].
  destruct (rev (a :: t)) as [|x r] eqn:E; [|reflexivity].
  apply (f_equal (@List.length string)) in E. rewrite length_rev in E. discriminate E.
Qed.

Lemma remember_ends_with (c : string) (h : list string) :
  exists pre, ConsoleView.remember c h = (pre ++ [c])%list.
Proof.
  unfold ConsoleView.remember. rewrite last_differs_last.
  destruct h as [|a t].
  - exists []. reflexivity.
  - destruct (String.eqb_spec (last (a :: t) "") c) as [E|E]; cbn [negb].
    + exists (removelast (a :: t)). subst c.
      apply app_removelast_last. discriminate.
    + destruct (ConsoleView.maxHistorySize <? List.length ((a :: t) ++ [c]))%nat.
      * exists t. reflexivity.
      * exists (a :: t). reflexivity.
Qed.

Lemma remember_fixed (c : string) (pre : list string) :
  ConsoleView.remember c (pre ++ [c]) = (pre ++ [c])%list.
Proof.
  unfold ConsoleView.remember. rewrite last_differs_last, last_last, String.eqb_refl.
  destruct pre; reflexivity.
Qed.

Lemma no_adjacent_dup_snoc (h : list string) (c : string) :
  no_adjacent_dup h = true ->
  ConsoleView.last_differs h c = true ->
  no_adjacent_dup (h ++ [c]) = true.
Proof.
  rewrite last_differs_last.
  induction h as [|a t IH]; intros Hn Hl; [reflexivity|].
  destruct t as [|b t'].
  - cbn in *. rewrite Hl. reflexivity.
  - cbn [no_adjacent_dup app] in *. apply andb_prop in Hn. destruct Hn as [Hab Ht].
    rewrite Hab. cbn [andb]. apply IH; [exact Ht | exact Hl].
Qed.

Lemma no_adjacent_dup_tl (h : list string) :
  no_adjacent_dup h = true -> no_adjacent_dup (tl h) = true.
Proof.
  destruct h as [|a [|b t]]; intro H; try reflexivity.
  cbn [no_adjacent_dup] in H. apply andb_prop in H. exact (proj2 H).
Qed.

(** X2.  Recording a command in the history ([push], then [shift] above 50
    entries) always leaves that command as the newest entry; recording the
    same command again changes nothing; a history of at most 50 entries
    stays within 50; and a history without two equal neighbours stays
    without. *)
Theorem history_records_command :
  forall (c : string) (h : list string),
    last (ConsoleView.remember c h) "" = c
    /\ ConsoleView.remember c h <> []
    /\ ConsoleView.remember c (ConsoleView.remember c h) = ConsoleView.remember c h
    /\ ((List.length h <= 50)%nat ->
        (List.length (ConsoleView.remember c h) <= 50)%nat)
    /\ (no_adjacent_dup h = true ->
        no_adjacent_dup (ConsoleView.remember c h) = true).
Proof.
  intros c h. destruct (remember_ends_with c h) as [pre E].
  split; [rewrite E; apply last_last|].
  split; [rewrite E; destruct pre; discriminate|].
  split; [rewrite E; apply remember_fixed|].
  clear pre E. unfold ConsoleView.remember, ConsoleView.maxHistorySize. split.
  - intro H. destruct (ConsoleView.last_differs h c); [|exact H].
    destruct (Nat.ltb_spec 50 (List.length (h ++ [c]))) as [G|G]; [|exact G].
    destruct h; cbn in *; rewrite ?length_app in *; cbn in *; lia.
  - intro H. destruct (ConsoleView.last_differs h c) eqn:L; [|exact H].
    pose proof (no_adjacent_dup_snoc h c H L) as S.
    destruct (50 <? List.length (h ++ [c]))%nat; [|exact S].
    apply no_adjacent_dup_tl, S.
Qed.

Lemma history_records_command_witness :
  (List.length (ConsoleView.remember "list" (map (fun i => NilEmpty.string_of_uint (Nat.to_uint i)) (seq 0 50)))
   <= 50)%nat
  /\ no_adjacent_dup (ConsoleView.remember "stop" ["list"; "stop"]) = true.
Proof.
  split.
  - apply (proj1 (proj2 (proj2 (proj2 (history_records_command "list" _))))).
    apply Nat.leb_le. vm_compute. reflexivity.
  - apply (proj2 (proj2 (proj2 (proj2 (history_records_command "stop" _))))).
    reflexivity.
Defined.

(** X3.  Browsing the history keeps the index between -1 and the last
    position and never changes the history.  With the index inside these
    bounds: ArrowUp moves one entry back in time and shows it, and does
    nothing at the oldest entry or on an empty history; ArrowDown moves one
    entry forward and shows it, and from the newest entry (or from no entry)
    it clears the input line; ArrowDown undoes ArrowUp. *)
Theorem history_navigation :
  forall (v : ConsoleView.View) (direction : Z),
    let h := ConsoleView.commandHistory v in
    let len := Z.of_nat (List.length h) in
    let i := ConsoleView.historyIndex v in
    let up := ConsoleView.navigateHistory 1 v in
    let down := ConsoleView.navigateHistory (-1) v in
    -1 <= i < len ->
    (-1 <= ConsoleView.historyIndex (ConsoleView.navigateHistory direction v) < len
     /\ ConsoleView.commandHistory (ConsoleView.navigateHistory direction v) = h)
    /\ (i + 1 < len ->
        ConsoleView.historyIndex up = i + 1
        /\ ConsoleView.currentCommand up = nth (Z.to_nat (i + 1)) (rev h) ""
        /\ ConsoleView.historyIndex (ConsoleView.navigateHistory (-1) up) = i)
    /\ (i + 1 = len -> up = v)
    /\ (0 < i ->
        ConsoleView.historyIndex down = i - 1
        /\ ConsoleView.currentCommand down = nth (Z.to_nat (i - 1)) (rev h) "")
    /\ (i <= 0 -> 0 < len ->
        ConsoleView.historyIndex down = -1 /\ ConsoleView.currentCommand down = "").
Proof.
  intros v direction. cbv zeta. intro H.
  assert (Hnth : forall k, 0 <= k < Z.of_nat (List.length (ConsoleView.commandHistory v)) ->
                 nth (Z.to_nat (Z.of_nat (List.length (ConsoleView.commandHistory v)) - 1 - k))
                   (ConsoleView.commandHistory v) ""
                 = nth (Z.to_nat k) (rev (ConsoleView.commandHistory v)) "").
  { intros k Hk. rewrite rev_nth by lia. f_equal. lia. }
  split; [|split; [|split; [|split]]].
  - unfold ConsoleView.navigateHistory. cbv zeta.
    destruct (Z.eqb_spec (Z.of_nat (List.length (ConsoleView.commandHistory v))) 0);
      [split; [exact H | reflexivity]|].
    destruct (Z.leb_spec 0 (ConsoleView.historyIndex v + direction));
      destruct (Z.ltb_spec (ConsoleView.historyIndex v + direction)
                  (Z.of_nat (List.length (ConsoleView.commandHistory v))));
      cbn [andb ConsoleView.historyIndex ConsoleView.commandHistory];
      try (split; [lia | reflexivity]);
      destruct (Z.ltb_spec (ConsoleView.historyIndex v + direction) 0);
      cbn [ConsoleView.historyIndex ConsoleView.commandHistory];
      split; try lia; reflexivity.
  - intro Hup. unfold ConsoleView.navigateHistory. cbv zeta.
    destruct (Z.eqb_spec (Z.of_nat (List.length (ConsoleView.commandHistory v))) 0); [lia|].
    destruct (Z.leb_spec 0 (ConsoleView.historyIndex v + 1)); [|lia].
    destruct (Z.ltb_spec (ConsoleView.historyIndex v + 1)
                (Z.of_nat (List.length (ConsoleView.commandHistory v)))); [|lia].
    cbn [andb ConsoleView.historyIndex ConsoleView.commandHistory ConsoleView.currentCommand].
    destruct (Z.eqb_spec (Z.of_nat (List.length (ConsoleView.commandHistory v))) 0); [lia|].
    split; [reflexivity|]. split; [apply Hnth; lia|].
    destruct (Z.leb_spec 0 (ConsoleView.historyIndex v + 1 + -1));
      destruct (Z.ltb_spec (ConsoleView.historyIndex v + 1 + -1)
                  (Z.of_nat (List.length (ConsoleView.commandHistory v))));
      cbn [andb ConsoleView.historyIndex]; try lia.
    destruct (Z.ltb_spec (ConsoleView.historyIndex v + 1 + -1) 0);
      cbn [ConsoleView.historyIndex]; lia.
  - intro Hup. unfold ConsoleView.navigateHistory. cbv zeta.
    destruct (Z.eqb_spec (Z.of_nat (List.length (ConsoleView.commandHistory v))) 0);
      [reflexivity|].
    destruct (Z.leb_spec 0 (ConsoleView.historyIndex v + 1));
      destruct (Z.ltb_spec (ConsoleView.historyIndex v + 1)
                  (Z.of_nat (List.length (ConsoleView.commandHistory v))));
      cbn [andb]; try lia.
    destruct (Z.ltb_spec (ConsoleView.historyIndex v + 1) 0); [lia|reflexivity].
  - intro Hi. unfold ConsoleView.navigateHistory. cbv zeta.
    destruct (Z.eqb_spec (Z.of_nat (List.length (ConsoleView.commandHistory v))) 0); [lia|].
    destruct (Z.leb_spec 0 (ConsoleView.historyIndex v + -1)); [|lia].
    destruct (Z.ltb_spec (ConsoleView.historyIndex v + -1)
                (Z.of_nat (List.length (ConsoleView.commandHistory v)))); [|lia].
    cbn [andb ConsoleView.historyIndex ConsoleView.currentCommand].
    split; [lia|]. rewrite Hnth by lia. f_equal; lia.
  - intros Hi Hlen. unfold ConsoleView.navigateHistory. cbv zeta.
    destruct (Z.eqb_spec (Z.of_nat (List.length (ConsoleView.commandHistory v))) 0); [lia|].
    destruct (Z.leb_spec 0 (ConsoleView.historyIndex v + -1)); [lia|].
    cbn [andb].
    destruct (Z.ltb_spec (ConsoleView.historyIndex v + -1) 0); [|lia].
    split; reflexivity.
Qed.

Lemma history_navigation_witness :
  let v := ConsoleView.mkView "" ["list"; "stop"; "say hi"] (-1) [] in
  ConsoleView.currentCommand (ConsoleView.navigateHistory 1 v) = "say hi"
  /\ ConsoleView.currentCommand
       (ConsoleView.navigateHistory 1 (ConsoleView.navigateHistory 1 v)) = "stop"
  /\ ConsoleView.currentCommand (ConsoleView.navigateHistory (-1) v) = "".
Proof.
  intro v.
  pose proof (history_navigation v 1 ltac:(cbn; lia)) as [_ [Hup [_ [_ Hdown]]]].
  pose proof (history_navigation (ConsoleView.navigateHistory 1 v) 1 ltac:(cbn; lia))
    as [_ [Hup2 _]].
  split; [exact (proj1 (proj2 (Hup ltac:(cbn; lia))))|].
  split; [exact (proj1 (proj2 (Hup2 ltac:(cbn; lia))))|].
  exact (proj2 (Hdown ltac:(cbn; lia) ltac:(cbn; lia))).
Defined.

(** ** Sending from the input line *)

Lemma trimStart_white_space (c rest : string) :
  In c white_space -> ConsoleView.trimStart (c ++ rest) = ConsoleView.trimStart rest.
Proof.
  unfold white_space. cbn [map utf8 fold_right In].
  intro H. repeat (destruct H as [<-|H]; [reflexivity|]). contradiction.
Qed.

Lemma in_white_space (c : string) :
  existsb (String.eqb c) white_space = true -> In c white_space.
Proof.
  intro H. apply existsb_exists in H. destruct H as [x [Hin Heq]].
  apply String.eqb_eq in Heq. subst x. exact Hin.
Qed.

Lemma trim_blank (s : string) : blank s -> ConsoleView.trim s = "".
Proof.
  intros [cs [Hcs ->]]. unfold ConsoleView.trim.
  replace (ConsoleView.trimStart (fold_right String.append "" cs)) with EmptyString;
    [reflexivity|].
  induction Hcs as [|c cs Hc _ IH]; [reflexivity|].
  cbn [fold_right]. rewrite trimStart_white_space by exact Hc. exact IH.
Qed.

Lemma sendCommand_connected_view (now now' c : string) (v : ConsoleView.View) (st : Store) :
  console_connected st = true ->
  ConsoleView.trim (ConsoleView.currentCommand v) = c ->
  c <> "" ->
  fst (ConsoleView.sendCommand now now' v st)
  = ConsoleView.mkView "" (ConsoleView.remember c (ConsoleView.commandHistory v)) (-1)
      (ConsoleView.toasts v).
Proof.
  intros H Ht Hne.
  destruct (sendConsoleCommand_connected c now st H) as [E [_ Hc]].
  unfold ConsoleView.sendCommand. rewrite Ht.
  apply String.eqb_neq in Hne. rewrite Hne.
  unfold isConsoleConnected in Hc. rewrite Hc. cbn [negb].
  rewrite E. reflexivity.
Qed.

(** X4.  On a connected console, Enter on a non-blank line clears the
    input, records the trimmed command as newest history entry and resets
    the history index; ArrowUp right after brings back exactly the command
    that was sent, without touching the store. *)
Theorem sent_command_is_recalled :
  forall (now now' : string) (v : ConsoleView.View) (st : Store) (c : string),
    console_connected st = true ->
    ConsoleView.trim (ConsoleView.currentCommand v) = c ->
    c <> "" ->
    let r1 := ConsoleView.handleKeyDown now now' (ConsoleView.Enter false) v st in
    let r2 := ConsoleView.handleKeyDown now now' ConsoleView.ArrowUp (fst r1) (snd r1) in
    ConsoleView.currentCommand (fst r1) = ""
    /\ ConsoleView.historyIndex (fst r1) = -1
    /\ ConsoleView.commandHistory (fst r1)
       = ConsoleView.remember c (ConsoleView.commandHistory v)
    /\ ConsoleView.currentCommand (fst r2) = c
    /\ ConsoleView.historyIndex (fst r2) = 0
    /\ snd r2 = snd r1.
Proof.
  intros now now' v st c H Ht Hne. cbv zeta.
  cbn [ConsoleView.handleKeyDown negb fst snd].
  rewrite (sendCommand_connected_view now now' c v st H Ht Hne).
  cbn [ConsoleView.currentCommand ConsoleView.historyIndex ConsoleView.commandHistory].
  split; [reflexivity|]. split; [reflexivity|]. split; [reflexivity|].
  destruct (remember_ends_with c (ConsoleView.commandHistory v)) as [pre E].
  unfold ConsoleView.navigateHistory.
  cbn [ConsoleView.currentCommand ConsoleView.historyIndex ConsoleView.commandHistory
         ConsoleView.toasts].
  rewrite E, length_app. cbn [List.length]. cbv zeta.
  destruct (Z.eqb_spec (Z.of_nat (List.length pre + 1)) 0); [lia|].
  destruct (Z.leb_spec 0 (-1 + 1)); [|lia].
  destruct (Z.ltb_spec (-1 + 1) (Z.of_nat (List.length pre + 1))); [|lia].
  cbn [andb ConsoleView.currentCommand ConsoleView.historyIndex].
  split; [|split; reflexivity].
  replace (Z.to_nat (Z.of_nat (List.length pre + 1) - 1 - (-1 + 1)))
    with (List.length pre) by lia.
  rewrite app_nth2, Nat.sub_diag by lia. reflexivity.
Qed.

Lemma sent_command_is_recalled_witness :
  let line := " list" ++ ideographic_space in
  let r1 := ConsoleView.handleKeyDown "t1" "t2" (ConsoleView.Enter false)
              (typing line) console_open_store in
  let r2 := ConsoleView.handleKeyDown "t3" "t4" ConsoleView.ArrowUp (fst r1) (snd r1) in
  ConsoleView.currentCommand (fst r1) = ""
  /\ ConsoleView.commandHistory (fst r1) = ["list"]
  /\ ConsoleView.currentCommand (fst r2) = "list".
Proof.
  pose proof (sent_command_is_recalled "t1" "t2" (typing (" list" ++ ideographic_space))
                console_open_store "list" eq_refl eq_refl ltac:(discriminate)) as H.
  cbv zeta in H. cbv zeta.
  split; [exact (proj1 H)|].
  split; [exact (proj1 (proj2 (proj2 H))) | exact (proj1 (proj2 (proj2 (proj2 H))))].
Defined.

(** X5.  Keys that send nothing: Enter on a line of white space only
    (any of the code points that [trim] strips, U+00A0 and U+3000 among
    them), Enter with Shift, and Tab leave the view and the store as they
    are.  Enter on a line that is not empty after [trim], while the status
    ref is not connected, only adds the "not connected" toast: the line
    stays in the input, the history and its index are untouched, and the
    store is unchanged. *)
Theorem idle_keys_change_nothing :
  forall (now now' : string) (v : ConsoleView.View) (st : Store),
    (blank (ConsoleView.currentCommand v) ->
     ConsoleView.handleKeyDown now now' (ConsoleView.Enter false) v st = (v, st))
    /\ ConsoleView.handleKeyDown now now' (ConsoleView.Enter true) v st = (v, st)
    /\ ConsoleView.handleKeyDown now now' ConsoleView.Tab v st = (v, st)
    /\ (isConsoleConnected st = false ->
        ConsoleView.trim (ConsoleView.currentCommand v) <> "" ->
        ConsoleView.handleKeyDown now now' (ConsoleView.Enter false) v st
        = (ConsoleView.mkView (ConsoleView.currentCommand v) (ConsoleView.commandHistory v)
             (ConsoleView.historyIndex v)
             (ConsoleView.toasts v ++ [ConsoleView.ToastNotConnected]), st)).
Proof.
  intros now now' v st. split; [|split; [|split]]; try reflexivity.
  - intro H. cbn [ConsoleView.handleKeyDown negb]. unfold ConsoleView.sendCommand.
    rewrite (trim_blank _ H). reflexivity.
  - intros Hc Hne. cbn [ConsoleView.handleKeyDown negb]. unfold ConsoleView.sendCommand.
    apply String.eqb_neq in Hne. rewrite Hne.
    unfold isConsoleConnected in Hc. rewrite Hc. reflexivity.
Qed.

Lemma idle_keys_change_nothing_witness :
  ConsoleView.handleKeyDown "t1" "t2" (ConsoleView.Enter false)
    (typing (" " ++ no_break_space ++ ideographic_space)) console_open_store
  = (typing (" " ++ no_break_space ++ ideographic_space), console_open_store)
  /\ ConsoleView.handleKeyDown "t1" "t2" (ConsoleView.Enter false)
       (typing no_break_space) console_pending_store
     = (typing no_break_space, console_pending_store)
  /\ fst (ConsoleView.handleKeyDown "t1" "t2" (ConsoleView.Enter false) (typing "list")
            console_pending_store)
     = ConsoleView.mkView "list" [] (-1) [ConsoleView.ToastNotConnected].
Proof.
  pose proof (idle_keys_change_nothing "t1" "t2"
                (typing (" " ++ no_break_space ++ ideographic_space)) console_open_store)
    as [H1 _].
  pose proof (idle_keys_change_nothing "t1" "t2" (typing no_break_space)
                console_pending_store) as [H2 _].
  pose proof (idle_keys_change_nothing "t1" "t2" (typing "list") console_pending_store)
    as [_ [_ [_ H4]]].
  split; [|split].
  - apply H1. exists [" "; no_break_space; ideographic_space].
    split; [|reflexivity].
    repeat (constructor; [apply in_white_space; vm_compute; reflexivity|]).
    constructor.
  - apply H2. exists [no_break_space].
    split; [|reflexivity].
    repeat (constructor; [apply in_white_space; vm_compute; reflexivity|]).
    constructor.
  - rewrite (H4 eq_refl ltac:(discriminate)). reflexivity.
Defined.

(** ** The dashboard charts *)

Lemma keepLast50_lastn {A : Type} (l : list A) : Dashboard.keepLast50 l = lastn 50 l.
Proof.
  unfold Dashboard.keepLast50, ConsoleView.slice_last.
  destruct (Nat.ltb_spec 50 (List.length l)) as [H|H]; [reflexivity|].
  rewrite lastn_short by exact H. reflexivity.
Qed.

Section ChartProofs.

Context {Num ServerStatus Player : Type}.

Let View : Type := Dashboard.View Num ServerStatus Player.
Let Message : Type := Dashboard.Message Num ServerStatus Player.

Lemma performance_series_run (ms : list (string * string * Message)) :
  forall (v : View) s0 s1 s2,
    Dashboard.performanceChartInstance v = Some (s0, s1, s2) ->
    (List.length s0 <= 50)%nat -> (List.length s1 <= 50)%nat -> (List.length s2 <= 50)%nat ->
    Dashboard.performanceChartInstance (Dashboard.onDashboardMessages ms v)
    = Some (lastn 50 (s0 ++ samples Dashboard.tps ms),
            lastn 50 (s1 ++ samples Dashboard.cpu_usage ms),
            lastn 50 (s2 ++ samples Dashboard.memory_usage ms)).
Proof.
  induction ms as [|[[now now'] m] ms IH]; intros v s0 s1 s2 Hv H0 H1 H2.
  - cbn. rewrite !app_nil_r, !lastn_short by assumption. exact Hv.
  - unfold Dashboard.onDashboardMessages in *. cbn [fold_left fst snd].
    destruct m as [ss ps|d|a b c|tag]; cbn [samples flat_map snd fst app];
      try (apply IH; assumption).
    rewrite (IH _ (Dashboard.keepLast50 (s0 ++ [(now, Dashboard.tps d)]))
               (Dashboard.keepLast50 (s1 ++ [(now, Dashboard.cpu_usage d)]))
               (Dashboard.keepLast50 (s2 ++ [(now, Dashboard.memory_usage d)]))).
    + rewrite !keepLast50_lastn, !lastn_app_l, <- !app_assoc. reflexivity.
    + cbn [Dashboard.onDashboardMessage Dashboard.performanceChartInstance].
      rewrite Hv. reflexivity.
    + rewrite keepLast50_lastn, lastn_length. lia.
    + rewrite keepLast50_lastn, lastn_length. lia.
    + rewrite keepLast50_lastn, lastn_length. lia.
Qed.

Lemma players_series_run (ms : list (string * string * Message)) :
  forall (v : View) sp,
    Dashboard.playersChartInstance v = Some sp ->
    (List.length sp <= 50)%nat ->
    exists sp',
      Dashboard.playersChartInstance (Dashboard.onDashboardMessages ms v) = Some sp'
      /\ List.length sp'
         = Nat.min 50 (List.length sp + List.length (samples Dashboard.tps ms)).
Proof.
  induction ms as [|[[now now'] m] ms IH]; intros v sp Hv Hp.
  - exists sp. split; [exact Hv|]. cbn [samples flat_map List.length]. lia.
  - unfold Dashboard.onDashboardMessages in *. cbn [fold_left fst snd].
    destruct m as [ss ps|d|a b c|tag]; cbn [samples flat_map snd fst app List.length];
      try (apply IH; assumption).
    destruct (IH (Dashboard.onDashboardMessage now now' (Dashboard.performance_update d) v)
                (Dashboard.keepLast50
                   (sp ++ [(now', List.length (Dashboard.onlinePlayers v))])))
      as [sp' [E L]].
    + cbn [Dashboard.onDashboardMessage Dashboard.playersChartInstance].
      rewrite Hv. reflexivity.
    + rewrite keepLast50_lastn, lastn_length. lia.
    + exists sp'. split; [exact E|]. rewrite L, keepLast50_lastn, lastn_length, length_app.
      cbn [List.length]. unfold samples. lia.
Qed.

Lemma no_chart_run (ms : list (string * string * Message)) :
  forall v : View,
    Dashboard.performanceChartInstance v = None ->
    Dashboard.performanceChartInstance (Dashboard.onDashboardMessages ms v) = None.
Proof.
  induction ms as [|[[now now'] m] ms IH]; intros v Hv; [exact Hv|].
  unfold Dashboard.onDashboardMessages in *. cbn [fold_left fst snd]. apply IH.
  destruct m; cbn; try exact Hv. rewrite Hv. reflexivity.
Qed.

End ChartProofs.

(** X6.  Whatever frames the dashboard listener receives, each of the three
    series of the performance chart holds the last 50 of its points (those
    it had, then one per [performance_update], in arrival order), so the
    three stay equally long once they are; the players series grows by one
    point per [performance_update] up to 50; and before the charts exist no
    frame creates chart data. *)
Theorem chart_series_keep_last_50 :
  forall (Num ServerStatus Player : Type)
         (ms : list (string * string * Dashboard.Message Num ServerStatus Player))
         (v : Dashboard.View Num ServerStatus Player) s0 s1 s2 sp,
    Dashboard.performanceChartInstance v = Some (s0, s1, s2) ->
    Dashboard.playersChartInstance v = Some sp ->
    (List.length s0 <= 50)%nat -> (List.length s1 <= 50)%nat ->
    (List.length s2 <= 50)%nat -> (List.length sp <= 50)%nat ->
    let v' := Dashboard.onDashboardMessages ms v in
    Dashboard.performanceChartInstance v'
    = Some (lastn 50 (s0 ++ samples Dashboard.tps ms),
            lastn 50 (s1 ++ samples Dashboard.cpu_usage ms),
            lastn 50 (s2 ++ samples Dashboard.memory_usage ms))
    /\ (exists sp',
           Dashboard.playersChartInstance v' = Some sp'
           /\ List.length sp'
              = Nat.min 50 (List.length sp + List.length (samples Dashboard.tps ms)))
    /\ (forall v0 : Dashboard.View Num ServerStatus Player,
           Dashboard.performanceChartInstance v0 = None ->
           Dashboard.performanceChartInstance (Dashboard.onDashboardMessages ms v0) = None).
Proof.
  intros Num ServerStatus Player ms v s0 s1 s2 sp Hv Hp H0 H1 H2 H3. cbv zeta.
  split; [apply performance_series_run; assumption|].
  split; [apply players_series_run; assumption|].
  intros v0 H. apply no_chart_run, H.
Qed.

Lemma chart_series_keep_last_50_witness :
  exists s1 s2,
    Dashboard.performanceChartInstance
      (Dashboard.onDashboardMessages performance_burst fresh_dashboard)
    = Some (map (fun i => ("t", Z.of_nat i)) (seq 1 50), s1, s2).
Proof.
  pose proof (chart_series_keep_last_50 Z unit unit performance_burst fresh_dashboard
                [] [] [] [] eq_refl eq_refl
                ltac:(cbn; lia) ltac:(cbn; lia) ltac:(cbn; lia) ltac:(cbn; lia)) as [H _].
  cbv zeta in H. eexists _, _. rewrite H. reflexivity.
Defined.

(** ** The uptime text *)

Lemma concat_head_empty (sep x : string) (l : list string) :
  String.concat sep (x :: l) = "" -> x = "".
Proof.
  destruct l as [|y l]; cbn; [exact (fun H => H)|].
  destruct x; [reflexivity | discriminate].
Qed.

Lemma part_not_empty (n : Z) (c : ascii) (u : string) :
  (Dashboard.show n ++ String c u)%string <> "".
Proof. destruct (Dashboard.show n); discriminate. Qed.

Lemma uptime_text_not_empty (d h m : Z) :
  0 < d \/ 0 < h \/ 0 < m -> String.eqb (uptime_text d h m) "" = false.
Proof.
  intro H. apply String.eqb_neq. unfold uptime_text.
  destruct (Z.ltb_spec 0 d); [intro E; apply concat_head_empty in E;
                              exact (part_not_empty _ _ _ E)|].
  destruct (Z.ltb_spec 0 h); [intro E; apply concat_head_empty in E;
                              exact (part_not_empty _ _ _ E)|].
  destruct (Z.ltb_spec 0 m); [intro E; apply concat_head_empty in E;
                              exact (part_not_empty _ _ _ E)|].
  lia.
Qed.

(** X7.  [formatUptime] on whole seconds within the safe integers
    ([Number.isSafeInteger], up to 2^53 - 1 either way): 0 gives
    "0 minutes"; any other value below one minute, negative ones included,
    gives the "just started" text; from 60 seconds on the text lists the
    positive ones among days, hours (below 24) and minutes (below 60), each
    with its unit, and these account for the uptime up to the seconds that
    are dropped. *)
Theorem uptime_is_split_into_days_hours_minutes :
  forall s : Z,
    Dashboard.isSafeInteger s = true ->
    (s = 0 -> Dashboard.formatUptime s = "0分钟")
    /\ (s < 60 -> s <> 0 -> Dashboard.formatUptime s = "刚刚启动")
    /\ (60 <= s ->
        exists d h m,
          0 <= d /\ 0 <= h < 24 /\ 0 <= m < 60
          /\ (0 < d \/ 0 < h \/ 0 < m)
          /\ d * 86400 + h * 3600 + m * 60 <= s < d * 86400 + h * 3600 + m * 60 + 60
          /\ Dashboard.formatUptime s = uptime_text d h m).
Proof.
  intros s _. split; [intros ->; reflexivity|]. split.
  - intros Hs Hz. unfold Dashboard.formatUptime.
    destruct (Z.eqb_spec s 0) as [|_]; [contradiction|]. cbv zeta.
    destruct (Z.ltb_spec 0 (s / 86400));
      [exfalso; Z.to_euclidean_division_equations; lia|].
    destruct (Z.ltb_spec 0 (Z.rem s 86400 / 3600));
      [exfalso; Z.to_euclidean_division_equations; lia|].
    destruct (Z.ltb_spec 0 (Z.rem s 3600 / 60));
      [exfalso; Z.to_euclidean_division_equations; lia|].
    reflexivity.
  - intro Hs.
    exists (s / 86400), (Z.rem s 86400 / 3600), (Z.rem s 3600 / 60).
    assert (Hpos : 0 < s / 86400 \/ 0 < Z.rem s 86400 / 3600 \/ 0 < Z.rem s 3600 / 60)
      by (Z.to_euclidean_division_equations; lia).
    split; [Z.to_euclidean_division_equations; lia|].
    split; [Z.to_euclidean_division_equations; lia|].
    split; [Z.to_euclidean_division_equations; lia|].
    split; [exact Hpos|].
    split; [Z.to_euclidean_division_equations; lia|].
    unfold Dashboard.formatUptime.
    destruct (Z.eqb_spec s 0) as [|_]; [lia|]. cbv zeta.
    fold (uptime_text (s / 86400) (Z.rem s 86400 / 3600) (Z.rem s 3600 / 60)).
    rewrite (uptime_text_not_empty _ _ _ Hpos). reflexivity.
Qed.

Lemma uptime_is_split_into_days_hours_minutes_witness :
  Dashboard.formatUptime 59 = "刚刚启动"
  /\ Dashboard.formatUptime (-5) = "刚刚启动"
  /\ exists d h m,
       d * 86400 + h * 3600 + m * 60 <= 90061 < d * 86400 + h * 3600 + m * 60 + 60
       /\ Dashboard.formatUptime 90061 = uptime_text d h m.
Proof.
  pose proof (uptime_is_split_into_days_hours_minutes 59 eq_refl) as [_ [H1 _]].
  pose proof (uptime_is_split_into_days_hours_minutes (-5) eq_refl) as [_ [H2 _]].
  pose proof (uptime_is_split_into_days_hours_minutes 90061 eq_refl) as [_ [_ H3]].
  split; [exact (H1 ltac:(lia) ltac:(lia))|].
  split; [exact (H2 ltac:(lia) ltac:(lia))|].
  destruct (H3 ltac:(lia)) as [d [h [m [_ [_ [_ [_ [Hb He]]]]]]]].
  exists d, h, m. split; [exact Hb | exact He].
Defined.

(* ================================================================== *)
(** * Further properties of the client *)

(** ** The attempt counter, the retries and the frames of a run *)

Section RunBounds.

Context {W : Type}.

(** With [D] set the run has no socket opening, with [E] set it does not
    run [connect]. *)
Variable D E : bool.
Variable w0 : World W.

Definition R (w : World W) : Prop :=
  0 <= reconnectAttempts w <= maxReconnectAttempts
  /\ exists t,
       trace w = (trace w0 ++ t)%list
       /\ (D = true ->
           Z.of_nat (List.length (scheduled_of t))
           = reconnectAttempts w - reconnectAttempts w0)
       /\ (E = true -> ws w = None /\ sends_of t = []).

Definition allowedR (e : Event W) : bool :=
  match e with
  | EvOpen _ => negb D
  | CallConnect _ | EvTimeout _ _ => negb E
  | _ => true
  end.

Lemma R_init :
  0 <= reconnectAttempts w0 <= maxReconnectAttempts ->
  (E = true -> ws w0 = None) ->
  R w0.
Proof.
  intros H1 H2. split; [exact H1|]. exists []. rewrite app_nil_r.
  split; [reflexivity|]. split; [intros _; cbn; lia|].
  intro HE. split; [exact (H2 HE) | reflexivity].
Qed.

Lemma R_frame (w w' : World W) :
  reconnectAttempts w' = reconnectAttempts w ->
  trace w' = trace w ->
  ws w' = ws w ->
  R w -> R w'.
Proof. unfold R. intros -> -> ->. exact (fun H => H). Qed.

Lemma R_extend (w w' : World W) (t' : list Effect) :
  reconnectAttempts w' = reconnectAttempts w ->
  ws w' = ws w ->
  trace w' = (trace w ++ t')%list ->
  scheduled_of t' = [] ->
  sends_of t' = [] ->
  R w -> R w'.
Proof.
  intros Ha Hw Ht Hs Hf [H1 [t [Et [HD HE]]]]. split; [rewrite Ha; exact H1|].
  exists (t ++ t')%list. split; [rewrite Ht, Et, app_assoc; reflexivity|]. split.
  - intro d. unfold scheduled_of in *. rewrite flat_map_app, Hs, app_nil_r, Ha.
    exact (HD d).
  - intro e. destruct (HE e) as [E1 E2]. split; [rewrite Hw; exact E1|].
    unfold sends_of in *. rewrite flat_map_app, E2, Hf. reflexivity.
Qed.

Lemma R_emit (e : Effect) (w : World W) :
  scheduled_of [e] = [] -> sends_of [e] = [] -> R w -> R (emit e w).
Proof.
  intros Hs Hf. apply (R_extend w (emit e w) [e]); try assumption;
    destruct w; reflexivity.
Qed.

Lemma R_update (st : WSConnectionStatus) (w : World W) :
  R w -> R (updateConnectionStatus st w).
Proof.
  apply (R_extend w _
           (EStatus st
              :: dispatch_trace "Error in connection handler:"
                   (map hid (connectionHandlers w))
                   (raised st (connectionHandlers w) (subs w))));
    try (rewrite updateConnectionStatus_eq; destruct w; reflexivity).
  - filter_trace. reflexivity.
  - unfold sends_of. cbn [flat_map app].
    apply flat_map_dispatch_trace; reflexivity.
Qed.

Lemma R_handleMessage (m : WSMessage) (w : World W) : R w -> R (handleMessage m w).
Proof.
  apply (R_extend w _
           (EConsole LLog "WebSocket message received:"
              :: dispatch_trace "Error in message handler:"
                   (map hid (messageHandlers w))
                   (raised m (messageHandlers w) (subs w))));
    try (rewrite handleMessage_eq; destruct w; reflexivity).
  - filter_trace. reflexivity.
  - unfold sends_of. cbn [flat_map app].
    apply flat_map_dispatch_trace; reflexivity.
Qed.

Lemma R_set_ws (v : option nat) (w : World W) :
  (E = true -> v = None) -> R w -> R (set_ws v w).
Proof.
  intros Hv [H1 [t [Et [HD HE]]]]. split; [destruct w; exact H1|].
  exists t. split; [destruct w; exact Et|]. split; [destruct w; exact HD|].
  intro e. split; [destruct w; exact (Hv e) | exact (proj2 (HE e))].
Qed.

Lemma R_reset (w : World W) : D = false -> R w -> R (set_reconnectAttempts 0 w).
Proof.
  intros Hd [H1 [t [Et [HD HE]]]].
  split; [destruct w; cbn; unfold maxReconnectAttempts; lia|].
  exists t. split; [destruct w; exact Et|]. split.
  - intro d. congruence.
  - destruct w; exact HE.
Qed.

Lemma R_attemptReconnect (w : World W) : R w -> R (attemptReconnect w).
Proof.
  intro H.
  destruct (Z.ltb_spec (reconnectAttempts w) maxReconnectAttempts) as [Hlt|Hge].
  - destruct H as [H1 [t [Et [HD HE]]]].
    assert (Ha : reconnectAttempts (attemptReconnect w) = reconnectAttempts w + 1).
    { rewrite attemptReconnect_below by exact Hlt.
      unfold setTimeout, console, emit. rewrite updateConnectionStatus_eq.
      destruct w; reflexivity. }
    assert (Hw : ws (attemptReconnect w) = ws w).
    { rewrite attemptReconnect_below by exact Hlt.
      unfold setTimeout, console, emit. rewrite updateConnectionStatus_eq.
      destruct w; reflexivity. }
    split; [rewrite Ha; lia|].
    eexists. split; [rewrite attemptReconnect_trace by exact Hlt; rewrite Et;
                     rewrite <- app_assoc; reflexivity|].
    split.
    + intro d. specialize (HD d). unfold scheduled_of in *.
      rewrite flat_map_app, length_app, Ha.
      replace (List.length
                 (flat_map
                    (fun e => match e with ESetTimeout id d0 => [(id, d0)] | _ => [] end)
                    (EConsole LLog "Attempting to reconnect"
                       :: EStatus (status false true None)
                       :: dispatch_trace "Error in connection handler:"
                            (map hid (connectionHandlers w))
                            (raised (status false true None) (connectionHandlers w) (subs w))
                       ++ [ESetTimeout (nextTimerId w)
                             (reconnectDelay * 2 ^ (reconnectAttempts w + 1 - 1))])))
        with 1%nat; [lia|].
      fold scheduled_of. filter_trace. reflexivity.
    + intro e. destruct (HE e) as [E1 E2]. split; [rewrite Hw; exact E1|].
      unfold sends_of in *. rewrite flat_map_app, E2. cbn [flat_map app].
      rewrite flat_map_app. cbn [flat_map app]. rewrite app_nil_r.
      apply flat_map_dispatch_trace; reflexivity.
  - unfold attemptReconnect.
    destruct (Z.geb_spec (reconnectAttempts w) maxReconnectAttempts) as [_|]; [|lia].
    apply R_update. unfold console. apply R_emit; [reflexivity|reflexivity|exact H].
Qed.

Lemma R_send (m : Frame) (w : World W) : R w -> R (send m w).
Proof.
  intro H. unfold send, console.
  destruct (ws w) as [s|] eqn:Hws.
  - destruct (is_open s w); [|apply R_emit; [reflexivity|reflexivity|exact H]].
    destruct E eqn:He.
    + destruct H as [_ [t [_ [_ HE]]]]. destruct (HE He) as [C _]. congruence.
    + destruct H as [H1 [t [Et [HD HE]]]]. split; [destruct w; exact H1|].
      exists (t ++ [EWsSend s m])%list.
      split; [destruct w; cbn in *; rewrite Et, <- app_assoc; reflexivity|].
      split; [|intro C; congruence].
      intro d. unfold scheduled_of in *. rewrite flat_map_app. cbn [flat_map app].
      rewrite app_nil_r. destruct w; exact (HD d).
  - apply R_emit; [reflexivity|reflexivity|exact H].
Qed.

Ltac r_known := fail.

Ltac r_solve :=
  repeat
    match goal with
    | |- R (if ?c then _ else _) => destruct c
    | |- R (match (if ?c then _ else _) with _ => _ end) => destruct c; cbv beta iota
    | |- R (match ?x with _ => _ end) => destruct x
    | |- R (snd (if ?c then _ else _)) => destruct c
    | |- R (snd (_, _)) => cbn [snd]
    | |- R (updateConnectionStatus _ _) => apply R_update
    | |- R (handleMessage _ _) => apply R_handleMessage
    | |- R (attemptReconnect _) => apply R_attemptReconnect
    | |- R (send _ _) => apply R_send
    | |- R (emit _ _) => apply R_emit; [reflexivity|reflexivity|]
    | |- R (set_ws _ _) => apply R_set_ws; [first [intros _; reflexivity | congruence]|]
    | |- R (set_reconnectAttempts 0 _) => apply R_reset; [assumption|]
    | |- R _ => assumption
    | |- R _ => r_known
    | |- R (?f ?a ?b ?w) => apply (R_frame w); [reflexivity|reflexivity|reflexivity|]
    | |- R (?f ?a ?w) => apply (R_frame w); [reflexivity|reflexivity|reflexivity|]
    end.

Lemma R_pingTick (now : string) (w : World W) : R w -> R (pingTick now w).
Proof. intro H. unfold pingTick, ping. r_solve. Qed.

Lemma R_startPing (w : World W) : R w -> R (startPing w).
Proof.
  intro H. unfold startPing, stopPing, setInterval, clearInterval. cbv zeta beta. r_solve.
Qed.

Lemma R_stopPing (w : World W) : R w -> R (stopPing w).
Proof. intro H. unfold stopPing, clearInterval. r_solve. Qed.

Ltac r_known ::= first [apply R_pingTick | apply R_startPing | apply R_stopPing].

Lemma R_resolve (s : nat) (w : World W) : R w -> R (resolve s w).
Proof. intro H. unfold resolve. cbv zeta. r_solve. Qed.

Lemma R_reject (s : nat) (w : World W) : R w -> R (reject s w).
Proof. intro H. unfold reject. r_solve. Qed.

Ltac r_known ::=
  first [apply R_pingTick | apply R_startPing | apply R_stopPing | apply R_resolve
        | apply R_reject].

Lemma R_onopen (s : nat) (w : World W) : D = false -> R w -> R (onopen s w).
Proof. intros Hd H. unfold onopen, console. cbv zeta. r_solve. Qed.

Lemma R_onmessage (payload : option WSMessage) (w : World W) :
  R w -> R (onmessage payload w).
Proof. intro H. unfold onmessage, console. r_solve. Qed.

Lemma R_onclose (code : Z) (reason : string) (w : World W) :
  R w -> R (onclose code reason w).
Proof. intro H. unfold onclose, console. cbv zeta. r_solve. Qed.

Lemma R_onerror (s : nat) (w : World W) : R w -> R (onerror s w).
Proof. intro H. unfold onerror, console. cbv zeta. r_solve. Qed.

Lemma R_WebSocketClient_connect (t : bool) (w : World W) :
  E = false -> R w -> R (snd (WebSocketClient_connect t w)).
Proof.
  intros He H. unfold WebSocketClient_connect, new_WebSocket. cbv zeta beta. r_solve.
Qed.

Lemma R_WebSocketClient_disconnect (w : World W) :
  R w -> R (WebSocketClient_disconnect w).
Proof.
  intro H. unfold WebSocketClient_disconnect, ws_close. cbv zeta.
  apply R_update. r_solve.
Qed.

Lemma R_connect (t : bool) (w : World W) : E = false -> R w -> R (connect t w).
Proof.
  intros He H. unfold connect, AutoReconnectWebSocket_connect.
  pose proof (R_WebSocketClient_connect t w He H) as Hc.
  destruct (WebSocketClient_connect t w) as [[s|] w']; cbn [snd] in Hc; r_solve.
Qed.

Lemma R_disconnect (w : World W) : R w -> R (disconnect w).
Proof.
  intro H. unfold disconnect, AutoReconnectWebSocket_disconnect.
  destruct (heartbeat w); apply R_WebSocketClient_disconnect; r_solve.
Qed.

Lemma R_step (e : Event W) (w : World W) : allowedR e = true -> R w -> R (step e w).
Proof.
  intros Ha H.
  destruct e; cbn [allowedR] in Ha; try apply negb_true_iff in Ha;
    unfold step, sendCommand, ping, onMessage, offMessage,
      onConnectionChange, offConnectionChange.
  - apply R_connect; assumption.
  - apply R_disconnect, H.
  - apply R_send, H.
  - apply R_send, H.
  - apply R_send, H.
  - r_solve.
  - r_solve.
  - r_solve.
  - r_solve.
  - apply R_onopen; [exact Ha|]. r_solve.
  - apply R_onmessage, H.
  - apply R_onerror. r_solve.
  - apply R_onclose. r_solve.
  - destruct (has_id id (timeouts w)); [|exact H]. apply R_connect; [exact Ha|]. r_solve.
  - destruct (has_id id (intervals w)); [|exact H]. apply R_pingTick, H.
Qed.

Lemma R_run (es : list (Event W)) :
  forall w, forallb allowedR es = true -> R w -> R (run es w).
Proof.
  induction es as [|e es IH]; intros w Ha H; [exact H|].
  cbn in Ha. apply andb_prop in Ha. destruct Ha as [Ha1 Ha2].
  cbn. apply IH; [exact Ha2|]. apply R_step; assumption.
Qed.

Lemma R_since (w : World W) :
  R w ->
  0 <= reconnectAttempts w <= maxReconnectAttempts
  /\ (D = true ->
      Z.of_nat (List.length (scheduled_of (since w0 w)))
      = reconnectAttempts w - reconnectAttempts w0)
  /\ (E = true -> ws w = None /\ sends_of (since w0 w) = []).
Proof.
  intros [H1 [t [Et [HD HE]]]]. rewrite (since_extend _ _ _ Et).
  split; [exact H1|]. split; assumption.
Qed.

End RunBounds.

Lemma allowedR_all {W : Type} (es : list (Event W)) : forallb (allowedR false false) es = true.
Proof. induction es as [|e es IH]; [reflexivity|]. cbn. rewrite IH. destruct e; reflexivity. Qed.

Lemma allowedR_not_open {W : Type} (es : list (Event W)) :
  forallb not_open es = true -> forallb (allowedR true false) es = true.
Proof.
  induction es as [|e es IH]; intro H; [reflexivity|].
  cbn in H. apply andb_prop in H. destruct H as [He Ht].
  cbn. rewrite (IH Ht), andb_true_r. destruct e; try reflexivity; discriminate He.
Qed.

Lemma allowedR_no_connect {W : Type} (es : list (Event W)) :
  forallb no_connect es = true -> forallb (allowedR false true) es = true.
Proof.
  induction es as [|e es IH]; intro H; [reflexivity|].
  cbn in H. apply andb_prop in H. destruct H as [He Ht].
  cbn. rewrite (IH Ht), andb_true_r. destruct e; try reflexivity; discriminate He.
Qed.

Lemma attempts_bounds_run {W : Type} (auto : bool) (u : string) (s0 : W) (es : list (Event W)) :
  0 <= reconnectAttempts (run es (new_client auto u s0)) <= maxReconnectAttempts.
Proof.
  apply (R_since false false (new_client auto u s0)).
  apply R_run; [apply allowedR_all|].
  apply R_init; [cbn; unfold maxReconnectAttempts; lia | intro C; discriminate C].
Qed.

(** X8.  In every state a client reaches, the attempt counter lies between
    0 and [maxReconnectAttempts] = 5. *)
Theorem attempt_counter_stays_within_bounds :
  forall (W : Type) (auto : bool) (u : string) (s0 : W) (es : list (Event W)),
    0 <= reconnectAttempts (run es (new_client auto u s0)) <= 5.
Proof. intros. apply attempts_bounds_run. Qed.

(** X9.  From any reachable state, a run in which no socket opens
    schedules exactly as many retries as the attempt counter goes up, hence
    at most 5, and none at all once the counter stands at 5: only a
    successful open makes further automatic retries possible. *)
Theorem retries_are_bounded_until_an_open :
  forall (W : Type) (auto : bool) (u : string) (s0 : W) (es1 es2 : list (Event W)),
    forallb not_open es2 = true ->
    let w := run es1 (new_client auto u s0) in
    let w' := run es2 w in
    Z.of_nat (List.length (scheduled_of (since w w')))
    = reconnectAttempts w' - reconnectAttempts w
    /\ (List.length (scheduled_of (since w w')) <= 5)%nat
    /\ (reconnectAttempts w = 5 -> scheduled_of (since w w') = []).
Proof.
  intros W auto u s0 es1 es2 H. cbv zeta.
  set (w := run es1 (new_client auto u s0)).
  pose proof (attempts_bounds_run auto u s0 es1) as Hw. fold w in Hw.
  assert (HR : R true false w (run es2 w)).
  { apply R_run; [apply allowedR_not_open, H|].
    apply R_init; [exact Hw | intro C; discriminate C]. }
  apply R_since in HR. destruct HR as [Hb [Hc _]]. specialize (Hc eq_refl).
  unfold maxReconnectAttempts in *.
  split; [exact Hc|]. split; [lia|].
  intro H5. destruct (scheduled_of (since w (run es2 w))); [reflexivity|].
  cbn [List.length] in Hc. lia.
Qed.

Lemma retries_are_bounded_until_an_open_witness :
  scheduled_of (since exhausted_world
                  (run [CallConnect false; EvError 6; EvClose 6 1006 ""; CallDisconnect]
                     exhausted_world)) = [].
Proof.
  pose proof (retries_are_bounded_until_an_open unit false example_url tt exhaust_run
                [CallConnect false; EvError 6%nat; EvClose 6%nat 1006 ""; CallDisconnect]
                eq_refl) as H.
  cbv zeta in H. exact (proj2 (proj2 H) eq_refl).
Defined.

(** X10.  After [disconnect()], in any reachable state, the client has no
    current socket and writes no frame to any socket, whatever is called
    and whatever the browser delivers, until [connect] runs again (called
    by the owner or by a retry timer that was still pending); the same
    holds of a client on which [connect] has not run yet. *)
Theorem nothing_is_written_while_disconnected :
  forall (W : Type) (auto : bool) (u : string) (s0 : W) (es1 es2 : list (Event W)),
    forallb no_connect es2 = true ->
    let w := step CallDisconnect (run es1 (new_client auto u s0)) in
    ws (run es2 w) = None
    /\ sends_of (since w (run es2 w)) = []
    /\ ws (run es2 (new_client auto u s0)) = None
    /\ sends_of (trace (run es2 (new_client auto u s0))) = [].
Proof.
  intros W auto u s0 es1 es2 H. cbv zeta.
  pose proof (attempts_bounds_run auto u s0 (es1 ++ [CallDisconnect])) as Hw.
  unfold run in Hw. rewrite fold_left_app in Hw. cbn [fold_left] in Hw.
  fold (run es1 (new_client auto u s0)) in Hw.
  set (w := step CallDisconnect (run es1 (new_client auto u s0))) in *.
  assert (HR : R false true w (run es2 w)).
  { apply R_run; [apply allowedR_no_connect, H|].
    apply R_init; [exact Hw|]. intros _. apply disconnect_fields. }
  apply R_since in HR. destruct HR as [_ [_ Hc]]. destruct (Hc eq_refl) as [C1 C2].
  assert (HR0 : R false true (new_client auto u s0) (run es2 (new_client auto u s0))).
  { apply R_run; [apply allowedR_no_connect, H|].
    apply R_init; [cbn; unfold maxReconnectAttempts; lia | reflexivity]. }
  apply R_since in HR0. destruct HR0 as [_ [_ Hc0]]. destruct (Hc0 eq_refl) as [C3 C4].
  split; [exact C1|]. split; [exact C2|]. split; [exact C3|].
  exact C4.
Qed.

Lemma nothing_is_written_while_disconnected_witness :
  let w := step CallDisconnect
             (run [CallConnect false; EvOpen 0] (new_client true example_url tt)) in
  sends_of (since w (run [CallSendCommand "list" "t1"; CallPing "t2";
                          EvClose 0 1000 "Manual disconnect"; EvTick 1 "t3"] w)) = [].
Proof.
  intro w.
  pose proof (nothing_is_written_while_disconnected unit true example_url tt
                [CallConnect false; EvOpen 0%nat]
                [CallSendCommand "list" "t1"; CallPing "t2";
                 EvClose 0%nat 1000 "Manual disconnect"; EvTick 1 "t3"] eq_refl) as H.
  cbv zeta in H. exact (proj1 (proj2 H)).
Defined.

(** X11.  In every state a client reaches, at most one interval timer is
    active, it has period 30000 ms and is the one [pingInterval] names, with
    a positive id, so the truthiness test of [stopPing] never misses it:
    [stopPing] leaves no interval active, and however often the client
    reconnects, ping timers do not pile up. *)
Theorem at_most_one_ping_timer :
  forall (W : Type) (auto : bool) (u : string) (s0 : W) (es : list (Event W)),
    let w := run es (new_client auto u s0) in
    intervals w = match pingInterval w with
                  | Some id => [(id, 30000)]
                  | None => []
                  end
    /\ (List.length (intervals w) <= 1)%nat
    /\ truthy (pingInterval w) = match pingInterval w with
                                 | Some _ => true
                                 | None => false
                                 end
    /\ intervals (stopPing w) = []
    /\ List.length (intervals (startPing w)) = 1%nat.
Proof.
  intros W auto u s0 es. cbv zeta.
  pose proof (Inv_run auto es _ (Inv_new auto u s0)) as HI.
  destruct (stopPing_post auto _ HI) as [_ [_ Hs]].
  destruct (startPing_post auto _ HI) as [_ [_ Hp]].
  destruct HI as [_ [[_ Hpi] _]].
  destruct (pingInterval (run es (new_client auto u s0))) as [id|].
  - destruct Hpi as [Hid Hint]. rewrite Hint.
    split; [reflexivity|]. split; [cbn; lia|]. split.
    + cbn. destruct (Z.eqb_spec id 0); [lia|reflexivity].
    + split; [exact Hs | rewrite Hp; reflexivity].
  - rewrite Hpi. split; [reflexivity|]. split; [cbn; lia|]. split; [reflexivity|].
    split; [exact Hs | rewrite Hp; reflexivity].
Qed.

(** ** Subscribing and unsubscribing *)

Section RegistryProofs.

Context {W A : Type}.

Lemma remove_first_absent (h : Handler W A) (l : list (Handler W A)) :
  ~ In (hid h) (map hid l) -> remove_first h l = l.
Proof.
  induction l as [|x l IH]; intro H; [reflexivity|].
  cbn in *. destruct (Nat.eqb_spec (hid x) (hid h)) as [E|_]; [tauto|].
  rewrite IH by tauto. reflexivity.
Qed.

Lemma remove_first_app (h : Handler W A) (l l' : list (Handler W A)) :
  ~ In (hid h) (map hid l) -> remove_first h (l ++ l') = (l ++ remove_first h l')%list.
Proof.
  induction l as [|x l IH]; intro H; [reflexivity|].
  cbn in *. destruct (Nat.eqb_spec (hid x) (hid h)) as [E|_]; [tauto|].
  rewrite IH by tauto. reflexivity.
Qed.

Lemma remove_first_here (h : Handler W A) (l : list (Handler W A)) :
  remove_first h (h :: l) = l.
Proof. cbn. rewrite Nat.eqb_refl. reflexivity. Qed.

End RegistryProofs.

(** X12.  For a listener that is not registered, [offMessage] changes
    nothing and [offMessage] after [onMessage] gives back the client as it
    was; registered twice and removed once, it stays registered once, at the
    end.  In general [offMessage] removes the earliest registration of the
    listener and keeps the order of the others.  [onConnectionChange] and
    [offConnectionChange] behave the same. *)
Theorem unsubscribe_undoes_subscribe :
  forall (W : Type) (w : World W) (h : Handler W WSMessage) (g : Handler W WSConnectionStatus),
    (~ In (hid h) (map hid (messageHandlers w)) ->
     offMessage h w = w
     /\ offMessage h (onMessage h w) = w
     /\ messageHandlers (offMessage h (onMessage h (onMessage h w)))
        = (messageHandlers w ++ [h])%list)
    /\ (~ In (hid g) (map hid (connectionHandlers w)) ->
        offConnectionChange g w = w
        /\ offConnectionChange g (onConnectionChange g w) = w
        /\ connectionHandlers
             (offConnectionChange g (onConnectionChange g (onConnectionChange g w)))
           = (connectionHandlers w ++ [g])%list)
    /\ (forall pre post,
           messageHandlers w = (pre ++ h :: post)%list ->
           ~ In (hid h) (map hid pre) ->
           messageHandlers (offMessage h w) = (pre ++ post)%list).
Proof.
  intros W w h g. split; [|split].
  - intro H. unfold offMessage, onMessage. split; [|split].
    + destruct w; record_simpl; unfold MessageHandler, ConnectionHandler in *.
      rewrite remove_first_absent by exact H. reflexivity.
    + destruct w; record_simpl; unfold MessageHandler, ConnectionHandler in *. rewrite remove_first_app by exact H.
      rewrite remove_first_here, app_nil_r. reflexivity.
    + destruct w; record_simpl; unfold MessageHandler, ConnectionHandler in *. rewrite <- app_assoc, remove_first_app by exact H.
      cbn [app]. rewrite remove_first_here. reflexivity.
  - intro H. unfold offConnectionChange, onConnectionChange. split; [|split].
    + destruct w; record_simpl; unfold MessageHandler, ConnectionHandler in *.
      rewrite remove_first_absent by exact H. reflexivity.
    + destruct w; record_simpl; unfold MessageHandler, ConnectionHandler in *. rewrite remove_first_app by exact H.
      rewrite remove_first_here, app_nil_r. reflexivity.
    + destruct w; record_simpl; unfold MessageHandler, ConnectionHandler in *. rewrite <- app_assoc, remove_first_app by exact H.
      cbn [app]. rewrite remove_first_here. reflexivity.
  - intros pre post E H. unfold offMessage. destruct w; record_simpl; unfold MessageHandler, ConnectionHandler in *. subst.
    rewrite remove_first_app by exact H. rewrite remove_first_here. reflexivity.
Qed.

Lemma unsubscribe_undoes_subscribe_witness :
  let w := new_client false example_url ([] : list WSConnectionStatus) in
  offConnectionChange recorder (onConnectionChange recorder w) = w.
Proof.
  intro w.
  pose proof (unsubscribe_undoes_subscribe _ w (mkHandler 1%nat (fun _ s => (s, None)))
                recorder) as [_ [H _]].
  exact (proj1 (proj2 (H ltac:(cbn; tauto)))).
Defined.

(** ** A constructor that raises, and the backoff after an open *)

Section ThrowProofs.

Context {W : Type}.

Lemma connect_throws_eq (w : World W) :
  connect true w =
  mkWorld (ws w) (url w) (reconnectAttempts w) (messageHandlers w) (connectionHandlers w)
    (status false false (Some "Failed to create WebSocket connection"))
    (heartbeat w) (pingInterval w) (sockets w) (timeouts w) (intervals w) (nextTimerId w)
    (notify (status false false (Some "Failed to create WebSocket connection"))
       (connectionHandlers w)
       (notify (status false true None) (connectionHandlers w) (subs w)))
    (trace w ++
     EStatus (status false true None)
     :: dispatch_trace "Error in connection handler:" (map hid (connectionHandlers w))
          (raised (status false true None) (connectionHandlers w) (subs w))
     ++ EStatus (status false false (Some "Failed to create WebSocket connection"))
     :: dispatch_trace "Error in connection handler:" (map hid (connectionHandlers w))
          (raised (status false false (Some "Failed to create WebSocket connection"))
             (connectionHandlers w)
             (notify (status false true None) (connectionHandlers w) (subs w)))
     ++ [EReject None]).
Proof.
  unfold connect, AutoReconnectWebSocket_connect, WebSocketClient_connect.
  rewrite !updateConnectionStatus_eq.
  destruct w as [a b c d e f hb g sk i j k l m]; destruct hb; record_simpl;
    cbn [snd]; record_simpl; rewrite <- !app_assoc; reflexivity.
Qed.

Lemma startPing_attempts (w : World W) :
  reconnectAttempts (startPing w) = reconnectAttempts w.
Proof.
  unfold startPing, stopPing, setInterval, clearInterval.
  destruct w as [a b c d e f hb g sk i j n l m]. record_simpl.
  destruct g as [id|]; [destruct (truthy (Some id))|]; reflexivity.
Qed.

Lemma onopen_attempts (s : nat) (w : World W) : reconnectAttempts (step (EvOpen s) w) = 0.
Proof.
  unfold step, onopen, resolve. cbv zeta.
  destruct (is_settled s _).
  - rewrite updateConnectionStatus_eq. destruct w; reflexivity.
  - destruct (awaits_startPing s _).
    + rewrite startPing_attempts, updateConnectionStatus_eq. destruct w; reflexivity.
    + rewrite updateConnectionStatus_eq. destruct w; reflexivity.
Qed.

End ThrowProofs.

(** X13.  When [new WebSocket] raises, [connect()] notifies "reconnecting"
    and then [{connected:false, reconnecting:false, error:"Failed to create
    WebSocket connection"}], and that is all: no socket is made, the current
    socket, the attempt counter and the timers stay as they were, and no
    retry is scheduled, also when the failing [connect] was itself a retry. *)
Theorem failed_construction_is_not_retried :
  forall (W : Type) (w : World W) (id : Z),
    let w' := step (CallConnect true) w in
    connectionStatus w'
    = status false false (Some "Failed to create WebSocket connection")
    /\ statuses_of (since w w')
       = [status false true None;
          status false false (Some "Failed to create WebSocket connection")]
    /\ sockets w' = sockets w
    /\ ws w' = ws w
    /\ reconnectAttempts w' = reconnectAttempts w
    /\ timeouts w' = timeouts w
    /\ intervals w' = intervals w
    /\ scheduled_of (since w w') = []
    /\ scheduled_of (since w (step (EvTimeout id true) w)) = []
    /\ sockets (step (EvTimeout id true) w) = sockets w.
Proof.
  intros W w id. cbv zeta. unfold step at 1 2 3 4 5 6 7 8. rewrite connect_throws_eq.
  split; [reflexivity|].
  split; [erewrite since_extend by reflexivity; filter_trace; reflexivity|].
  do 5 (split; [reflexivity|]).
  split; [erewrite since_extend by reflexivity; filter_trace; reflexivity|].
  unfold step. destruct (has_id id (timeouts w)).
  - rewrite connect_throws_eq. split; [|destruct w; reflexivity].
    erewrite since_extend by (destruct w; reflexivity). filter_trace. reflexivity.
  - split; [|reflexivity].
    erewrite since_extend by (rewrite app_nil_r; reflexivity). reflexivity.
Qed.

(** X14.  A socket opening puts the attempt counter back to 0, whatever it
    was, so the first retry after the next abnormal close waits 1000 ms
    again. *)
Theorem backoff_restarts_after_open :
  forall (W : Type) (w : World W) (s s' : nat) (code : Z) (reason : string),
    code <> 1000 ->
    let w1 := step (EvOpen s) w in
    reconnectAttempts w1 = 0
    /\ scheduled_of (since w1 (step (EvClose s' code reason) w1)) = [(nextTimerId w1, 1000)].
Proof.
  intros W w s s' code reason Hc. cbv zeta.
  pose proof (onopen_attempts s w) as H0. split; [exact H0|].
  rewrite close_event_trace; [|exact Hc|rewrite H0; unfold maxReconnectAttempts; lia].
  filter_trace. rewrite H0. reflexivity.
Qed.

Lemma backoff_restarts_after_open_witness :
  let w := run [CallConnect false; EvOpen 0; EvClose 0 1006 ""; EvTimeout 1 false;
                EvError 1; EvClose 1 1006 ""; EvTimeout 2 false]
             (new_client false example_url tt) in
  reconnectAttempts w = 2
  /\ scheduled_of (since (step (EvOpen 2) w)
                     (step (EvClose 2 1006 "") (step (EvOpen 2) w))) = [(3, 1000)].
Proof.
  intro w. split; [reflexivity|].
  exact (proj2 (backoff_restarts_after_open unit w 2%nat 2%nat 1006 "" ltac:(lia))).
Defined.

(* ================================================================== *)
(** * Further properties of the store *)

(** ** A client and the refs its listeners write *)

Section Mirror.

(** The two listeners of a channel, the status ref [mine] of the channel,
    and a property [P] of the refs that the status listener keeps. *)
Variable sl : Handler StoreData WSConnectionStatus.
Variable ml : Handler StoreData WSMessage.
Variable mine : StoreData -> WSConnectionStatus.
Variable P : StoreData -> Prop.

Hypothesis sl_mine : forall st d, mine (fst (hrun sl st d)) = st.
Hypothesis sl_P : forall st d, P d -> P (fst (hrun sl st d)).
Hypothesis ml_mine : forall m d, mine (fst (hrun ml m d)) = mine d.
Hypothesis ml_P : forall m d, P d -> P (fst (hrun ml m d)).

Definition M (w : World StoreData) : Prop :=
  connectionHandlers w = [sl]
  /\ messageHandlers w = [ml]
  /\ mine (subs w) = connectionStatus w
  /\ P (subs w).

Lemma M_frame (w w' : World StoreData) :
  connectionHandlers w' = connectionHandlers w ->
  messageHandlers w' = messageHandlers w ->
  connectionStatus w' = connectionStatus w ->
  subs w' = subs w ->
  M w -> M w'.
Proof. unfold M. intros -> -> -> ->. exact (fun H => H). Qed.

Lemma M_update (st : WSConnectionStatus) (w : World StoreData) :
  M w -> M (updateConnectionStatus st w).
Proof.
  intros [H1 [H2 [_ H4]]]. rewrite updateConnectionStatus_eq.
  destruct w; record_simpl. unfold M. record_simpl. subst.
  cbn [notify fold_left]. repeat split; [apply sl_mine | apply sl_P, H4].
Qed.

Lemma M_handleMessage (m : WSMessage) (w : World StoreData) :
  M w -> M (handleMessage m w).
Proof.
  intros [H1 [H2 [H3 H4]]]. rewrite handleMessage_eq.
  destruct w; record_simpl. unfold M. record_simpl. subst.
  cbn [notify fold_left]. repeat split; [apply ml_mine | apply ml_P, H4].
Qed.

Ltac m_known := fail.

Ltac m_solve :=
  repeat
    match goal with
    | |- M (if ?c then _ else _) => destruct c
    | |- M (match (if ?c then _ else _) with _ => _ end) => destruct c; cbv beta iota
    | |- M (match ?x with _ => _ end) => destruct x
    | |- M (snd (if ?c then _ else _)) => destruct c
    | |- M (snd (_, _)) => cbn [snd]
    | |- M (updateConnectionStatus _ _) => apply M_update
    | |- M _ => assumption
    | |- M _ => m_known
    | |- M (?f ?a ?b ?w) =>
        apply (M_frame w); [reflexivity|reflexivity|reflexivity|reflexivity|]
    | |- M (?f ?a ?w) =>
        apply (M_frame w); [reflexivity|reflexivity|reflexivity|reflexivity|]
    end.

Lemma M_send (m : Frame) (w : World StoreData) : M w -> M (send m w).
Proof. intro H. unfold send, console. m_solve. Qed.

Ltac m_known ::= first [apply M_send].

Lemma M_pingTick (now : string) (w : World StoreData) : M w -> M (pingTick now w).
Proof. intro H. unfold pingTick, ping. m_solve. Qed.

Lemma M_startPing (w : World StoreData) : M w -> M (startPing w).
Proof.
  intro H. unfold startPing, stopPing, setInterval, clearInterval. cbv zeta beta. m_solve.
Qed.

Lemma M_stopPing (w : World StoreData) : M w -> M (stopPing w).
Proof. intro H. unfold stopPing, clearInterval. m_solve. Qed.

Ltac m_known ::=
  first [apply M_send | apply M_pingTick | apply M_startPing | apply M_stopPing].

Lemma M_resolve (s : nat) (w : World StoreData) : M w -> M (resolve s w).
Proof. intro H. unfold resolve. cbv zeta. m_solve. Qed.

Lemma M_reject (s : nat) (w : World StoreData) : M w -> M (reject s w).
Proof. intro H. unfold reject. m_solve. Qed.

Lemma M_attemptReconnect (w : World StoreData) : M w -> M (attemptReconnect w).
Proof. intro H. unfold attemptReconnect, setTimeout, console. cbv zeta. m_solve. Qed.

Ltac m_known ::=
  first [apply M_send | apply M_pingTick | apply M_startPing | apply M_stopPing
        | apply M_resolve | apply M_reject | apply M_attemptReconnect].

Lemma M_onopen (s : nat) (w : World StoreData) : M w -> M (onopen s w).
Proof. intro H. unfold onopen, console. cbv zeta. m_solve. Qed.

Lemma M_onmessage (payload : option WSMessage) (w : World StoreData) :
  M w -> M (onmessage payload w).
Proof.
  intro H. unfold onmessage, console. destruct payload; [apply M_handleMessage, H|].
  m_solve.
Qed.

Lemma M_onclose (code : Z) (reason : string) (w : World StoreData) :
  M w -> M (onclose code reason w).
Proof. intro H. unfold onclose, console. cbv zeta. m_solve. Qed.

Lemma M_onerror (s : nat) (w : World StoreData) : M w -> M (onerror s w).
Proof. intro H. unfold onerror, console. cbv zeta. m_solve. Qed.

Lemma M_WebSocketClient_connect (t : bool) (w : World StoreData) :
  M w -> M (snd (WebSocketClient_connect t w)).
Proof.
  intro H. unfold WebSocketClient_connect, new_WebSocket. cbv zeta beta. m_solve.
Qed.

Lemma M_WebSocketClient_disconnect (w : World StoreData) :
  M w -> M (WebSocketClient_disconnect w).
Proof.
  intro H. unfold WebSocketClient_disconnect, ws_close. cbv zeta.
  apply M_update. m_solve.
Qed.

Lemma M_connect (t : bool) (w : World StoreData) : M w -> M (connect t w).
Proof.
  intro H. unfold connect, AutoReconnectWebSocket_connect.
  pose proof (M_WebSocketClient_connect t w H) as Hc.
  destruct (WebSocketClient_connect t w) as [[s|] w']; cbn [snd] in Hc; m_solve.
Qed.

Lemma M_disconnect (w : World StoreData) : M w -> M (disconnect w).
Proof.
  intro H. unfold disconnect, AutoReconnectWebSocket_disconnect.
  destruct (heartbeat w); apply M_WebSocketClient_disconnect; m_solve.
Qed.

(** A browser event other than a frame that parses. *)
Lemma M_step_quiet (e : Event StoreData) (w : World StoreData) :
  is_call e = false ->
  (forall s m, e <> EvMessage s (Some m)) ->
  M w -> M (step e w).
Proof.
  intros Hc Hm H. destruct e; try discriminate Hc; unfold step.
  - apply M_onopen. m_solve.
  - destruct payload as [m|]; [exfalso; exact (Hm _ _ eq_refl)|].
    unfold onmessage, console. m_solve.
  - apply M_onerror. m_solve.
  - apply M_onclose. m_solve.
  - destruct (has_id id (timeouts w)); [|exact H]. apply M_connect. m_solve.
  - destruct (has_id id (intervals w)); [|exact H]. apply M_pingTick, H.
Qed.

Lemma M_step (e : Event StoreData) (w : World StoreData) :
  is_call e = false -> M w -> M (step e w).
Proof.
  intros Hc H. destruct e; try discriminate Hc;
    try (apply M_step_quiet; [reflexivity | intros; discriminate | exact H]).
  unfold step. apply M_onmessage, H.
Qed.

End Mirror.

(** ** The store while its two clients live *)

Section StoreProofs.

(** What the console listeners keep: the other channel's status ref and
    the bound of the buffer; and, outside [handleConsoleMessage], the
    buffer itself. *)
Definition console_keeps (x : WSConnectionStatus) (d : StoreData) : Prop :=
  statusConnectionStatus d = x
  /\ (List.length (consoleMessages d) <= maxConsoleMessages)%nat.

Definition console_fixes (x : WSConnectionStatus) (b : list ConsoleMessage)
  (d : StoreData) : Prop :=
  statusConnectionStatus d = x /\ consoleMessages d = b.

Definition status_fixes (x : WSConnectionStatus) (b : list ConsoleMessage)
  (d : StoreData) : Prop :=
  consoleStatus d = x /\ consoleMessages d = b.

Definition MC (x : WSConnectionStatus) : World StoreData -> Prop :=
  M consoleStatusListener consoleMessageListener consoleStatus (console_keeps x).

Definition MCq (x : WSConnectionStatus) (b : list ConsoleMessage) :
  World StoreData -> Prop :=
  M consoleStatusListener consoleMessageListener consoleStatus (console_fixes x b).

Definition MS (x : WSConnectionStatus) (b : list ConsoleMessage) :
  World StoreData -> Prop :=
  M statusStatusListener statusMessageListener statusConnectionStatus (status_fixes x b).

Lemma handleConsoleMessage_length (m : WSMessage) (d : StoreData) :
  (List.length (consoleMessages d) <= maxConsoleMessages)%nat ->
  (List.length (consoleMessages (handleConsoleMessage m d)) <= maxConsoleMessages)%nat.
Proof.
  intro H. unfold handleConsoleMessage.
  destruct (String.eqb (type m) "console_log"); [apply addConsoleMessage_length | exact H].
Qed.

Lemma handleConsoleMessage_status (m : WSMessage) (d : StoreData) :
  consoleStatus (handleConsoleMessage m d) = consoleStatus d
  /\ statusConnectionStatus (handleConsoleMessage m d) = statusConnectionStatus d.
Proof.
  unfold handleConsoleMessage.
  destruct (String.eqb (type m) "console_log"); split; reflexivity.
Qed.

Lemma MC_step (x : WSConnectionStatus) (e : Event StoreData) (w : World StoreData) :
  is_call e = false -> MC x w -> MC x (step e w).
Proof.
  apply M_step.
  - reflexivity.
  - intros st d [H1 H2]. split; assumption.
  - intros m d. cbn. apply handleConsoleMessage_status.
  - intros m d [H1 H2]. cbn. split.
    + rewrite (proj2 (handleConsoleMessage_status m d)). exact H1.
    + apply handleConsoleMessage_length, H2.
Qed.

Lemma MC_send (x : WSConnectionStatus) (m : Frame) (w : World StoreData) :
  MC x w -> MC x (send m w).
Proof. apply M_send. Qed.

Lemma MC_connect (x : WSConnectionStatus) (t : bool) (w : World StoreData) :
  MC x w -> MC x (connect t w).
Proof.
  apply M_connect.
  - reflexivity.
  - intros st d [H1 H2]. split; assumption.
Qed.

Lemma MCq_step (x : WSConnectionStatus) (b : list ConsoleMessage)
  (e : Event StoreData) (w : World StoreData) :
  is_call e = false ->
  (forall s m, e <> EvMessage s (Some m)) ->
  MCq x b w -> MCq x b (step e w).
Proof.
  apply M_step_quiet.
  - reflexivity.
  - intros st d [H1 H2]. split; assumption.
Qed.

Lemma MCq_disconnect (x : WSConnectionStatus) (b : list ConsoleMessage)
  (w : World StoreData) :
  MCq x b w -> MCq x b (disconnect w).
Proof.
  apply M_disconnect.
  - reflexivity.
  - intros st d [H1 H2]. split; assumption.
Qed.

Lemma MS_step (x : WSConnectionStatus) (b : list ConsoleMessage)
  (e : Event StoreData) (w : World StoreData) :
  is_call e = false -> MS x b w -> MS x b (step e w).
Proof.
  apply M_step.
  - reflexivity.
  - intros st d [H1 H2]. split; assumption.
  - reflexivity.
  - intros m d H. exact H.
Qed.

Lemma MS_connect (x : WSConnectionStatus) (b : list ConsoleMessage) (t : bool)
  (w : World StoreData) :
  MS x b w -> MS x b (connect t w).
Proof.
  apply M_connect.
  - reflexivity.
  - intros st d [H1 H2]. split; assumption.
Qed.

Lemma MS_disconnect (x : WSConnectionStatus) (b : list ConsoleMessage)
  (w : World StoreData) :
  MS x b w -> MS x b (disconnect w).
Proof.
  apply M_disconnect.
  - reflexivity.
  - intros st d [H1 H2]. split; assumption.
Qed.

(** The store between two events: both clients carry the store's
    listeners and nothing else, each status ref equals its client's status,
    and the buffer is within its bound. *)
Definition Synced (st : Store) : Prop :=
  exists c s,
    consoleWs st = Some c /\ statusWs st = Some s
    /\ connectionHandlers c = [consoleStatusListener]
    /\ messageHandlers c = [consoleMessageListener]
    /\ connectionHandlers s = [statusStatusListener]
    /\ messageHandlers s = [statusMessageListener]
    /\ consoleStatus (refs st) = connectionStatus c
    /\ statusConnectionStatus (refs st) = connectionStatus s
    /\ (List.length (consoleMessages (refs st)) <= maxConsoleMessages)%nat.

Lemma set_subs_fields (d : StoreData) (c : World StoreData) :
  connectionHandlers (set_subs d c) = connectionHandlers c
  /\ messageHandlers (set_subs d c) = messageHandlers c
  /\ connectionStatus (set_subs d c) = connectionStatus c
  /\ subs (set_subs d c) = d.
Proof. destruct c; repeat split. Qed.

Lemma MC_enter (c : World StoreData) (d : StoreData) :
  connectionHandlers c = [consoleStatusListener] ->
  messageHandlers c = [consoleMessageListener] ->
  consoleStatus d = connectionStatus c ->
  (List.length (consoleMessages d) <= maxConsoleMessages)%nat ->
  MC (statusConnectionStatus d) (set_subs d c).
Proof.
  intros H1 H2 H3 H4. destruct (set_subs_fields d c) as [E1 [E2 [E3 E4]]].
  unfold MC, M, console_keeps. rewrite E1, E2, E3, E4. repeat split; assumption.
Qed.

Lemma MCq_enter (c : World StoreData) (d : StoreData) :
  connectionHandlers c = [consoleStatusListener] ->
  messageHandlers c = [consoleMessageListener] ->
  consoleStatus d = connectionStatus c ->
  MCq (statusConnectionStatus d) (consoleMessages d) (set_subs d c).
Proof.
  intros H1 H2 H3. destruct (set_subs_fields d c) as [E1 [E2 [E3 E4]]].
  unfold MCq, M, console_fixes. rewrite E1, E2, E3, E4. repeat split; assumption.
Qed.

Lemma MS_enter (c : World StoreData) (d : StoreData) :
  connectionHandlers c = [statusStatusListener] ->
  messageHandlers c = [statusMessageListener] ->
  statusConnectionStatus d = connectionStatus c ->
  MS (consoleStatus d) (consoleMessages d) (set_subs d c).
Proof.
  intros H1 H2 H3. destruct (set_subs_fields d c) as [E1 [E2 [E3 E4]]].
  unfold MS, M, status_fixes. rewrite E1, E2, E3, E4. repeat split; assumption.
Qed.

Lemma Synced_console (f : World StoreData -> World StoreData) (st : Store) :
  (forall x w, MC x w -> MC x (f w)) ->
  Synced st -> Synced (with_console f st).
Proof.
  intros Hf (c & s & Hc & Hs & H1 & H2 & H3 & H4 & H5 & H6 & H7).
  unfold with_console. rewrite Hc. cbv zeta.
  destruct (Hf _ _ (MC_enter c (refs st) H1 H2 H5 H7)) as (G1 & G2 & G3 & G4 & G5).
  exists (f (set_subs (refs st) c)), s. cbn [consoleWs statusWs refs].
  repeat split; try assumption. congruence.
Qed.

Lemma Synced_status (f : World StoreData -> World StoreData) (st : Store) :
  (forall x b w, MS x b w -> MS x b (f w)) ->
  Synced st -> Synced (with_status f st).
Proof.
  intros Hf (c & s & Hc & Hs & H1 & H2 & H3 & H4 & H5 & H6 & H7).
  unfold with_status. rewrite Hs. cbv zeta.
  destruct (Hf _ _ _ (MS_enter s (refs st) H3 H4 H6)) as (G1 & G2 & G3 & G4 & G5).
  exists c, (f (set_subs (refs st) s)). cbn [consoleWs statusWs refs].
  repeat split; try assumption; congruence.
Qed.

Lemma Synced_step (e : StoreEvent) (st : Store) :
  browser_only e = true -> Synced st -> Synced (store_step e st).
Proof.
  intros He H.
  destruct e as [ev|ev|command now|m| |https host t|https host t|https host t1 t2];
    unfold store_step;
    try (destruct H as (c & s & Hc & Hs & Hrest);
         assert (Hst : Synced st) by (exists c, s; repeat split; tauto);
         unfold connectAll, initStatusWebSocket, initConsoleWebSocket;
         rewrite Hc; cbv zeta; rewrite ?Hs; exact Hst).
  - apply Synced_console; [|exact H]. intros x w. apply MC_step.
    cbn in He. destruct (is_call ev); [discriminate|reflexivity].
  - apply Synced_status; [|exact H]. intros x b w. apply MS_step.
    cbn in He. destruct (is_call ev); [discriminate|reflexivity].
  - unfold sendConsoleCommand.
    destruct H as (c & s & Hc & Hrest). rewrite Hc.
    assert (Hs : Synced st) by (exists c, s; split; assumption).
    destruct (negb (isConsoleConnected st)); cbn [snd]; [exact Hs|].
    apply Synced_console; [|exact Hs]. intros x w. unfold sendCommand. apply MC_send.
  - destruct H as (c & s & Hc & Hs & H1 & H2 & H3 & H4 & H5 & H6 & H7).
    exists c, s. cbn [consoleWs statusWs refs].
    repeat split; try assumption. apply addConsoleMessage_length.
  - destruct H as (c & s & Hc & Hs & H1 & H2 & H3 & H4 & H5 & H6 & H7).
    exists c, s. cbn [consoleWs statusWs refs].
    repeat split; try assumption. cbn. lia.
Qed.

Lemma Synced_run (es : list StoreEvent) (st : Store) :
  forallb browser_only es = true -> Synced st -> Synced (store_run es st).
Proof.
  revert st. induction es as [|e es IH]; intros st Hes H; [exact H|].
  cbn [forallb] in Hes. apply andb_prop in Hes. destruct Hes as [He Hes].
  unfold store_run. cbn [fold_left]. apply IH; [exact Hes|].
  apply Synced_step; assumption.
Qed.

Lemma Synced_init (https : bool) (host : string) (t1 t2 : bool) :
  Synced (connectAll https host t1 t2 empty_store).
Proof.
  unfold connectAll, initStatusWebSocket, initConsoleWebSocket, empty_store.
  cbn [consoleWs statusWs refs]. cbv zeta.
  set (c0 := onMessage consoleMessageListener
               (onConnectionChange consoleStatusListener (new_client true _ _))).
  assert (Hc0 : MC (status false false None) c0)
    by (unfold MC, M, console_keeps; cbn; repeat split; lia).
  pose proof (MC_connect _ t1 _ Hc0) as (G1 & G2 & G3 & G4 & G5).
  set (c := connect t1 c0) in *.
  set (s0 := onMessage statusMessageListener
               (onConnectionChange statusStatusListener (new_client true _ (subs c)))).
  assert (Hs0 : MS (consoleStatus (subs c)) (consoleMessages (subs c)) s0).
  { unfold MS, M, status_fixes. cbn. repeat split. exact G4. }
  pose proof (MS_connect _ _ t2 _ Hs0) as (K1 & K2 & K3 & K4 & K5).
  set (s := connect t2 s0) in *.
  exists c, s. cbn [consoleWs statusWs refs].
  repeat split; try assumption; congruence.
Qed.

End StoreProofs.

(** X15.  From the creation of the store ([connectAll] on the empty store)
    and as long as none of [disconnectAll], [reconnectConsole] and
    [reconnectStatus] is called, that is through any sequence of browser
    events on its two clients and of the actions [sendConsoleCommand],
    [addConsoleMessage], [clearConsoleMessages], [initConsoleWebSocket],
    [initStatusWebSocket] and [connectAll]: both clients exist, each status
    ref equals the status of its client, so [isConsoleConnected] is the
    console client's [isConnected], and the console buffer holds at most
    1000 entries. *)
Theorem status_refs_mirror_the_clients (https : bool) (host : string) (t1 t2 : bool)
  (es : list StoreEvent) :
  forallb browser_only es = true ->
  let st := store_run es (connectAll https host t1 t2 empty_store) in
  exists c s,
    consoleWs st = Some c /\ statusWs st = Some s
    /\ consoleStatus (refs st) = getConnectionStatus c
    /\ statusConnectionStatus (refs st) = getConnectionStatus s
    /\ isConsoleConnected st = isConnected c
    /\ isStatusConnected st = isConnected s
    /\ (List.length (consoleMessages (refs st)) <= maxConsoleMessages)%nat.
Proof.
  intros Hes st.
  destruct (Synced_run es _ Hes (Synced_init https host t1 t2))
    as (c & s & Hc & Hs & _ & _ & _ & _ & H5 & H6 & H7).
  fold st in Hc, Hs, H5, H6, H7.
  exists c, s. unfold getConnectionStatus, isConsoleConnected, isStatusConnected, isConnected.
  rewrite H5, H6. repeat split; assumption.
Qed.

Lemma status_refs_mirror_the_clients_witness :
  exists c s,
    consoleWs live_store = Some c /\ statusWs live_store = Some s
    /\ consoleStatus (refs live_store) = getConnectionStatus c
    /\ statusConnectionStatus (refs live_store) = getConnectionStatus s
    /\ isConsoleConnected live_store = isConnected c
    /\ isStatusConnected live_store = isConnected s
    /\ (List.length (consoleMessages (refs live_store)) <= maxConsoleMessages)%nat.
Proof.
  exact (status_refs_mirror_the_clients false "localhost:3000" false false both_open
           eq_refl).
Defined.

(** X16.  In any state the store reaches that way: a frame of type
    [console_log] delivered to the console socket is appended to the buffer,
    which is then cut to its last 1000 entries, and a frame of another type
    leaves the buffer as it is; so does every other browser event of the
    console client (a frame that does not parse, open, error, close, a
    timer); and a browser event of the status client changes neither the
    buffer nor the console status. *)
Theorem frames_reach_the_console_buffer (https : bool) (host : string) (t1 t2 : bool)
  (es : list StoreEvent) :
  forallb browser_only es = true ->
  let st := store_run es (connectAll https host t1 t2 empty_store) in
  (forall s m,
      consoleMessages (refs (store_step (ConsoleEvent (EvMessage s (Some m))) st))
      = if String.eqb (type m) "console_log"
        then lastn maxConsoleMessages
               (consoleMessages (refs st)
                  ++ [mkMessage (type m) (timestamp m) (data m)])%list
        else consoleMessages (refs st))
  /\ (forall ev,
         is_call ev = false ->
         (forall s m, ev <> EvMessage s (Some m)) ->
         consoleMessages (refs (store_step (ConsoleEvent ev) st))
         = consoleMessages (refs st))
  /\ (forall ev,
         is_call ev = false ->
         consoleMessages (refs (store_step (StatusEvent ev) st))
         = consoleMessages (refs st)
         /\ consoleStatus (refs (store_step (StatusEvent ev) st))
            = consoleStatus (refs st)).
Proof.
  intros Hes st.
  destruct (Synced_run es _ Hes (Synced_init https host t1 t2))
    as (c & s & Hc & Hs & H1 & H2 & H3 & H4 & H5 & H6 & H7).
  fold st in Hc, Hs, H5, H6, H7.
  split; [|split].
  - intros k m. unfold store_step, with_console. rewrite Hc. cbv zeta.
    cbn [refs]. unfold step, onmessage. rewrite handleMessage_eq.
    destruct (set_subs_fields (refs st) c) as (_ & E2 & _ & E4).
    replace (subs (set_trace _ (set_subs _ (set_subs (refs st) c))))
      with (notify m (messageHandlers (set_subs (refs st) c))
              (subs (set_subs (refs st) c)))
      by (destruct c; reflexivity).
    rewrite E2, E4, H2. cbn [notify fold_left consoleMessageListener hrun fst].
    unfold handleConsoleMessage.
    destruct (String.eqb (type m) "console_log"); [|reflexivity].
    apply addConsoleMessage_lastn.
  - intros ev Hcall Hm. unfold store_step, with_console. rewrite Hc. cbv zeta.
    cbn [refs].
    destruct (MCq_step _ _ ev _ Hcall Hm (MCq_enter c (refs st) H1 H2 H5))
      as (_ & _ & _ & _ & G). exact G.
  - intros ev Hcall. unfold store_step, with_status. rewrite Hs. cbv zeta.
    cbn [refs].
    destruct (MS_step _ _ ev _ Hcall (MS_enter s (refs st) H3 H4 H6))
      as (_ & _ & _ & G1 & G2). split; assumption.
Qed.

Lemma frames_reach_the_console_buffer_witness :
  consoleMessages
    (refs (store_step (ConsoleEvent (EvMessage 0 (Some hello))) live_store))
  = [hello]
  /\ isConsoleConnected
       (store_step (ConsoleEvent (EvMessage 0 (Some hello))) live_store) = true.
Proof.
  pose proof (frames_reach_the_console_buffer false "localhost:3000" false false
                both_open eq_refl) as [H _].
  split; [exact (H 0%nat hello) | reflexivity].
Defined.

(** X17.  [disconnectAll] leaves the store without clients and with both
    status refs [{connected: false, reconnecting: false}]; from a state the
    store reaches while its clients live it keeps the console buffer, and a
    console command sent afterwards is refused. *)
Theorem disconnectAll_result (https : bool) (host : string) (t1 t2 : bool)
  (es : list StoreEvent) :
  forallb browser_only es = true ->
  let st := store_run es (connectAll https host t1 t2 empty_store) in
  disconnectAll st
  = mkStore None None
      (mkStoreData (status false false None) (status false false None)
         (consoleMessages (refs st)))
  /\ forall command now,
       fst (sendConsoleCommand command now (disconnectAll st)) = false.
Proof.
  intros Hes st.
  destruct (Synced_run es _ Hes (Synced_init https host t1 t2))
    as (c & s & Hc & Hs & H1 & H2 & H3 & H4 & H5 & H6 & H7).
  fold st in Hc, Hs, H5, H6, H7.
  assert (E : disconnectAll st
              = mkStore None None
                  (mkStoreData (status false false None) (status false false None)
                     (consoleMessages (refs st)))).
  { unfold disconnectAll, with_console. rewrite Hc. cbv zeta.
    cbn [consoleWs statusWs refs]. rewrite Hs. unfold with_status.
    cbn [consoleWs statusWs refs].
    destruct (MCq_disconnect _ _ _ (MCq_enter c (refs st) H1 H2 H5))
      as (_ & _ & G3 & G4 & G5).
    set (d := subs (disconnect (set_subs (refs st) c))) in *.
    assert (Hd : statusConnectionStatus d = connectionStatus s) by congruence.
    destruct (MS_disconnect _ _ _ (MS_enter s d H3 H4 Hd)) as (_ & _ & _ & _ & K5).
    rewrite K5, G5. reflexivity. }
  split; [exact E|]. intros command now. rewrite E. reflexivity.
Qed.

Lemma disconnectAll_result_witness :
  disconnectAll
    (store_step (ConsoleEvent (EvMessage 0 (Some hello))) live_store)
  = mkStore None None
      (mkStoreData (status false false None) (status false false None) [hello]).
Proof.
  exact (proj1 (disconnectAll_result false "localhost:3000" false false
                  (both_open ++ [ConsoleEvent (EvMessage 0%nat (Some hello))])%list
                  eq_refl)).
Defined.

(** X18.  [reconnectConsole], from a state the store reaches while its
    clients live, replaces the console client by a new one that carries the
    store's two listeners, has made one socket, has no retry behind it and
    no timer pending, and is reconnecting, as the console status ref says;
    the status client, its status ref and the console buffer are as
    before. *)
Theorem reconnectConsole_result (https : bool) (host : string) (t1 t2 : bool)
  (es : list StoreEvent) :
  forallb browser_only es = true ->
  let st := store_run es (connectAll https host t1 t2 empty_store) in
  let st' := reconnectConsole https host false st in
  exists c,
    consoleWs st' = Some c
    /\ connectionHandlers c = [consoleStatusListener]
    /\ messageHandlers c = [consoleMessageListener]
    /\ sockets c = [mkSocket CONNECTING false true false]
    /\ reconnectAttempts c = 0
    /\ timeouts c = [] /\ intervals c = []
    /\ getConnectionStatus c = status false true None
    /\ consoleStatus (refs st') = status false true None
    /\ statusWs st' = statusWs st
    /\ statusConnectionStatus (refs st') = statusConnectionStatus (refs st)
    /\ consoleMessages (refs st') = consoleMessages (refs st).
Proof.
  intros Hes st st'.
  destruct (Synced_run es _ Hes (Synced_init https host t1 t2))
    as (c & s & Hc & Hs & H1 & H2 & H3 & H4 & H5 & H6 & H7).
  fold st in Hc, Hs, H5, H6, H7.
  destruct (MCq_disconnect _ _ _ (MCq_enter c (refs st) H1 H2 H5))
    as (_ & _ & _ & G4 & G5).
  unfold st', reconnectConsole, with_console. rewrite Hc. cbv zeta.
  cbn [consoleWs statusWs refs]. unfold initConsoleWebSocket.
  cbn [consoleWs statusWs refs]. rewrite connect_eq.
  set (d := subs (disconnect (set_subs (refs st) c))) in *.
  eexists. split; [reflexivity|].
  cbn. repeat split; assumption.
Qed.

Lemma reconnectConsole_result_witness :
  let st' := reconnectConsole false "localhost:3000" false live_store in
  isConsoleConnected live_store = true
  /\ consoleStatus (refs st') = status false true None
  /\ statusConnectionStatus (refs st') = status true false None.
Proof.
  intro st'.
  destruct (reconnectConsole_result false "localhost:3000" false false both_open
              eq_refl) as (c & _ & _ & _ & _ & _ & _ & _ & _ & H9 & _ & H11 & _).
  split; [reflexivity|]. split; [exact H9 | exact H11].
Defined.
